(** * MTG-Proxyshop: card data resolution, set resolution and render set-up

    A shallow embedding of
      - [src/src/utils/scryfall.py]  (request client, set resolver,
        [parse_card_info], [process_scryfall_data]),
      - [src/proxyshop/render.py]    ([retrieve_card_info], [render]),
    followed by the properties of these functions.

    Python dictionaries are finite maps from strings to values, Python
    exceptions are an explicit result, and everything the functions do to the
    outside (clock, rate limiter, network, data directory, console log, the
    decorators' long-lived fallback objects) is threaded through a [World]. *)

From Stdlib Require Import ZArith Lia List Ascii String Bool.
From stdpp Require Import base gmap strings list fin_maps.

#[local] Set Warnings "-register-all".
#[local] Open Scope string_scope.

(* ===================================================================== *)
(** * Part I: definitions                                                 *)
(* ===================================================================== *)

(** ** Python values *)

(** [ScryfallError(url, name=, code=, number=, lang=)]: the class lives in
    [src.utils.exceptions]; only its constructor arguments are recorded. *)
Record ScryfallError := mkScryfallError {
  err_url : option string;
  err_name : option string;
  err_code : option string;
  err_number : option string;
  err_lang : option string
}.

(** JSON-like values, plus the error value that travels in the return channel. *)
Inductive value : Type :=
| VNone
| VBool (b : bool)
| VInt (n : Z)
| VStr (s : string)
| VList (l : list value)
| VDict (m : gmap string value)
| VError (e : ScryfallError).

Abbreviation dict := (gmap string value).

(** A Python reference: a value built by the call at hand, or one of the
    long-lived objects created when the module is imported (the
    [fail_response] literals handed to the decorators). *)
Inductive obj :=
| Fresh (v : value)
| Shared (name : string).

(** Truthiness, as [if x:] / [x and y] use it. *)
Definition truthy_dict (m : dict) : bool :=
  match map_to_list m with [] => false | _ :: _ => true end.

Definition truthy (v : value) : bool :=
  match v with
  | VNone => false
  | VBool b => b
  | VInt n => negb (n =? 0)%Z
  | VStr s => negb (s =? "")%string
  | VList l => match l with [] => false | _ :: _ => true end
  | VDict m => truthy_dict m
  | VError _ => true
  end.

(** [v == s] for a string literal [s]. *)
Definition eq_str (v : value) (s : string) : bool :=
  match v with VStr t => (t =? s)%string | _ => false end.

(** ** Strings *)

Definition upper_ascii (c : ascii) : ascii :=
  let n := nat_of_ascii c in
  if (97 <=? n)%nat && (n <=? 122)%nat then ascii_of_nat (n - 32) else c.

(** [str.upper()] on ASCII text. *)
Fixpoint upper (s : string) : string :=
  match s with
  | EmptyString => EmptyString
  | String c r => String (upper_ascii c) (upper r)
  end.

(** [s.startswith(p)] *)
Fixpoint starts_with (p s : string) : bool :=
  match p with
  | EmptyString => true
  | String a p' =>
      match s with
      | EmptyString => false
      | String b s' => (a =? b)%char && starts_with p' s'
      end
  end.

(** [sub in s] for strings. *)
Fixpoint str_in (sub s : string) : bool :=
  starts_with sub s ||
  match s with
  | EmptyString => false
  | String _ r => str_in sub r
  end.

Definition is_space (c : ascii) : bool :=
  let n := nat_of_ascii c in
  ((9 <=? n)%nat && (n <=? 13)%nat) || ((28 <=? n)%nat && (n <=? 32)%nat).

Fixpoint lstrip (s : string) : string :=
  match s with
  | EmptyString => EmptyString
  | String c r => if is_space c then lstrip r else s
  end.

Fixpoint rstrip (s : string) : string :=
  match s with
  | EmptyString => EmptyString
  | String c r =>
      match rstrip r with
      | EmptyString => if is_space c then EmptyString else String c EmptyString
      | r' => String c r'
      end
  end.

(** [str.strip()]. *)
Definition strip (s : string) : string := rstrip (lstrip s).


(** ** Exceptions and results *)

(** The subclasses of [Exception] that the modelled code can meet. *)
Inductive exn :=
| KeyError (key : string)
| IndexError
| TypeError
| AttributeError
| ValueError
| OSError
| RequestException
| RateLimitException (period_remaining : Z).

(** [isinstance(e, requests.exceptions.RequestException)] *)
Definition is_request_exception (e : exn) : bool :=
  match e with RequestException => true | _ => false end.

(** Outcome of running a piece of code: a value, a raised exception, or a
    loop that was cut off before it ended ([Diverge]). *)
Inductive Res (A : Type) :=
| Ok (a : A)
| Raise (e : exn)
| Diverge.
Arguments Ok {A} a.
Arguments Raise {A} e.
Arguments Diverge {A}.

(** ** The world outside the functions *)

(** What a file of the data directory gives to [load_data_file]. *)
Inductive file :=
| Loads (data : dict)
| Corrupt (e : exn).

(** Time is counted in milliseconds and passes in [time.sleep] only. *)
Record World := mkWorld {
  clock : Z;                (* monotonic clock, in milliseconds *)
  rl_last_reset : Z;        (* scryfall_rate_limit.last_reset *)
  rl_num_calls : Z;         (* scryfall_rate_limit.num_calls *)
  jitter : Z -> Z;          (* backoff's random jitter *)
  http : nat -> string -> exn + option value;
                            (* the n-th GET of the run, by url: a transport
                               exception, or a response whose body is JSON
                               ([Some]) or is not ([None]) *)
  sent : list string;       (* urls requested so far, oldest first *)
  files : gmap string file; (* the data directory *)
  writable : string -> bool;(* does dump_data_file succeed on this path *)
  console_log : list exn;   (* console.log_exception *)
  shared : gmap string dict;
                            (* the long-lived fail_response dicts; one
                               that is absent is still empty, as created *)
  calls : nat               (* ghost: entries into undecorated bodies *)
}.

Definition set_clock (t : Z) (w : World) : World :=
  mkWorld t (rl_last_reset w) (rl_num_calls w) (jitter w) (http w) (sent w)
          (files w) (writable w) (console_log w) (shared w) (calls w).

Definition set_limiter (lr nc : Z) (w : World) : World :=
  mkWorld (clock w) lr nc (jitter w) (http w) (sent w)
          (files w) (writable w) (console_log w) (shared w) (calls w).

Definition set_sent (l : list string) (w : World) : World :=
  mkWorld (clock w) (rl_last_reset w) (rl_num_calls w) (jitter w) (http w) l
          (files w) (writable w) (console_log w) (shared w) (calls w).

Definition set_files (f : gmap string file) (w : World) : World :=
  mkWorld (clock w) (rl_last_reset w) (rl_num_calls w) (jitter w) (http w) (sent w)
          f (writable w) (console_log w) (shared w) (calls w).

Definition set_console_log (l : list exn) (w : World) : World :=
  mkWorld (clock w) (rl_last_reset w) (rl_num_calls w) (jitter w) (http w) (sent w)
          (files w) (writable w) l (shared w) (calls w).

Definition set_shared (s : gmap string dict) (w : World) : World :=
  mkWorld (clock w) (rl_last_reset w) (rl_num_calls w) (jitter w) (http w) (sent w)
          (files w) (writable w) (console_log w) s (calls w).

Definition set_calls (n : nat) (w : World) : World :=
  mkWorld (clock w) (rl_last_reset w) (rl_num_calls w) (jitter w) (http w) (sent w)
          (files w) (writable w) (console_log w) (shared w) n.

(** ** A state-and-exception monad *)

Definition M (A : Type) : Type := World -> Res A * World.

Definition ret {A} (a : A) : M A := fun w => (Ok a, w).

Definition raise {A} (e : exn) : M A := fun w => (Raise e, w).

Definition bind {A B} (c : M A) (k : A -> M B) : M B := fun w =>
  match c w with
  | (Ok a, w') => k a w'
  | (Raise e, w') => (Raise e, w')
  | (Diverge, w') => (Diverge, w')
  end.

Notation "'do' x <- c ; k" := (bind c (fun x => k))
  (at level 10, x name, c at level 100, k at level 200).
Notation "c ;; k" := (bind c (fun _ => k))
  (at level 100, k at level 200, right associativity).

(** [try: body except Exception as e: handler(e)] *)
Definition try_except {A} (body : M A) (handler : exn -> M A) : M A := fun w =>
  match body w with
  | (Raise e, w') => handler e w'
  | r => r
  end.

(** Lifting a pure, possibly failing computation. *)
Definition lift {A} (r : exn + A) : M A :=
  match r with inl e => raise e | inr a => ret a end.

(** [console.log_exception(e)] *)
Definition log_exception (e : exn) : M unit := fun w =>
  (Ok tt, set_console_log (console_log w ++ [e]) w).

(** [time.sleep(d)]: a negative argument is a [ValueError]. *)
Definition sleep (d : Z) : M unit := fun w =>
  if (d <? 0)%Z then (Raise ValueError, w)
  else (Ok tt, set_clock (clock w + d) w).

(** [requests.get(url, ...)]: the request is sent, the world answers. *)
Definition requests_get (url : string) : M (option value) := fun w =>
  let w' := set_sent (sent w ++ [url]) w in
  match http w (length (sent w)) url with
  | inl e => (Raise e, w')
  | inr body => (Ok body, w')
  end.

(** [response.json()]: a body that is not JSON raises requests'
    [JSONDecodeError], a [RequestException]. *)
Definition response_json (body : option value) : M value :=
  match body with Some v => ret v | None => raise RequestException end.

(** [json.loads(response.text)]: a body that is not JSON raises
    [json.JSONDecodeError], a [ValueError]. *)
Definition json_loads_text (body : option value) : M value :=
  match body with Some v => ret v | None => raise ValueError end.

(** ** The request client (scryfall.py, lines 52-95) *)

(** [RateLimitDecorator(calls=20, period=1)] *)
Definition RATE_CALLS : Z := 20.
Definition RATE_PERIOD : Z := 1000.

(** [@scryfall_rate_limit] (package ratelimit): the window is reset once it
    has run out, the call is counted, and a call beyond the quota raises
    [RateLimitException] carrying the time left in the window. *)
Definition scryfall_rate_limit {A} (func : M A) : M A := fun w =>
  let period_remaining := (RATE_PERIOD - (clock w - rl_last_reset w))%Z in
  let w1 := if (period_remaining <=? 0)%Z then set_limiter (clock w) 0 w else w in
  let w2 := set_limiter (rl_last_reset w1) (rl_num_calls w1 + 1) w1 in
  if (RATE_CALLS <? rl_num_calls w2)%Z
  then (Raise (RateLimitException period_remaining), w2)
  else func w2.

(** [@sleep_and_retry] (package ratelimit):
    [while True: try: return func() except RateLimitException as e:
     time.sleep(e.period_remaining)].  [fuel] bounds the iterations. *)
Fixpoint sleep_and_retry {A} (fuel : nat) (func : M A) : M A := fun w =>
  match fuel with
  | O => (Diverge, w)
  | S fuel' =>
      match func w with
      | (Raise (RateLimitException period_remaining), w') =>
          (sleep period_remaining ;; sleep_and_retry fuel' func) w'
      | r => r
      end
  end.

(** backoff's [expo] wait generator, in milliseconds: 1 s, 2 s, 4 s, ... *)
Definition expo (n : nat) : Z := (1000 * 2 ^ Z.of_nat n)%Z.

(** backoff's full jitter draws from [0, value]. *)
Definition full_jitter (w : World) (v : Z) : Z := Z.min (Z.max 0 (jitter w v)) v.

(** The loop of [backoff.on_exception]: [k] tries are left after this one,
    [n] waits have been taken, [start] is the time of entry. *)
Fixpoint on_exception_loop {A} (max_time : Z) (k n : nat) (start : Z)
    (target : M A) : M A := fun w =>
  let elapsed := (clock w - start)%Z in
  match target w with
  | (Raise e, w') =>
      if is_request_exception e then
        match k with
        | O => (Raise e, w')                         (* tries == max_tries *)
        | S k' =>
            if (max_time <=? elapsed)%Z then (Raise e, w')
            else
              let seconds := Z.min (full_jitter w' (expo n)) (max_time - elapsed) in
              (sleep seconds ;; on_exception_loop max_time k' (S n) start target) w'
        end
      else (Raise e, w')
  | r => r
  end.

(** [@on_exception(expo, requests.exceptions.RequestException,
                   max_tries=..., max_time=...)] *)
Definition on_exception {A} (max_tries : nat) (max_time : Z) (target : M A) : M A :=
  fun w => on_exception_loop max_time (max_tries - 1) 0 (clock w) target w.

(** [fail_response == 'error'] *)
Definition is_error_literal (fail_response : obj) : bool :=
  match fail_response with
  | Fresh v => eq_str v "error"
  | Shared _ => false
  end.

(** [ScryfallError()] *)
Definition ScryfallError_default : ScryfallError :=
  mkScryfallError None None None None None.

(** What [handle_final_exception] hands back after an exception. *)
Definition fallback_value (fail_response : obj) : obj :=
  if is_error_literal fail_response
  then Fresh (VError ScryfallError_default)
  else fail_response.

(** [handle_final_exception(fail_response)(func)], lines 56-75. *)
Definition handle_final_exception (fail_response : obj) (func : M obj) : M obj :=
  try_except func
    (fun e => log_exception e ;; ret (fallback_value fail_response)).

(** The innermost [wrapper] of [handle_request_failure], line 92: it enters
    the undecorated function. *)
Definition enter {A} (func : M A) : M A := fun w =>
  func (set_calls (S (calls w)) w).

(** [handle_request_failure(fail_response)(func)], lines 78-95.  The
    decorators are applied from the bottom: the final catch is innermost,
    then the retry, then the rate limit, then sleep-and-retry. *)
Definition handle_request_failure (fuel : nat) (fail_response : obj)
    (func : M obj) : M obj :=
  sleep_and_retry fuel
    (scryfall_rate_limit
       (on_exception 3 1000
          (handle_final_exception fail_response (enter func)))).

(** ** The set resolver (scryfall.py, lines 144-179 and 297-336) *)

Definition SCRY_API_SETS : string := "https://api.scryfall.com/sets".
Definition MTGJSON_API : string := "https://mtgjson.com/api/v5".
Definition MTGJSON_SET_DATA_EXTRA : list string := ["sealedProduct"; "booster"; "cards"].

(** The two [{}] literals of [@handle_request_failure({})], lines 297 and
    320: each is one object for the life of the module. *)
Definition FAIL_MTGJSON : string := "get_set_mtgjson.fail_response".
Definition FAIL_SCRYFALL : string := "get_set_scryfall.fail_response".

(** The dict a reference points to. *)
Definition deref_dict (o : obj) : M dict := fun w =>
  match o with
  | Fresh (VDict m) => (Ok m, w)
  | Fresh _ => (Raise AttributeError, w)
  | Shared name => (Ok (default ∅ (shared w !! name)), w)
  end.

(** [len(v)] *)
Definition py_len (v : value) : exn + Z :=
  match v with
  | VList l => inr (Z.of_nat (length l))
  | VDict m => inr (Z.of_nat (size m))
  | VStr s => inr (Z.of_nat (String.length s))
  | _ => inl TypeError
  end.

(** [[j.pop(n) for n in keys]]: [dict.pop] without a default raises
    [KeyError] on an absent key. *)
Fixpoint pop_all (keys : list string) (j : dict) : exn + dict :=
  match keys with
  | [] => inr j
  | n :: rest =>
      match j !! n with
      | Some _ => pop_all rest (delete n j)
      | None => inl (KeyError n)
      end
  end.

(** [j.get('name')] is truthy *)
Definition has_name (j : dict) : bool :=
  match j !! "name" with Some v => truthy v | None => false end.

(** The undecorated body of [get_set_mtgjson], lines 304-317. *)
Definition get_set_mtgjson_raw (card_set : value) : M obj :=
  match card_set with
  | VStr code =>
      do body <- requests_get (MTGJSON_API ++ "/" ++ upper code ++ ".json");
      do resp <- response_json body;
      match resp with
      | VDict r =>
          match default (VDict ∅) (r !! "data") with
          | VDict j =>
              do n <- lift (py_len (default (VList []) (j !! "tokens")));
              let j1 := <["tokenCount" := VInt n]> (delete "tokens" j) in
              do j2 <- lift (pop_all MTGJSON_SET_DATA_EXTRA j1);
              ret (Fresh (VDict (if has_name j2 then j2 else ∅)))
          | VList _ => raise TypeError
          | _ => raise AttributeError
          end
      | _ => raise AttributeError
      end
  | _ => raise AttributeError
  end.

(** [@handle_request_failure({}) def get_set_mtgjson] *)
Definition get_set_mtgjson (fuel : nat) (card_set : value) : M obj :=
  handle_request_failure fuel (Shared FAIL_MTGJSON) (get_set_mtgjson_raw card_set).

(** The undecorated body of [get_set_scryfall], lines 327-336. *)
Definition get_set_scryfall_raw (card_set : string) : M obj :=
  do body <- requests_get (SCRY_API_SETS ++ "/" ++ upper card_set);
  do resp <- json_loads_text body;
  match resp with
  | VDict j =>
      let j1 := match j !! "scryfall" with
                | Some _ => j
                | None => <["scryfall" := VBool true]> j
                end in
      ret (Fresh (VDict (if has_name j1 then j1 else ∅)))
  | _ => raise AttributeError
  end.

(** [@handle_request_failure({}) def get_set_scryfall] *)
Definition get_set_scryfall (fuel : nat) (card_set : string) : M obj :=
  handle_request_failure fuel (Shared FAIL_SCRYFALL) (get_set_scryfall_raw card_set).

(** [Path(con.path_data_sets, f"SET-{card_set.upper()}.json")], as a key of
    the data directory. *)
Definition set_path (card_set : string) : string :=
  "SET-" ++ upper card_set ++ ".json".

(** [load_data_file(path)] *)
Definition load_data_file (path : string) : M dict := fun w =>
  match files w !! path with
  | Some (Loads data) => (Ok data, w)
  | Some (Corrupt e) => (Raise e, w)
  | None => (Raise OSError, w)
  end.

(** [dump_data_file(data, path)] *)
Definition dump_data_file (data : dict) (path : string) : M unit := fun w =>
  if writable w path
  then (Ok tt, set_files (<[path := Loads data]> (files w)) w)
  else (Raise OSError, w).

(** [data_scry.update(data_mtg)]: the keys of [data_mtg] are written over
    those of [data_scry], in the object [data_scry] refers to. *)
Definition dict_update (target : obj) (current other : dict) : M dict := fun w =>
  let merged := other ∪ current in
  match target with
  | Shared name => (Ok merged, set_shared (<[name := merged]> (shared w)) w)
  | Fresh _ => (Ok merged, w)
  end.

(** Lines 150-159: [Some data] is the early [return data]. *)
Definition cache_lookup (path : string) : M (option dict) := fun w =>
  match files w !! path with
  | Some _ =>
      try_except
        (do data <- load_data_file path;
         ret (match data !! "scryfall" with Some _ => Some data | None => None end))
        (fun e => log_exception e ;; ret None) w
  | None => (Ok None, w)
  end.

(** Lines 163-164: a token set is looked up under its parent's code. *)
Definition mtgjson_code (card_set : string) (d_scry : dict) : value :=
  if eq_str (default (VStr "") (d_scry !! "set_type")) "token"
  then default (VStr card_set) (d_scry !! "parent_set_code")
  else VStr card_set.

(** Line 171: [(data_mtg and data_scry) or 'printed_size' in data_scry],
    after the update. *)
Definition worth_saving (d_mtg merged : dict) : bool :=
  (truthy_dict d_mtg && truthy_dict merged)
  || match merged !! "printed_size" with Some _ => true | None => false end.

(** Lines 161-179.  The returned dict is the content of [data_scry], the
    object the caller receives. *)
Definition fetch_and_merge (fuel : nat) (card_set : string) (path : string) : M dict :=
  do data_scry <- get_set_scryfall fuel card_set;
  do d_scry <- deref_dict data_scry;
  do data_mtg <- get_set_mtgjson fuel (mtgjson_code card_set d_scry);
  do d_mtg <- deref_dict data_mtg;
  do merged <- dict_update data_scry d_scry d_mtg;
  (if worth_saving d_mtg merged
   then try_except (dump_data_file merged path) (fun e => log_exception e)
   else ret tt) ;;
  ret merged.

(** [get_set_data(card_set)] *)
Definition get_set_data (fuel : nat) (card_set : string) : M dict :=
  let path := set_path card_set in
  do hit <- cache_lookup path;
  match hit with
  | Some data => ret data
  | None => fetch_and_merge fuel card_set path
  end.

(** A run of calls, one set code after the other. *)
Fixpoint resolve_all (fuel : nat) (codes : list string) (w : World) : World :=
  match codes with
  | [] => w
  | code :: rest => resolve_all fuel rest (snd (get_set_data fuel code w))
  end.

(** ** Names imported from modules that are not part of these sources *)

(** [normalize_str] (src.utils.strings), the [TransformIcons] enumeration
    (src.enums.mtg) and the compiled patterns of [Reg] (src.utils.regex) are
    taken as given.  A pattern is known by what its [split] and its
    [search(...).group(1)] return. *)
Class Imports := {
  normalize_str : string -> bool -> string;
  TransformIcons : list string;
  TransformIcons_MELD : string;
  PATH_SPLIT_split : string -> list string;
  PATH_ARTIST_search : string -> option string;
  PATH_NUM_search : string -> option string;
  PATH_SET_search : string -> option string
}.

(** ** Pure code that may raise *)

Definition ebind {A B} (r : exn + A) (k : A -> exn + B) : exn + B :=
  match r with inl e => inl e | inr a => k a end.

Notation "'let?' x := r 'in' k" := (ebind r (fun x => k))
  (at level 10, x name, r at level 100, k at level 200).

(** [d[k]] on a dict *)
Definition get_item (d : dict) (k : string) : exn + value :=
  match d !! k with Some v => inr v | None => inl (KeyError k) end.

(** [v[k]] for a string key: only a dict can be subscripted that way. *)
Definition subscript (v : value) (k : string) : exn + value :=
  match v with VDict d => get_item d k | _ => inl TypeError end.

(** [v[i]] for an index into a list *)
Definition index (v : value) (i : nat) : exn + value :=
  match v with
  | VList l => match l !! i with Some x => inr x | None => inl IndexError end
  | _ => inl TypeError
  end.

(** [s in v] for a string [s]: substring of a string, member of a list, key
    of a dict. *)
Definition py_in (s : string) (v : value) : exn + bool :=
  match v with
  | VStr t => inr (str_in s t)
  | VList l => inr (existsb (fun x => eq_str x s) l)
  | VDict d => inr (match d !! s with Some _ => true | None => false end)
  | _ => inl TypeError
  end.

(** [for x in v] over a JSON array *)
Definition iter_list (v : value) : exn + list value :=
  match v with VList l => inr l | _ => inl TypeError end.

(** ** Layout classification (scryfall.py, lines 396-457) *)

Section Classification.
Context `{Imports}.

(** [normalize_str(v, True)] on a string value *)
Definition normalized (v : value) : exn + string :=
  match v with VStr s => inr (normalize_str s true) | _ => inl TypeError end.

(** [part.get('component') == s] *)
Definition component_is (part : value) (s : string) : exn + bool :=
  match part with
  | VDict p => inr (eq_str (default VNone (p !! "component")) s)
  | _ => inl AttributeError
  end.

(** The loop of lines 406-410 over [all_parts]. *)
Fixpoint split_parts (parts front : list value) (back : value)
    : exn + (list value * value) :=
  match parts with
  | [] => inr (front, back)
  | part :: rest =>
      let? is_part := component_is part "meld_part" in
      let front' := if is_part then (front ++ [part])%list else front in
      let? is_result := component_is part "meld_result" in
      let back' := if is_result then part else back in
      split_parts rest front' back'
  end.

(** Lines 413-416: the test that the queried card is the result or the first
    part. [or] looks at its second operand only when the first is false. *)
Definition meld_name_matches (data : dict) (front : list value) (back : value)
    : exn + bool :=
  let? queried := get_item data "name_normalized" in
  let? back_name := subscript back "name" in
  let? nb := normalized back_name in
  if eq_str queried nb then inr true
  else
    let? queried' := get_item data "name_normalized" in
    let? f0 := index (VList front) 0 in
    let? f0_name := subscript f0 "name" in
    let? n0 := normalized f0_name in
    inr (eq_str queried' n0).

(** Lines 405-416: [faces]. *)
Definition meld_faces (data : dict) : exn + list value :=
  let? parts := iter_list (default (VList []) (data !! "all_parts")) in
  let? fb := split_parts parts [] VNone in
  let front := fst fb in
  let back := snd fb in
  let? matches := meld_name_matches data front back in
  if matches
  then let? f0 := index (VList front) 0 in inr [f0; back]
  else let? f1 := index (VList front) 1 in inr [f1; back].

(** [{**requests.get(n['uri'], headers=con.http_header).json(),
      'object': 'card_face'}], line 420. *)
Definition fetch_face (n : value) : M value :=
  do uri <- lift (subscript n "uri");
  match uri with
  | VStr url =>
      do body <- requests_get url;
      do card <- response_json body;
      match card with
      | VDict c => ret (VDict (<["object" := VStr "card_face"]> c))
      | _ => raise TypeError
      end
  | _ => raise RequestException
  end.

Fixpoint fetch_faces (faces : list value) : M (list value) :=
  match faces with
  | [] => ret []
  | n :: rest =>
      do f <- fetch_face n;
      do fs <- fetch_faces rest;
      ret (f :: fs)
  end.

(** [n in TransformIcons] *)
Definition is_transform_icon (n : value) : bool :=
  match n with
  | VStr s => existsb (fun icon => (icon =? s)%string) TransformIcons
  | _ => false
  end.

(** Lines 424-426. *)
Definition add_meld_icon (data : dict) : exn + dict :=
  let? effects := iter_list (default (VList []) (data !! "frame_effects")) in
  if negb (existsb is_transform_icon effects)
  then inr (<["frame_effects" := VList (effects ++ [VStr TransformIcons_MELD])%list]> data)
  else inr data.

(** Lines 405-427, the body of [if data['layout'] == 'meld']. *)
Definition meld_block (data : dict) : M dict :=
  do faces <- lift (meld_faces data);
  do card_faces <- fetch_faces faces;
  let data1 := <["card_faces" := VList card_faces]> data in
  do data2 <- lift (add_meld_icon data1);
  ret (<["layout" := VStr "transform"]> data2).

(** Lines 432-434: the face the queried name selects. *)
Definition select_face (data : dict) (card_faces : value) : exn + value :=
  let? face0 := index card_faces 0 in
  let? name0 := subscript face0 "name" in
  let? n0 := normalized name0 in
  let? queried := get_item data "name_normalized" in
  if eq_str queried n0 then index card_faces 0 else index card_faces 1.

(** Lines 431-444, the body of [if 'card_faces' in data]. *)
Definition faces_block (data : dict) (card_faces : value) : exn + dict :=
  let? card := select_face data card_faces in
  let? type_line := subscript card "type_line" in
  let? is_pw := py_in "Planeswalker" type_line in
  let? data1 :=
    (if is_pw
     then let? layout := get_item data "layout" in
          inr (<["layout" := VStr (if eq_str layout "transform"
                                   then "planeswalker_tf"
                                   else "planeswalker_mdfc")]> data)
     else inr data) in
  let? type_line' := subscript card "type_line" in
  let? is_saga := py_in "Saga" type_line' in
  let data2 := if is_saga then <["layout" := VStr "saga"]> data1 else data1 in
  let? type_line'' := subscript card "type_line" in
  let? is_battle := py_in "Battle" type_line'' in
  inr (if is_battle then <["layout" := VStr "battle"]> data2 else data2).

(** Lines 446-457, reached only without [card_faces]. *)
Definition single_face_checks (data : dict) : exn + dict :=
  let? is_mutate := py_in "Mutate" (default (VList []) (data !! "keywords")) in
  if is_mutate then inr (<["layout" := VStr "mutate"]> data)
  else
    let? is_pw := py_in "Planeswalker" (default (VStr "") (data !! "type_line")) in
    if is_pw then inr (<["layout" := VStr "planeswalker"]> data)
    else inr data.

(** Lines 429-457: everything after the meld block. *)
Definition classify (data : dict) : exn + dict :=
  match data !! "card_faces" with
  | Some card_faces => faces_block data card_faces
  | None => single_face_checks data
  end.

(** [process_scryfall_data(data)] *)
Definition process_scryfall_data (data : dict) : M dict :=
  do layout <- lift (get_item data "layout");
  do data' <- (if eq_str layout "meld" then meld_block data else ret data);
  lift (classify data').

End Classification.

(** ** Regular expressions of render.py, as scans over the text *)

Definition newline : ascii := "010"%char.

(** [.*?] followed by the closing bracket: the shortest run of characters
    other than a line break that ends at a [close].  Returns group 1 and the
    number of characters taken, the bracket included. *)
Fixpoint lazy_until (close : ascii) (s : string) : option (string * nat) :=
  match s with
  | EmptyString => None
  | String c r =>
      if (c =? close)%char then Some (EmptyString, 1)
      else if (c =? newline)%char then None
      else match lazy_until close r with
           | Some (g, n) => Some (String c g, S n)
           | None => None
           end
  end.

(** The greedy run of opening brackets: what follows it, and its length. *)
Fixpoint skip_opens (open : ascii) (s : string) : string * nat :=
  match s with
  | EmptyString => (EmptyString, 0)
  | String c r =>
      if (c =? open)%char
      then let (rest, k) := skip_opens open r in (rest, S k)
      else (s, 0)
  end.

(** One match of [open+(.*?)close] starting at the head of [s]. *)
Definition match_here (open close : ascii) (s : string) : option (string * nat) :=
  match skip_opens open s with
  | (_, O) => None
  | (rest, S k) =>
      match lazy_until close rest with
      | Some (g, n) => Some (g, S k + n)
      | None => None
      end
  end.

(** The scan of [re.findall]: [skip] characters still belong to the last
    match; elsewhere a match is tried at every position from the left. *)
Fixpoint findall_from (open close : ascii) (skip : nat) (s : string) : list string :=
  match s with
  | EmptyString => []
  | String _ r =>
      match skip with
      | S k => findall_from open close k r
      | O =>
          match match_here open close s with
          | Some (g, n) => g :: findall_from open close (n - 1) r
          | None => findall_from open close 0 r
          end
      end
  end.

(** [re.findall(r'\<open>+(.*?)\<close>', s)] *)
Definition findall (open close : ascii) (s : string) : list string :=
  findall_from open close 0 s.

(** [sep = [' {', ' [', ' (']]: does one of them start here. *)
Definition at_separator (s : string) : bool :=
  starts_with " {" s || starts_with " [" s || starts_with " (" s.

(** The scan of [re.split] on the three separators; [piece] is the text
    since the last separator. *)
Fixpoint split_from (skip : nat) (piece s : string) : list string :=
  match s with
  | EmptyString => [piece]
  | String c r =>
      match skip with
      | S k => split_from k piece r
      | O =>
          if at_separator s then piece :: split_from 1 EmptyString r
          else split_from 0 (piece ++ String c EmptyString) r
      end
  end.

(** [re.split('|'.join(map(re.escape, sep)), s)] *)
Definition re_split_sep (s : string) : list string := split_from 0 EmptyString s.

(** [s[:-4]] *)
Definition drop_last4 (s : string) : string :=
  String.substring 0 (String.length s - 4) s.

(** ** render.py: [retrieve_card_info] (lines 13-40) *)

Record card_info := mk_card_info {
  card_name : string;
  card_artist : option string;
  card_set : option string;
  card_creator : option string
}.

(** [x = x[0] if x else None] *)
Definition first_or_None (l : list string) : option string :=
  match l with x :: _ => Some x | [] => None end.

Definition retrieve_card_info (filename : string) : card_info :=
  let fn_split := re_split_sep (drop_last4 filename) in
  let name := hd EmptyString fn_split in
  let creator := findall "{" "}" filename in
  let artist := findall "(" ")" filename in
  let set_code := findall "[" "]" filename in
  {| card_name := name;
     card_artist := first_or_None artist;
     card_set := first_or_None set_code;
     card_creator := first_or_None creator |}.


(** ** scryfall.py: [parse_card_info] (lines 357-380) *)

(** [s.rfind(c)] *)
Fixpoint rfind (c : ascii) (s : string) : option nat :=
  match s with
  | EmptyString => None
  | String a r =>
      match rfind c r with
      | Some i => Some (S i)
      | None => if (a =? c)%char then Some 0 else None
      end
  end.

(** [Path.stem], on the final component of the path: the name up to its
    last dot, when that dot is neither first nor last. *)
Definition stem (name : string) : string :=
  match rfind "." name with
  | Some i =>
      if (0 <? i)%nat && (i <? String.length name - 1)%nat
      then String.substring 0 i name
      else name
  | None => name
  end.

Record CardDetails := mkCardDetails {
  cd_filename : string;
  cd_name : string;
  cd_set : string;
  cd_artist : string;
  cd_number : string;
  cd_creator : string
}.

Section FilenameParser.
Context `{Imports}.

(** [file_path] is given by its final component. *)
Definition parse_card_info (file_path : string) : CardDetails :=
  let file_name := stem file_path in
  let name_split := PATH_SPLIT_split file_name in
  let artist := PATH_ARTIST_search file_name in
  let number := PATH_NUM_search file_name in
  let code := PATH_SET_search file_name in
  {| cd_filename := file_path;
     cd_name := strip (hd EmptyString name_split);
     cd_set := match code with Some g => g | None => EmptyString end;
     cd_artist := match artist with Some g => g | None => EmptyString end;
     cd_number := match number, code with
                  | Some g, Some _ => g
                  | _, _ => EmptyString
                  end;
     cd_creator := if str_in "$" file_name
                   then List.last name_split EmptyString
                   else EmptyString |}.

End FilenameParser.

(** ** render.py: [render] (lines 43-108) *)

(** The attributes of a layout object that [render] reads or writes; the
    classes themselves live in [proxyshop.layouts]. *)
Record Layout := mkLayout {
  layout_data : value;
  layout_artist : value;
  layout_set : value;
  card_class : string;
  card_count : value;
  collector_number : value;
  creator : value
}.

Definition with_artist (a : value) (l : Layout) : Layout :=
  mkLayout (layout_data l) a (layout_set l) (card_class l) (card_count l)
           (collector_number l) (creator l).

Definition with_card_count (c : value) (l : Layout) : Layout :=
  mkLayout (layout_data l) (layout_artist l) (layout_set l) (card_class l) c
           (collector_number l) (creator l).

Definition with_collector_number (n : value) (l : Layout) : Layout :=
  mkLayout (layout_data l) (layout_artist l) (layout_set l) (card_class l)
           (card_count l) n (creator l).

Definition with_creator (c : value) (l : Layout) : Layout :=
  mkLayout (layout_data l) (layout_artist l) (layout_set l) (card_class l)
           (card_count l) (collector_number l) c.

(** What [render] calls in other modules: [con.basic_land_names],
    [os.path.basename], [layouts.BasicLand], [scry.card_info],
    [layouts.layout_map], [scry.set_info], [loader.get_template_class],
    [loader.get_template] and the template's [execute]. *)
Class RenderEnv := {
  Template : Type;
  basic_land_names : list string;
  basename : string -> string;
  BasicLand : string -> option string -> string -> exn + Layout;
  scry_card_info : string -> option string -> exn + value;
  layout_map : string -> option (value -> string -> exn + Layout);
  scry_set_info : value -> exn + value;
  get_template_class : value -> exn + option Template;
  get_template : value -> string -> exn + option Template;
  execute : Template -> Layout -> string -> exn + unit
}.

(** Why a job stops at an [input(...)] prompt followed by [exit()]. *)
Inductive stop :=
| UnsupportedLayout (layout : value)
| NoTemplate.

Inductive outcome :=
| Uncaught (e : exn)       (* an exception leaves [render] *)
| Exited (why : stop)
| Rendered (l : Layout).   (* the template was executed on this layout *)

Section Render.
Context `{RenderEnv}.

(** [if s:] for an optional string *)
Definition truthy_opt (s : option string) : bool :=
  match s with Some t => negb (t =? "")%string | None => false end.

Definition opt_value (s : option string) : value :=
  match s with Some t => VStr t | None => VNone end.

(** Line 56: the arguments are evaluated, then the class is called.
    [None.upper()] is an [AttributeError]. *)
Definition basic_land_layout (card : card_info) : exn + Layout :=
  match card_set card with
  | None => inl AttributeError
  | Some code => BasicLand (card_name card) (card_artist card) (upper code)
  end.

(** Line 64: [layouts.layout_map[scryfall['layout']](scryfall, card['name'])] *)
Definition mapped_layout (scryfall : value) (name : string) : exn + Layout :=
  let? key := subscript scryfall "layout" in
  match key with
  | VStr k =>
      match layout_map k with
      | Some construct => construct scryfall name
      | None => inl (KeyError k)
      end
  | _ => inl TypeError
  end.

(** Lines 76-80. *)
Definition set_card_count (mtgset : value) : value :=
  match subscript mtgset "printed_size" with
  | inr v => v
  | inl _ =>
      match subscript mtgset "card_count" with
      | inr v => v
      | inl _ => VStr "XXX"
      end
  end.

(** Lines 53-80: the layout, with the Scryfall data when it was fetched. *)
Definition build_layout (card : card_info) : outcome + (Layout * option value) :=
  if existsb (fun n => (n =? card_name card)%string) basic_land_names then
    match basic_land_layout card with
    | inl e => inl (Uncaught e)
    | inr layout => inr (layout, None)
    end
  else
    match scry_card_info (card_name card) (card_set card) with
    | inl e => inl (Uncaught e)
    | inr scryfall =>
        match mapped_layout scryfall (card_name card) with
        | inl _ =>
            match subscript scryfall "layout" with
            | inl e => inl (Uncaught e)
            | inr v => inl (Exited (UnsupportedLayout v))
            end
        | inr layout =>
            let layout1 :=
              if truthy_opt (card_artist card)
              then with_artist (opt_value (card_artist card)) layout
              else layout in
            match scry_set_info (layout_set layout1) with
            | inl e => inl (Uncaught e)
            | inr mtgset =>
                inr (with_card_count (set_card_count mtgset) layout1, Some scryfall)
            end
        end
    end.

(** Lines 83-85. *)
Definition select_template (template : value) (layout : Layout)
    : exn + option Template :=
  match template with
  | VDict t =>
      let? entry := get_item t (card_class layout) in
      get_template_class entry
  | _ => get_template template (card_class layout)
  end.

(** Lines 87-104. *)
Definition run_template (file : string) (card : card_info) (template : value)
    (layout : Layout) (scryfall : option value) : outcome :=
  match select_template template layout with
  | inl e => Uncaught e
  | inr None => Exited NoTemplate
  | inr (Some card_template) =>
      let number :=
        match scryfall with
        | Some data =>
            match subscript data "collector_number" with
            | inr v => v
            | inl _ => VNone
            end
        | None => VNone
        end in
      let layout1 := with_collector_number number layout in
      let layout2 :=
        with_creator (if truthy_opt (card_creator card)
                      then opt_value (card_creator card) else VNone) layout1 in
      match execute card_template layout2 file with
      | inl e => Uncaught e
      | inr _ => Rendered layout2
      end
  end.

(** [render(file, template)] *)
Definition render (file : string) (template : value) : outcome :=
  let card := retrieve_card_info (basename file) in
  match build_layout card with
  | inl stopped => stopped
  | inr (layout, scryfall) => run_template file card template layout scryfall
  end.

End Render.

(** ** Predicates used in the statements *)

(** Two worlds that differ at most in the clock and the rate limiter. *)
Definition same_but_time (w w1 : World) : Prop :=
  jitter w1 = jitter w /\ http w1 = http w /\ sent w1 = sent w /\
  files w1 = files w /\ writable w1 = writable w /\
  console_log w1 = console_log w /\ shared w1 = shared w /\ calls w1 = calls w.

(** Two worlds with the same data directory and the same fallback objects. *)
Definition same_store (w w1 : World) : Prop :=
  files w1 = files w /\ shared w1 = shared w /\ writable w1 = writable w.

(** A set record is usable when it is empty or has a truthy [name]. *)
Definition named_or_empty (d : dict) : Prop := d = ∅ \/ has_name d = true.

(** The fallback dicts are usable set records. *)
Definition fallbacks_named (w : World) : Prop :=
  forall name d, shared w !! name = Some d -> named_or_empty d.

(** A freshly built dict that is a usable set record. *)
Definition is_set_record (o : obj) : Prop :=
  exists j, o = Fresh (VDict j) /\ named_or_empty j.

(** [func] ends, by a value that satisfies [P] or by an exception, and
    leaves the store alone. *)
Definition ends_with {A} (P : A -> Prop) (func : M A) : Prop :=
  forall w,
    match func w with
    | (Ok a, w') => same_store w w' /\ P a
    | (Raise _, w') => same_store w w'
    | (Diverge, _) => False
    end.

(** [part] is a dict whose [component] is [s]. *)
Definition has_component (s : string) (part : value) : bool :=
  match part with
  | VDict p => eq_str (default VNone (p !! "component")) s
  | _ => false
  end.

Definition is_dict (v : value) : Prop := exists d, v = VDict d.

(** The layouts the [card_faces] branch can assign. *)
Definition two_face_layouts : list string :=
  ["planeswalker_tf"; "planeswalker_mdfc"; "saga"; "battle"].

(** How many entries of a [frame_effects] list are the meld marker. *)
Definition count_meld `{Imports} (effects : list value) : nat :=
  length (List.filter (fun v => eq_str v TransformIcons_MELD) effects).

(** The three kinds of tag of a file name. *)
Inductive bracket := Curly | Round | Square.

Definition opener (k : bracket) : ascii :=
  match k with Curly => "{" | Round => "(" | Square => "[" end%char.

Definition closer (k : bracket) : ascii :=
  match k with Curly => "}" | Round => ")" | Square => "]" end%char.

Definition bracket_eqb (k k' : bracket) : bool :=
  match k, k' with
  | Curly, Curly | Round, Round | Square, Square => true
  | _, _ => false
  end.

Definition is_bracket (c : ascii) : bool :=
  (c =? "{")%char || (c =? "}")%char || (c =? "(")%char || (c =? ")")%char
  || (c =? "[")%char || (c =? "]")%char.

Fixpoint all_chars (P : ascii -> bool) (s : string) : bool :=
  match s with
  | EmptyString => true
  | String c r => P c && all_chars P r
  end.

(** Text without bracket characters. *)
Definition plain (s : string) : Prop :=
  all_chars (fun c => negb (is_bracket c)) s = true.

(** Text without bracket characters and without line breaks. *)
Definition clean (s : string) : Prop :=
  all_chars (fun c => negb (is_bracket c) && negb (c =? newline)%char) s = true.

(** [" {content}"], [" (content)"] or [" [content]"]. *)
Definition tag_text (t : bracket * string) : string :=
  String " " (String (opener (fst t)) (snd t ++ String (closer (fst t)) EmptyString)).

Fixpoint tags_text (tags : list (bracket * string)) : string :=
  match tags with
  | [] => EmptyString
  | t :: rest => tag_text t ++ tags_text rest
  end.

(** The contents of the tags of kind [k], in order. *)
Fixpoint contents_of (k : bracket) (tags : list (bracket * string)) : list string :=
  match tags with
  | [] => []
  | t :: rest =>
      if bracket_eqb k (fst t) then snd t :: contents_of k rest
      else contents_of k rest
  end.

(** Text without a dollar sign. *)
Definition no_dollar (s : string) : Prop :=
  all_chars (fun c => negb (c =? "$")%char) s = true.

(** [func] never lets a [RateLimitException] out. *)
Definition no_rate_limit_exception {A} (func : M A) : Prop :=
  forall w rem, fst (func w) <> Raise (RateLimitException rem).

(** ** Sample inputs *)

(** A world at time zero: nothing requested, an empty data directory that
    can be written, the fallback objects as created.  [net] is the
    network. *)
Definition world_at_start (net : nat -> string -> exn + option value) : World :=
  mkWorld 0 0 0 (fun _ => 0%Z) net [] ∅ (fun _ => true) [] ∅ 0.

(** No connection: every request fails in transport. *)
Definition net_down : nat -> string -> exn + option value :=
  fun _ _ => inl RequestException.

(** The set record Scryfall serves for a set code. *)
Definition scryfall_mh2 : dict :=
  <["name" := VStr "Modern Horizons 2"]>
  (<["code" := VStr "mh2"]>
  (<["set_type" := VStr "draft_innovation"]>
  (<["printed_size" := VInt 303]> ∅))).

(** The first request is lost, every later one is answered. *)
Definition net_flaky : nat -> string -> exn + option value :=
  fun n _ => match n with
             | O => inl RequestException
             | S _ => inr (Some (VDict scryfall_mh2))
             end.

(** What MTGJSON serves for the same set, in its [data] envelope. *)
Definition mtgjson_mh2 : dict :=
  <["name" := VStr "Modern Horizons 2"]>
  (<["code" := VStr "MH2"]>
  (<["tokens" := VList [VDict ∅; VDict ∅]]>
  (<["sealedProduct" := VList []]>
  (<["booster" := VDict ∅]>
  (<["cards" := VList []]> ∅))))).

(** The two records as the request functions hand them on: Scryfall's with
    the [scryfall] marker, MTGJSON's with the listings dropped and the
    tokens counted. *)
Definition scryfall_mh2_marked : dict := <["scryfall" := VBool true]> scryfall_mh2.

Definition mtgjson_mh2_stripped : dict :=
  <["name" := VStr "Modern Horizons 2"]>
  (<["code" := VStr "MH2"]>
  (<["tokenCount" := VInt 2]> ∅)).

(** Both providers answer, each at its own address. *)
Definition net_sets : nat -> string -> exn + option value :=
  fun _ url =>
    if (url =? "https://api.scryfall.com/sets/MH2")%string
    then inr (Some (VDict scryfall_mh2))
    else if (url =? "https://mtgjson.com/api/v5/MH2.json")%string
    then inr (Some (VDict (<["data" := VDict mtgjson_mh2]> ∅)))
    else inl RequestException.

(** Sample values of the imports: case folding for [normalize_str], the
    frame-effect names of Scryfall's double-faced icons for
    [TransformIcons], and patterns in the style of render.py. *)
Definition sample_imports : Imports := {|
  normalize_str := fun s _ => upper s;
  TransformIcons := ["sunmoondfc"; "compasslanddfc"; "originpwdfc";
                     "mooneldrazidfc"; "meld"];
  TransformIcons_MELD := "meld";
  PATH_SPLIT_split := re_split_sep;
  PATH_ARTIST_search := fun s => first_or_None (findall "(" ")" s);
  PATH_NUM_search := fun s => first_or_None (findall "{" "}" s);
  PATH_SET_search := fun s => first_or_None (findall "[" "]" s)
|}.

Definition related (component name uri : string) : value :=
  VDict (<["component" := VStr component]>
        (<["name" := VStr name]>
        (<["uri" := VStr uri]> ∅))).

Definition bruna_part : value := related "meld_part" "Bruna, the Fading Light" "cards/emn/15".
Definition gisela_part : value := related "meld_part" "Gisela, the Broken Blade" "cards/emn/28".
Definition brisela_part : value := related "meld_result" "Brisela, Voice of Nightmares" "cards/emn/15b".

(** The record of a meld card, as queried by the name of its first part. *)
Definition bruna_record : dict :=
  <["name" := VStr "Bruna, the Fading Light"]>
  (<["name_normalized" := VStr "BRUNA, THE FADING LIGHT"]>
  (<["layout" := VStr "meld"]>
  (<["type_line" := VStr "Legendary Creature - Angel Horror"]>
  (<["all_parts" := VList [bruna_part; gisela_part; brisela_part]]> ∅)))).

Definition face (name type_line : string) : dict :=
  <["name" := VStr name]> (<["type_line" := VStr type_line]> ∅).

(** The cards behind the [uri]s of the parts. *)
Definition net_meld : nat -> string -> exn + option value :=
  fun _ url =>
    if (url =? "cards/emn/15")%string
    then inr (Some (VDict (face "Bruna, the Fading Light" "Legendary Creature - Angel Horror")))
    else if (url =? "cards/emn/28")%string
    then inr (Some (VDict (face "Gisela, the Broken Blade" "Legendary Creature - Angel Horror")))
    else if (url =? "cards/emn/15b")%string
    then inr (Some (VDict (face "Brisela, Voice of Nightmares" "Legendary Creature - Eldrazi Angel")))
    else inl RequestException.

(** Scryfall is unreachable, MTGJSON answers. *)
Definition net_mtgjson_only : nat -> string -> exn + option value :=
  fun _ url =>
    if (url =? "https://mtgjson.com/api/v5/MH2.json")%string
    then inr (Some (VDict (<["data" := VDict mtgjson_mh2]> ∅)))
    else inl RequestException.

(** The faces fetched for [bruna_record], the record after processing and
    the world after the two requests. *)
Definition bruna_faces : list value :=
  [VDict (<["object" := VStr "card_face"]>
            (face "Bruna, the Fading Light" "Legendary Creature - Angel Horror"));
   VDict (<["object" := VStr "card_face"]>
            (face "Brisela, Voice of Nightmares" "Legendary Creature - Eldrazi Angel"))].

Definition bruna_processed : dict :=
  <["layout" := VStr "transform"]>
  (<["frame_effects" := VList [VStr "meld"]]>
  (<["card_faces" := VList bruna_faces]> bruna_record)).

Definition world_after_bruna : World :=
  set_sent ["cards/emn/15"; "cards/emn/15b"] (world_at_start net_meld).

(** A modal double-faced card, queried by the name of its back face, a
    planeswalker. *)
Definition valki_front : value :=
  VDict (face "Valki, God of Lies" "Legendary Creature - God").
Definition tibalt_back : value :=
  VDict (face "Tibalt, Cosmic Impostor" "Legendary Planeswalker - Tibalt").

Definition tibalt_record : dict :=
  <["name_normalized" := VStr "TIBALT, COSMIC IMPOSTOR"]>
  (<["layout" := VStr "modal_dfc"]>
  (<["keywords" := VList [VStr "Mutate"]]>
  (<["type_line" := VStr "Legendary Creature - God // Legendary Planeswalker - Tibalt"]>
  (<["card_faces" := VList [valki_front; tibalt_back]]> ∅)))).

(** A transform record whose front face is a planeswalker and a saga. *)
Definition walker_saga_record : dict :=
  <["name_normalized" := VStr "THE WANDERER'S TALE"]>
  (<["layout" := VStr "transform"]>
  (<["card_faces" := VList [VDict (face "The Wanderer's Tale" "Legendary Planeswalker Saga");
                            VDict (face "The Tale's End" "Legendary Creature - Spirit")]]> ∅)).

(** A sample environment for [render]: the five basic lands, file names
    given without directories, layouts that keep what they are built from,
    one template for every layout. *)
Definition sample_env : RenderEnv := {|
  Template := unit;
  basic_land_names := ["Plains"; "Island"; "Swamp"; "Mountain"; "Forest"];
  basename := fun file => file;
  BasicLand := fun name artist code =>
    inr (mkLayout (VStr name)
           (match artist with Some a => VStr a | None => VNone end)
           (VStr code) "BasicLand" VNone VNone VNone);
  scry_card_info := fun _ _ => inl RequestException;
  layout_map := fun _ => None;
  scry_set_info := fun _ => inl RequestException;
  get_template_class := fun _ => inr (Some tt);
  get_template := fun _ _ => inr (Some tt);
  execute := fun _ _ _ => inr tt
|}.

(** The url of a set at Scryfall and at MTGJSON. *)
Definition scryfall_set_url (card_set : string) : string :=
  SCRY_API_SETS ++ "/" ++ upper card_set.
Definition mtgjson_set_url (card_set : string) : string :=
  MTGJSON_API ++ "/" ++ upper card_set ++ ".json".

(** [j.setdefault('scryfall', True)] *)
Definition with_marker (j : dict) : dict :=
  match j !! "scryfall" with
  | Some _ => j
  | None => <["scryfall" := VBool true]> j
  end.

(** Lines 311-314 on a record that has the three listings. *)
Definition stripped (j : dict) (n : Z) : dict :=
  delete "cards" (delete "booster" (delete "sealedProduct"
    (<["tokenCount" := VInt n]> (delete "tokens" j)))).

(** What a wrapped request function leaves behind besides its result: the
    request it sent and the exceptions it logged. *)
Definition after_request (url : string) (logged : list exn) (w w' : World) : Prop :=
  sent w' = (sent w ++ [url])%list /\
  console_log w' = (console_log w ++ logged)%list /\
  http w' = http w /\ files w' = files w /\ shared w' = shared w /\
  writable w' = writable w.

(** What the body of [get_set_mtgjson] makes of an answer. *)
Definition mtgjson_outcome (answer : exn + option value) : exn + dict :=
  match answer with
  | inl e => inl e
  | inr None => inl RequestException
  | inr (Some (VDict r)) =>
      match default (VDict ∅) (r !! "data") with
      | VDict j =>
          let? n := py_len (default (VList []) (j !! "tokens")) in
          let? j2 := pop_all MTGJSON_SET_DATA_EXTRA
                       (<["tokenCount" := VInt n]> (delete "tokens" j)) in
          inr (if has_name j2 then j2 else ∅)
      | VList _ => inl TypeError
      | _ => inl AttributeError
      end
  | inr (Some _) => inl AttributeError
  end.

(** What the body of [get_set_scryfall] makes of an answer. *)
Definition scryfall_outcome (answer : exn + option value) : exn + dict :=
  match answer with
  | inl e => inl e
  | inr None => inl ValueError
  | inr (Some (VDict j)) => inr (if has_name (with_marker j) then with_marker j else ∅)
  | inr (Some _) => inl AttributeError
  end.

(** The dict a decorated set function hands to [get_set_data]: its own
    result, or the content of its fallback object. *)
Definition handed_on (outcome : exn + dict) (fallback : string) (w : World) : dict :=
  match outcome with
  | inr d => d
  | inl _ => default ∅ (shared w !! fallback)
  end.

Definition logged_by {A} (outcome : exn + A) : list exn :=
  match outcome with inl e => [e] | inr _ => [] end.

(** The reference a decorated set function returns. *)
Definition returned (outcome : exn + dict) (fallback : string) : obj :=
  match outcome with
  | inr d => Fresh (VDict d)
  | inl _ => Shared fallback
  end.

(** An MTGJSON record without the [sealedProduct] listing. *)
Definition mtgjson_no_sealed : dict := delete "sealedProduct" mtgjson_mh2.

Definition net_no_sealed : nat -> string -> exn + option value :=
  fun _ url =>
    if (url =? "https://mtgjson.com/api/v5/MH2.json")%string
    then inr (Some (VDict (<["data" := VDict mtgjson_no_sealed]> ∅)))
    else inl RequestException.

(** A token set, as Scryfall serves it. *)
Definition scryfall_tmh2 : dict :=
  <["name" := VStr "Modern Horizons 2 Tokens"]>
  (<["code" := VStr "tmh2"]>
  (<["set_type" := VStr "token"]>
  (<["parent_set_code" := VStr "mh2"]> ∅))).

Definition net_tokens : nat -> string -> exn + option value :=
  fun _ url =>
    if (url =? "https://api.scryfall.com/sets/TMH2")%string
    then inr (Some (VDict scryfall_tmh2))
    else net_sets 0 url.

(** A world whose data directory cannot be written. *)
Definition world_read_only (net : nat -> string -> exn + option value) : World :=
  mkWorld 0 0 0 (fun _ => 0%Z) net [] ∅ (fun _ => false) [] ∅ 0.

(** Only the second request of the run is answered, by MTGJSON. *)
Definition net_second_only : nat -> string -> exn + option value :=
  fun n _ =>
    match n with
    | 1%nat => inr (Some (VDict (<["data" := VDict mtgjson_mh2]> ∅)))
    | _ => inl RequestException
    end.

(** The keys [process_scryfall_data] may write. *)
Definition classification_keys : list string :=
  ["layout"; "card_faces"; "frame_effects"].

(** A meld record whose parts name no result. *)
Definition orphan_meld_record : dict :=
  <["name_normalized" := VStr "BRUNA, THE FADING LIGHT"]>
  (<["layout" := VStr "meld"]>
  (<["all_parts" := VList [bruna_part; gisela_part]]> ∅)).

(** A single-faced card with the Mutate keyword. *)
Definition brokkos_record : dict :=
  <["name_normalized" := VStr "BROKKOS, APEX OF FOREVER"]>
  (<["layout" := VStr "normal"]>
  (<["keywords" := VList [VStr "Mutate"; VStr "Trample"]]>
  (<["type_line" := VStr "Legendary Creature - Nightmare Beast Elemental"]> ∅))).

(** A transform card, queried by the name of its back face, a planeswalker. *)
Definition bolas_front : value :=
  VDict (face "Nicol Bolas, the Ravager" "Legendary Creature - Elder Dragon").
Definition bolas_back : value :=
  VDict (face "Nicol Bolas, the Arisen" "Legendary Planeswalker - Bolas").

Definition bolas_record : dict :=
  <["name_normalized" := VStr "NICOL BOLAS, THE ARISEN"]>
  (<["layout" := VStr "transform"]>
  (<["card_faces" := VList [bolas_front; bolas_back]]> ∅)).

(** ** The card requests (scryfall.py, lines 103-141, 187-294, 383-393) *)
Definition SCRY_API_CARDS : string := "https://api.scryfall.com/cards".
Definition SCRY_API_CARDS_SEARCH : string := "https://api.scryfall.com/cards/search".

(** The settings of [cfg] that the card requests read. *)
Record Settings := mkSettings {
  cfg_lang : string;
  cfg_test_mode : bool;
  cfg_scry_extras : bool;
  cfg_scry_unique : string;
  cfg_scry_sorting : string;
  cfg_scry_ascending : bool
}.

Definition lower_ascii (c : ascii) : ascii :=
  let n := nat_of_ascii c in
  if (65 <=? n)%nat && (n <=? 90)%nat then ascii_of_nat (n + 32) else c.

(** [str.lower()] on ASCII text. *)
Fixpoint lower (s : string) : string :=
  match s with
  | EmptyString => EmptyString
  | String c r => String (lower_ascii c) (lower r)
  end.

(** [s.lstrip(chars)] *)
Fixpoint lstrip_chars (chars s : string) : string :=
  match s with
  | EmptyString => EmptyString
  | String c r =>
      if str_in (String c EmptyString) chars then lstrip_chars chars r else s
  end.

(** [v.get(k)] and [v.get(k, d)]: only a dict has [get]. *)
Definition dict_get_default (v : value) (k : string) (d : value) : exn + value :=
  match v with
  | VDict m => inr (default d (m !! k))
  | _ => inl AttributeError
  end.

Definition dict_get (v : value) (k : string) : exn + value :=
  dict_get_default v k VNone.

(** [for c in v]: the entries of a list, the keys of a dict (here in the
    order of the map, not of insertion), the characters of a string. *)
Fixpoint chars_of (s : string) : list value :=
  match s with
  | EmptyString => []
  | String c r => VStr (String c EmptyString) :: chars_of r
  end.

Definition py_iter (v : value) : exn + list value :=
  match v with
  | VList l => inr l
  | VDict m => inr (map (fun kv => VStr (fst kv)) (map_to_list m))
  | VStr s => inr (chars_of s)
  | _ => inl TypeError
  end.

(** [check_playable_card(card_json)], lines 383-393. *)
Definition check_playable_card (card_json : value) : exn + bool :=
  let? set_type := dict_get card_json "set_type" in
  if eq_str set_type "minigame" then inr false
  else
    let? layout := dict_get card_json "layout" in
    if eq_str layout "art_series" || eq_str layout "reversible_card"
    then inr false
    else inr true.

(** The query string of [requests.get(url, params=...)].  requests
    percent-encodes the values; here they are kept as they are, which tells
    the requests apart just as well. *)
Fixpoint query_string (params : list (string * string)) : string :=
  match params with
  | [] => EmptyString
  | [(k, v)] => k ++ "=" ++ v
  | (k, v) :: rest => k ++ "=" ++ v ++ "&" ++ query_string rest
  end.

Definition with_params (url : string) (params : list (string * string)) : string :=
  match params with
  | [] => url
  | _ :: _ => url ++ "?" ++ query_string params
  end.

(** [str(b)] for a bool *)
Definition py_bool (b : bool) : string := if b then "True" else "False".

Definition dquote : string := String "034"%char EmptyString.

(** Lines 201 and 203: the url of [get_card_unique]. *)
Definition lang_suffix (lang : string) : string :=
  if (lang =? "en")%string then EmptyString else "/" ++ lang.

Definition unique_url (code number lang : string) : string :=
  SCRY_API_CARDS ++ "/" ++ lower code ++ "/" ++ number ++ lang_suffix lang.

(** The test of line 209. *)
Definition accepts (card : value) : exn + bool :=
  let? object := dict_get card "object" in
  if negb (eq_str object "error") then check_playable_card card else inr false.

(** The undecorated body of [get_card_unique], lines 201-211.  [res.url] is
    taken to be the url that was requested. *)
Definition get_card_unique_raw (card_set : option string) (card_number lang : string)
    : M obj :=
  match card_set with
  | None => raise AttributeError
  | Some code =>
      let url := unique_url code card_number lang in
      do body <- requests_get url;
      do card <- response_json body;
      do playable <- lift (accepts card);
      if playable then ret (Fresh card)
      else ret (Fresh (VError (mkScryfallError (Some url) None (Some code)
                                 (Some card_number) (Some (lang_suffix lang)))))
  end.

(** [@handle_request_failure() def get_card_unique] *)
Definition get_card_unique (fuel : nat) (card_set : option string)
    (card_number lang : string) : M obj :=
  handle_request_failure fuel (Fresh (VStr "error"))
    (get_card_unique_raw card_set card_number lang).

(** The loop of lines 247-249. *)
Fixpoint first_playable (cards : list value) : exn + option value :=
  match cards with
  | [] => inr None
  | c :: rest =>
      let? playable := check_playable_card c in
      if playable then inr (Some c) else first_playable rest
  end.

(** Lines 244-249: the card picked from an answer. *)
Definition search_cards (answer : value) : exn + option value :=
  let card := if truthy answer then answer else VDict ∅ in
  let? data := dict_get_default card "data" (VList []) in
  let? cards := py_iter data in
  first_playable cards.

(** The [q] parameter of line 239. *)
Definition search_query (card_name : string) (card_set : option string)
    (lang : string) : string :=
  "!" ++ dquote ++ card_name ++ dquote ++ " lang:" ++ lang ++
  (if truthy_opt card_set
   then " set:" ++ lower (default EmptyString card_set)
   else EmptyString).

Definition search_url (cfg : Settings) (card_name : string)
    (card_set : option string) (lang : string) (extras : bool) : string :=
  with_params SCRY_API_CARDS_SEARCH
    [("unique", cfg_scry_unique cfg);
     ("order", cfg_scry_sorting cfg);
     ("dir", if cfg_scry_ascending cfg then "asc" else "desc");
     ("include_extras", py_bool (if extras then extras else cfg_scry_extras cfg));
     ("q", search_query card_name card_set lang)].

(** The undecorated body of [get_card_search], lines 231-252. *)
Definition get_card_search_raw (cfg : Settings) (card_name : string)
    (card_set : option string) (lang : string) (extras : bool) : M obj :=
  let url := search_url cfg card_name card_set lang extras in
  do body <- requests_get url;
  do answer <- response_json body;
  do found <- lift (search_cards answer);
  match found with
  | Some c => ret (Fresh c)
  | None => ret (Fresh (VError (mkScryfallError (Some url) (Some card_name)
                                  card_set None (Some lang))))
  end.

(** [@handle_request_failure() def get_card_search] *)
Definition get_card_search (fuel : nat) (cfg : Settings) (card_name : string)
    (card_set : option string) (lang : string) (extras : bool) : M obj :=
  handle_request_failure fuel (Fresh (VStr "error"))
    (get_card_search_raw cfg card_name card_set lang extras).

(** [get_card_unique(..., extras=True)]: the function has no [extras]
    parameter, the call raises a [TypeError] beneath the decorators. *)
Definition get_card_unique_extras (fuel : nat) : M obj :=
  handle_request_failure fuel (Fresh (VStr "error")) (raise TypeError).

(** The [action] of [get_card_data] applied to its [params]. *)
Definition action (fuel : nat) (cfg : Settings) (unique : bool)
    (card_name : string) (card_set : option string) (number lang : string)
    (extras : bool) : M obj :=
  if unique
  then (if extras then get_card_unique_extras fuel
        else get_card_unique fuel card_set number lang)
  else get_card_search fuel cfg card_name card_set lang extras.

(** The value behind a reference. *)
Definition obj_value (o : obj) : M value := fun w =>
  match o with
  | Fresh v => (Ok v, w)
  | Shared name => (Ok (VDict (default ∅ (shared w !! name))), w)
  end.

(** The warnings written with [console.update(msg_warn(...))] are returned
    next to the result. *)
Definition revert_warning (card_name : string) : string :=
  "Reverting to English: [b]" ++ card_name ++ "[/b]".

(** Lines 127-128 and 139-140. *)
Definition finish_card `{Imports} (name_normalized : string) (card : dict) : M value :=
  do data <- process_scryfall_data (<["name_normalized" := VStr name_normalized]> card);
  ret (VDict data).

(** [get_card_data(card_name, card_set, card_number)], lines 103-141. *)
Definition get_card_data `{Imports} (fuel : nat) (cfg : Settings) (card_name : string)
    (card_set card_number : option string) : M (list string * value) :=
  let name_normalized := normalize_str card_name true in
  let unique := truthy_opt card_number in
  let number := lstrip_chars "0 " (default EmptyString card_number) in
  let act lang extras :=
    (do o <- action fuel cfg unique card_name card_set number lang extras;
     obj_value o) in
  do first <- (if (cfg_lang cfg =? "en")%string then ret None
               else do card <- act (cfg_lang cfg) false; ret (Some card));
  match first with
  | Some (VDict card) =>
      do r <- finish_card name_normalized card; ret ([], r)
  | _ =>
      let warnings :=
        match first with
        | Some _ => if cfg_test_mode cfg then [] else [revert_warning card_name]
        | None => []
        end in
      do card <- act "en" false;
      do card' <- (match card with
                   | VDict _ => ret card
                   | _ => if cfg_scry_extras cfg then ret card else act "en" true
                   end);
      match card' with
      | VDict c => do r <- finish_card name_normalized c; ret (warnings, r)
      | v => ret (warnings, v)
      end
  end.

(** The [[]] literals of [@handle_request_failure([])], lines 255 and 277:
    lists, which nothing in these sources writes to. *)
Definition FAIL_CARDS_PAGED : string := "get_cards_paged.fail_response".
Definition FAIL_CARDS_ORACLE : string := "get_cards_oracle.fail_response".

(** Lines 266-274 of [get_cards_paged], after the request.  Line 271
    subscripts the method [res.get], a [TypeError], while building the
    arguments of the call for the next page, so that call is never made;
    [cards.extend] is looked up before that, an [AttributeError] when
    [cards] is not a list. *)
Definition paged_cards (all_pages : bool) (res : value) : exn + value :=
  let? cards := dict_get_default res "data" (VList []) in
  let? has_more := (if all_pages then dict_get res "has_more" else inr VNone) in
  let? next_page := (if all_pages && truthy has_more
                     then dict_get res "next_page" else inr VNone) in
  if all_pages && truthy has_more && truthy next_page
  then match cards with
       | VList _ => inl TypeError
       | _ => inl AttributeError
       end
  else inr cards.

(** The undecorated body of [get_cards_paged], lines 264-274. *)
Definition get_cards_paged_raw (url : string) (all_pages : bool)
    (kwargs : list (string * string)) : M obj :=
  do body <- requests_get (with_params url kwargs);
  do res <- response_json body;
  do cards <- lift (paged_cards all_pages res);
  ret (Fresh cards).

(** [@handle_request_failure([]) def get_cards_paged] *)
Definition get_cards_paged (fuel : nat) (url : string) (all_pages : bool)
    (kwargs : list (string * string)) : M obj :=
  handle_request_failure fuel (Shared FAIL_CARDS_PAGED)
    (get_cards_paged_raw url all_pages kwargs).

(** Keyword arguments are a dict in the order of writing. *)
Fixpoint kw_get (k : string) (kwargs : list (string * string)) : option string :=
  match kwargs with
  | [] => None
  | (k', v) :: rest => if (k' =? k)%string then Some v else kw_get k rest
  end.

Fixpoint kw_remove (k : string) (kwargs : list (string * string))
    : list (string * string) :=
  match kwargs with
  | [] => []
  | (k', v) :: rest =>
      if (k' =? k)%string then kw_remove k rest else (k', v) :: kw_remove k rest
  end.

(** [d[k] = v]: in place for a key that is there, at the end otherwise. *)
Fixpoint kw_set (k v : string) (kwargs : list (string * string))
    : list (string * string) :=
  match kwargs with
  | [] => [(k, v)]
  | (k', v') :: rest =>
      if (k' =? k)%string then (k, v) :: rest else (k', v') :: kw_set k v rest
  end.

(** [{**base, **extra}] *)
Definition kw_merge (base extra : list (string * string)) : list (string * string) :=
  fold_left (fun acc kv => kw_set (fst kv) (snd kv) acc) extra base.

(** The keyword arguments of lines 288-294. *)
Definition oracle_params (oracle_id : string) (kwargs : list (string * string))
    : list (string * string) :=
  let dir := default "asc" (kw_get "dir" kwargs) in
  let kwargs1 := kw_remove "dir" kwargs in
  let order := default "released" (kw_get "order" kwargs1) in
  let kwargs2 := kw_remove "order" kwargs1 in
  let unique := default "prints" (kw_get "unique" kwargs2) in
  let kwargs3 := kw_remove "unique" kwargs2 in
  kw_merge [("q", "oracleid:" ++ oracle_id); ("dir", dir); ("order", order);
            ("unique", unique)] kwargs3.

(** [@handle_request_failure([]) def get_cards_oracle]: a [url] among the
    keyword arguments is given twice to [get_cards_paged], a [TypeError]. *)
Definition get_cards_oracle (fuel : nat) (oracle_id : string) (all_pages : bool)
    (kwargs : list (string * string)) : M obj :=
  handle_request_failure fuel (Shared FAIL_CARDS_ORACLE)
    (let params := oracle_params oracle_id kwargs in
     match kw_get "url" params with
     | None => get_cards_paged fuel SCRY_API_CARDS_SEARCH all_pages params
     | Some _ => raise TypeError
     end).

(** Sample settings and answers. *)
Definition english : Settings := mkSettings "en" false false "cards" "released" false.

Definition damnation : dict :=
  <["name" := VStr "Damnation"]>
  (<["layout" := VStr "normal"]>
  (<["set" := VStr "2x2"]>
  (<["type_line" := VStr "Sorcery"]>
  (<["collector_number" := VStr "76"]> ∅)))).

Definition damnation_art : dict :=
  <["name" := VStr "Damnation"]> (<["layout" := VStr "art_series"]> ∅).

Definition net_search : nat -> string -> exn + option value :=
  fun _ _ => inr (Some (VDict (<["data" := VList [VDict damnation_art; VDict damnation]]> ∅))).

(** What the card requests hand back: an error value, or a record that
    passes [check_playable_card]. *)
Definition playable_or_error (v : value) : Prop :=
  (exists e, v = VError e) \/
  (exists d, v = VDict d /\ check_playable_card v = inr true).

Definition not_found : dict :=
  <["object" := VStr "error"]> (<["status" := VInt 404]> ∅).

Definition net_not_found : nat -> string -> exn + option value :=
  fun _ _ => inr (Some (VDict not_found)).

Definition net_more_pages : nat -> string -> exn + option value :=
  fun _ _ => inr (Some (VDict (<["data" := VList [VDict damnation]]>
                               (<["has_more" := VBool true]>
                               (<["next_page" := VStr "https://api.scryfall.com/cards/search?page=2"]> ∅))))).


(** A second environment, with Scryfall at hand: every card but
    [Damnation] is an art card, and the layout map knows [normal] only. *)
Definition sample_env_online : RenderEnv := {|
  Template := unit;
  basic_land_names := ["Plains"; "Island"; "Swamp"; "Mountain"; "Forest"];
  basename := fun file => file;
  BasicLand := fun name artist code =>
    inr (mkLayout (VStr name)
           (match artist with Some a => VStr a | None => VNone end)
           (VStr code) "BasicLand" VNone VNone VNone);
  scry_card_info := fun name _ =>
    if (name =? "Damnation")%string then inr (VDict damnation)
    else inr (VDict damnation_art);
  layout_map := fun k =>
    if (k =? "normal")%string
    then Some (fun scryfall _ =>
                 inr (mkLayout scryfall (VStr "Kev Walker") (VStr "2x2") "normal"
                        VNone VNone VNone))
    else None;
  scry_set_info := fun _ => inr (VDict (<["printed_size" := VInt 331]> ∅));
  get_template_class := fun _ => inr (Some tt);
  get_template := fun _ _ => inr (Some tt);
  execute := fun _ _ _ => inr tt
|}.

(* ===================================================================== *)
(** * Part II: properties                                                 *)
(* ===================================================================== *)

(** ** The helpers on small inputs *)

Example upper_mh2 : upper "mh2" = "MH2".
Proof. reflexivity. Qed.

Example str_in_planeswalker : str_in "Planeswalker" "Legendary Planeswalker - Jace" = true.
Proof. reflexivity. Qed.

Example strip_name : strip "  Damnation " = "Damnation".
Proof. reflexivity. Qed.

Example retrieve_plain : retrieve_card_info "Damnation.png"
  = mk_card_info "Damnation" None None None.
Proof. reflexivity. Qed.

Example retrieve_tagged : retrieve_card_info "Forest (John Avon) [UNH].png"
  = mk_card_info "Forest" (Some "John Avon") (Some "UNH") None.
Proof. reflexivity. Qed.

(** ** The request client *)

Lemma same_but_time_refl w : same_but_time w w.
Proof. unfold same_but_time; tauto. Qed.

Lemma same_but_time_set_limiter lr nc w : same_but_time w (set_limiter lr nc w).
Proof. unfold same_but_time; simpl; tauto. Qed.

Lemma same_but_time_set_clock t w : same_but_time w (set_clock t w).
Proof. unfold same_but_time; simpl; tauto. Qed.

Lemma same_but_time_trans w1 w2 w3 :
  same_but_time w1 w2 -> same_but_time w2 w3 -> same_but_time w1 w3.
Proof.
  unfold same_but_time. intros H12 H23.
  destruct H12 as (a1 & a2 & a3 & a4 & a5 & a6 & a7 & a8).
  destruct H23 as (b1 & b2 & b3 & b4 & b5 & b6 & b7 & b8).
  repeat split; congruence.
Qed.

(** One pass through [sleep_and_retry] when [func] does not raise the
    limiter's exception. *)
Lemma sleep_and_retry_through {A} (func : M A) fuel w :
  (forall rem, fst (func w) <> Raise (RateLimitException rem)) ->
  sleep_and_retry (S fuel) func w = func w.
Proof.
  intros Hno. simpl. destruct (func w) as [r w'] eqn:E.
  destruct r as [a|e|]; try reflexivity.
  destruct e; try reflexivity.
  exfalso. apply (Hno period_remaining). reflexivity.
Qed.

(** The limiter lets a call through as soon as its window has run out. *)
Lemma rate_limit_fresh_window {A} (func : M A) w :
  (RATE_PERIOD - (clock w - rl_last_reset w) <= 0)%Z ->
  scryfall_rate_limit func w = func (set_limiter (clock w) 1 w).
Proof.
  intros Hle. unfold scryfall_rate_limit.
  apply Z.leb_le in Hle. rewrite Hle. simpl. reflexivity.
Qed.

(** Rate limiting delays a call and never drops it: with two iterations at
    hand the wrapped function runs, exactly once, in a world that differs
    from the caller's in the clock and the limiter only. *)
Lemma limited_call_runs {A} (func : M A) fuel w :
  (2 <= fuel)%nat ->
  no_rate_limit_exception func ->
  exists w1, same_but_time w w1 /\
    sleep_and_retry fuel (scryfall_rate_limit func) w = func w1.
Proof.
  intros Hfuel Hno.
  destruct fuel as [|[|fuel]]; try lia. clear Hfuel.
  destruct (Z.leb_spec (RATE_PERIOD - (clock w - rl_last_reset w)) 0) as [Hle|Hgt].
  - exists (set_limiter (clock w) 1 w). split.
    + apply same_but_time_set_limiter.
    + rewrite sleep_and_retry_through.
      * apply rate_limit_fresh_window; assumption.
      * intros rem. rewrite rate_limit_fresh_window by assumption. apply Hno.
  - destruct (Z.ltb_spec RATE_CALLS (rl_num_calls w + 1)) as [Hover|Hunder].
    + (* over the quota: sleep to the end of the window, then pass *)
      set (rem := (RATE_PERIOD - (clock w - rl_last_reset w))%Z) in *.
      set (w2 := set_limiter (rl_last_reset w) (rl_num_calls w + 1) w).
      set (w3 := set_clock (clock w2 + rem) w2).
      assert (Hlim : scryfall_rate_limit func w = (Raise (RateLimitException rem), w2)).
      { unfold scryfall_rate_limit. fold rem.
        destruct (Z.leb_spec rem 0); [lia|]. simpl.
        destruct (Z.ltb_spec RATE_CALLS (rl_num_calls w + 1)); [reflexivity|lia]. }
      assert (Hsleep : sleep rem w2 = (Ok tt, w3)).
      { unfold sleep. destruct (Z.ltb_spec rem 0); [lia|reflexivity]. }
      exists (set_limiter (clock w3) 1 w3). split.
      * eapply same_but_time_trans; [apply same_but_time_set_limiter|].
        eapply same_but_time_trans; [apply same_but_time_set_clock|].
        apply same_but_time_set_limiter.
      * change (sleep_and_retry (S (S fuel)) (scryfall_rate_limit func) w)
          with (match scryfall_rate_limit func w with
                | (Raise (RateLimitException period_remaining), w') =>
                    (sleep period_remaining ;;
                     sleep_and_retry (S fuel) (scryfall_rate_limit func)) w'
                | r => r
                end).
        rewrite Hlim. unfold bind. rewrite Hsleep.
        assert (Hwin : (RATE_PERIOD - (clock w3 - rl_last_reset w3) <= 0)%Z).
        { subst w3 w2 rem. simpl. lia. }
        rewrite sleep_and_retry_through.
        -- apply rate_limit_fresh_window; assumption.
        -- intros r. rewrite rate_limit_fresh_window by assumption. apply Hno.
    + exists (set_limiter (rl_last_reset w) (rl_num_calls w + 1) w). split.
      * apply same_but_time_set_limiter.
      * assert (Hlim : scryfall_rate_limit func w
                       = func (set_limiter (rl_last_reset w) (rl_num_calls w + 1) w)).
        { unfold scryfall_rate_limit.
          destruct (Z.leb_spec (RATE_PERIOD - (clock w - rl_last_reset w)) 0); [lia|].
          simpl.
          destruct (Z.ltb_spec RATE_CALLS (rl_num_calls w + 1)); [lia|reflexivity]. }
        rewrite sleep_and_retry_through; [exact Hlim|].
        intros r. rewrite Hlim. apply Hno.
Qed.

(** The retry layer passes on whatever is not a [RequestException]. *)
Lemma on_exception_transparent {A} (target : M A) max_tries max_time w :
  (forall e, fst (target w) = Raise e -> is_request_exception e = false) ->
  on_exception max_tries max_time target w = target w.
Proof.
  intros Hnot. unfold on_exception.
  destruct (max_tries - 1)%nat as [|k]; simpl;
    destruct (target w) as [[a|e|] w'] eqn:E; try reflexivity;
    simpl in Hnot; rewrite (Hnot e eq_refl); reflexivity.
Qed.

(** The final catch turns every outcome of [func] but [Diverge] into a
    value. *)
Lemma handle_final_exception_catches fail_response (func : M obj) w e w' :
  func w = (Raise e, w') ->
  handle_final_exception fail_response func w
  = (Ok (fallback_value fail_response),
     set_console_log (console_log w' ++ [e]) w').
Proof.
  intros E. unfold handle_final_exception, try_except. rewrite E.
  reflexivity.
Qed.

Lemma handle_final_exception_never_raises fail_response (func : M obj) w e :
  fst (handle_final_exception fail_response func w) <> Raise e.
Proof.
  unfold handle_final_exception, try_except.
  destruct (func w) as [[a|e'|] w']; simpl; discriminate.
Qed.

(** Under the decorators of [handle_request_failure] the undecorated
    function is entered once, beneath the final catch: the rate limiter only
    moves the clock, and the retry layer never sees an exception because the
    catch sits inside it. *)
Lemma handle_request_failure_once fuel fail_response (func : M obj) w :
  (2 <= fuel)%nat ->
  exists w1, same_but_time w w1 /\
    handle_request_failure fuel fail_response func w
    = handle_final_exception fail_response (enter func) w1.
Proof.
  intros Hfuel. unfold handle_request_failure.
  destruct (limited_call_runs
              (on_exception 3 1000 (handle_final_exception fail_response (enter func)))
              fuel w Hfuel) as (w1 & Hsame & Hrun).
  - intros w0 rem. rewrite on_exception_transparent.
    + apply handle_final_exception_never_raises.
    + intros e He. exfalso.
      exact (handle_final_exception_never_raises _ _ _ _ He).
  - exists w1. split; [assumption|]. rewrite Hrun.
    apply on_exception_transparent.
    intros e He. exfalso.
    exact (handle_final_exception_never_raises _ _ _ _ He).
Qed.

(** C5. A wrapped function whose body raises whenever it is run returns the
    configured fallback: [ScryfallError()] when [fail_response] is the
    string ['error'], the [fail_response] object itself otherwise.  The
    result is a value, never a raised exception (nor a cut-off loop). *)
Theorem terminal_catch_returns_fallback fuel fail_response (func : M obj) w :
  (2 <= fuel)%nat ->
  (forall w0, exists e, fst (func w0) = Raise e) ->
  exists w',
    handle_request_failure fuel fail_response func w
    = (Ok (if is_error_literal fail_response
           then Fresh (VError ScryfallError_default)
           else fail_response), w').
Proof.
  intros Hfuel Hraises.
  destruct (handle_request_failure_once fuel fail_response func w Hfuel)
    as (w1 & _ & ->).
  destruct (Hraises (set_calls (S (calls w1)) w1)) as [e He].
  destruct (func (set_calls (S (calls w1)) w1)) as [r w2] eqn:E.
  simpl in He. subst r.
  eexists. apply handle_final_exception_catches. exact E.
Qed.

Lemma terminal_catch_returns_fallback_witness :
  exists w',
    handle_request_failure 2 (Fresh (VList [])) (raise (KeyError "data"))
      (world_at_start net_down)
    = (Ok (Fresh (VList [])), w').
Proof.
  apply (terminal_catch_returns_fallback 2 (Fresh (VList [])) (raise (KeyError "data"))
           (world_at_start net_down)).
  - lia.
  - intros w0. exists (KeyError "data"). reflexivity.
Defined.

(** C2 (what the code does). A wrapped function whose body fails with a
    [RequestException] is entered once and not again: the caller gets the
    fallback after a single attempt. *)
Theorem transient_failure_is_not_retried fuel fail_response (func : M obj) w :
  (2 <= fuel)%nat ->
  (forall w0, fst (func w0) = Raise RequestException /\
              calls (snd (func w0)) = calls w0) ->
  exists w',
    handle_request_failure fuel fail_response func w
    = (Ok (fallback_value fail_response), w') /\
    calls w' = S (calls w).
Proof.
  intros Hfuel Hfails.
  destruct (handle_request_failure_once fuel fail_response func w Hfuel)
    as (w1 & Hsame & ->).
  destruct (Hfails (set_calls (S (calls w1)) w1)) as [He Hcalls].
  destruct (func (set_calls (S (calls w1)) w1)) as [r w2] eqn:E.
  simpl in He, Hcalls. subst r.
  eexists. split.
  - apply handle_final_exception_catches. exact E.
  - simpl. rewrite Hcalls.
    destruct Hsame as (_ & _ & _ & _ & _ & _ & _ & Hc). rewrite Hc. reflexivity.
Qed.

Lemma transient_failure_is_not_retried_witness :
  exists w',
    handle_request_failure 2 (Fresh (VStr "error")) (raise RequestException)
      (world_at_start net_down)
    = (Ok (Fresh (VError ScryfallError_default)), w') /\
    calls w' = 1%nat.
Proof.
  apply (transient_failure_is_not_retried 2 (Fresh (VStr "error"))
           (raise RequestException) (world_at_start net_down)).
  - lia.
  - intros w0. split; reflexivity.
Defined.

(** The same on a request function: with the first request lost and the
    network back right after, [get_set_scryfall] sends one request and
    answers with its empty fallback. *)
Example get_set_scryfall_gives_up_after_one_request :
  let r := get_set_scryfall 2 "mh2" (world_at_start net_flaky) in
  fst r = Ok (Shared FAIL_SCRYFALL) /\
  sent (snd r) = ["https://api.scryfall.com/sets/MH2"] /\
  console_log (snd r) = [RequestException].
Proof. cbv zeta. repeat split; reflexivity. Qed.

(** The retry layer does retry where it can see the exception: with the
    catch outside the retry, the same call recovers on its second request. *)
Example retry_outside_the_catch_recovers :
  let r := handle_final_exception (Shared FAIL_SCRYFALL)
             (on_exception 3 1000 (enter (get_set_scryfall_raw "mh2")))
             (world_at_start net_flaky) in
  fst r = Ok (Fresh (VDict (<["scryfall" := VBool true]> scryfall_mh2))) /\
  length (sent (snd r)) = 2%nat /\
  calls (snd r) = 2%nat.
Proof. cbv zeta. repeat split; reflexivity. Qed.

(** ** The set resolver *)

Lemma cache_lookup_hit path data w :
  files w !! path = Some (Loads data) ->
  is_Some (data !! "scryfall") ->
  cache_lookup path w = (Ok (Some data), w).
Proof.
  intros Hfile [marker Hmarker]. unfold cache_lookup. rewrite Hfile.
  unfold try_except, bind, load_data_file. rewrite Hfile. simpl.
  unfold ret. rewrite Hmarker. reflexivity.
Qed.

(** C6. When the cache file of a set code loads and carries the [scryfall]
    key, [get_set_data] returns its content and leaves the world as it was:
    nothing is requested, nothing is written.  A second call therefore does
    the same and returns the same data. *)
Theorem cached_set_is_returned_unchanged fuel card_set data w :
  files w !! set_path card_set = Some (Loads data) ->
  is_Some (data !! "scryfall") ->
  get_set_data fuel card_set w = (Ok data, w) /\
  sent (snd (get_set_data fuel card_set w)) = sent w /\
  get_set_data fuel card_set (snd (get_set_data fuel card_set w)) = (Ok data, w).
Proof.
  intros Hfile Hmarker.
  assert (Hcall : get_set_data fuel card_set w = (Ok data, w)).
  { unfold get_set_data, bind.
    rewrite (cache_lookup_hit _ data w Hfile Hmarker). reflexivity. }
  rewrite Hcall. simpl. rewrite Hcall. auto.
Qed.

Lemma cached_set_is_returned_unchanged_witness :
  let w := set_files (<["SET-MH2.json" := Loads (<["scryfall" := VBool true]> scryfall_mh2)]> ∅)
             (world_at_start net_down) in
  get_set_data 0 "mh2" w = (Ok (<["scryfall" := VBool true]> scryfall_mh2), w) /\
  sent (snd (get_set_data 0 "mh2" w)) = sent w /\
  get_set_data 0 "mh2" (snd (get_set_data 0 "mh2" w))
    = (Ok (<["scryfall" := VBool true]> scryfall_mh2), w).
Proof.
  intros w.
  apply (cached_set_is_returned_unchanged 0 "mh2"
           (<["scryfall" := VBool true]> scryfall_mh2) w).
  - reflexivity.
  - exists (VBool true). reflexivity.
Defined.

(** C1, as stated, fails: Scryfall gives the code of the set as ["mh2"],
    MTGJSON as ["MH2"], and the merged record carries MTGJSON's. *)
Lemma merged_record_takes_secondary_value :
  let w0 := world_at_start net_sets in
  fst (get_set_scryfall 2 "mh2" w0) = Ok (Fresh (VDict scryfall_mh2_marked)) /\
  fst (get_set_mtgjson 2 (VStr "mh2") (snd (get_set_scryfall 2 "mh2" w0)))
    = Ok (Fresh (VDict mtgjson_mh2_stripped)) /\
  fst (get_set_data 2 "mh2" w0) = Ok (mtgjson_mh2_stripped ∪ scryfall_mh2_marked) /\
  scryfall_mh2_marked !! "code" = Some (VStr "mh2") /\
  mtgjson_mh2_stripped !! "code" = Some (VStr "MH2") /\
  (mtgjson_mh2_stripped ∪ scryfall_mh2_marked) !! "code" = Some (VStr "MH2") /\
  (mtgjson_mh2_stripped ∪ scryfall_mh2_marked) !! "code"
    <> scryfall_mh2_marked !! "code".
Proof.
  cbv zeta. repeat split; try reflexivity.
  discriminate.
Qed.

Lemma same_store_refl w : same_store w w.
Proof. unfold same_store; tauto. Qed.

Lemma same_store_trans w1 w2 w3 :
  same_store w1 w2 -> same_store w2 w3 -> same_store w1 w3.
Proof.
  unfold same_store. intros (a1 & a2 & a3) (b1 & b2 & b3).
  repeat split; congruence.
Qed.

Lemma same_but_time_store w w1 : same_but_time w w1 -> same_store w w1.
Proof.
  unfold same_but_time, same_store.
  intros (_ & _ & _ & Hf & Hw & _ & Hs & _). tauto.
Qed.

(** A decorated function returns: the value of its body, or the fallback. *)
Lemma wrapped_call_returns (P : obj -> Prop) fuel fail_response (func : M obj) w :
  (2 <= fuel)%nat ->
  ends_with P func ->
  exists o w',
    handle_request_failure fuel fail_response func w = (Ok o, w') /\
    same_store w w' /\
    (o = fallback_value fail_response \/ P o).
Proof.
  intros Hfuel Hends.
  destruct (handle_request_failure_once fuel fail_response func w Hfuel)
    as (w1 & Hsame & ->).
  apply same_but_time_store in Hsame.
  unfold handle_final_exception, try_except, enter.
  specialize (Hends (set_calls (S (calls w1)) w1)).
  destruct (func (set_calls (S (calls w1)) w1)) as [[o|e|] w'].
  - destruct Hends as [Hst HP].
    eexists _, _. split; [reflexivity|]. split; [|right; exact HP].
    eapply same_store_trans; [exact Hsame|].
    destruct Hst as (h1 & h2 & h3). unfold same_store. simpl in *. tauto.
  - eexists _, _. split; [reflexivity|]. split; [|left; reflexivity].
    eapply same_store_trans; [exact Hsame|].
    destruct Hends as (h1 & h2 & h3). unfold same_store. simpl in *. tauto.
  - contradiction.
Qed.

Lemma same_store_set_sent l w : same_store w (set_sent l w).
Proof. unfold same_store; simpl; tauto. Qed.

Lemma named_or_empty_guard (j : dict) : named_or_empty (if has_name j then j else ∅).
Proof.
  destruct (has_name j) eqn:E; [right; exact E | left; reflexivity].
Qed.

Ltac raw_done :=
  simpl;
  first
    [ apply same_store_set_sent
    | apply same_store_refl
    | split; [apply same_store_set_sent |];
      eexists; split; [reflexivity | apply named_or_empty_guard] ].

Lemma get_set_scryfall_raw_ends card_set :
  ends_with is_set_record (get_set_scryfall_raw card_set).
Proof.
  intros w. unfold get_set_scryfall_raw, requests_get, bind.
  destruct (http w (length (sent w)) _) as [e|[resp|]]; try raw_done.
  destruct resp; raw_done.
Qed.

#[local] Arguments pop_all : simpl never.

Lemma get_set_mtgjson_raw_ends card_set :
  ends_with is_set_record (get_set_mtgjson_raw card_set).
Proof.
  intros w. unfold get_set_mtgjson_raw.
  destruct card_set; try raw_done.
  unfold requests_get, bind.
  destruct (http w (length (sent w)) _) as [e|[resp|]]; try raw_done.
  destruct resp; try raw_done. simpl.
  destruct (default (VDict ∅) (m !! "data")); try raw_done.
  destruct (py_len _); [raw_done|]. simpl.
  destruct (pop_all _ _); raw_done.
Qed.

Lemma get_set_scryfall_returns fuel card_set w :
  (2 <= fuel)%nat ->
  exists o w',
    get_set_scryfall fuel card_set w = (Ok o, w') /\ same_store w w' /\
    (o = Shared FAIL_SCRYFALL \/ is_set_record o).
Proof.
  intros Hfuel.
  apply (wrapped_call_returns is_set_record fuel (Shared FAIL_SCRYFALL)
           (get_set_scryfall_raw card_set) w Hfuel).
  apply get_set_scryfall_raw_ends.
Qed.

Lemma get_set_mtgjson_returns fuel card_set w :
  (2 <= fuel)%nat ->
  exists o w',
    get_set_mtgjson fuel card_set w = (Ok o, w') /\ same_store w w' /\
    (o = Shared FAIL_MTGJSON \/ is_set_record o).
Proof.
  intros Hfuel.
  apply (wrapped_call_returns is_set_record fuel (Shared FAIL_MTGJSON)
           (get_set_mtgjson_raw card_set) w Hfuel).
  apply get_set_mtgjson_raw_ends.
Qed.

Lemma deref_dict_returns name o w :
  o = Shared name \/ is_set_record o ->
  exists d, deref_dict o w = (Ok d, w) /\
    (fallbacks_named w -> named_or_empty d).
Proof.
  intros [-> | (j & -> & Hj)].
  - eexists. split; [reflexivity|]. intros Hinv.
    destruct (shared w !! name) as [d|] eqn:E; simpl.
    + exact (Hinv name d E).
    + left. reflexivity.
  - exists j. split; [reflexivity | intros _; exact Hj].
Qed.

Lemma named_or_empty_union (d_mtg d_scry : dict) :
  named_or_empty d_mtg -> named_or_empty d_scry -> named_or_empty (d_mtg ∪ d_scry).
Proof.
  intros [-> | Hm] Hs.
  - rewrite (left_id_L ∅ (∪)). exact Hs.
  - right. unfold has_name in *.
    destruct (d_mtg !! "name") as [v|] eqn:E; [|discriminate].
    rewrite (lookup_union_Some_l d_mtg d_scry "name" v E). exact Hm.
Qed.

Lemma worth_saving_named (d_mtg merged : dict) :
  named_or_empty merged -> worth_saving d_mtg merged = true -> has_name merged = true.
Proof.
  intros [-> | Hn] Hsave; [|exact Hn].
  unfold worth_saving, truthy_dict in Hsave.
  rewrite map_to_list_empty, lookup_empty, andb_false_r in Hsave. discriminate.
Qed.

Lemma fetch_and_merge_runs fuel card_set path w :
  (2 <= fuel)%nat ->
  exists o_scry d_scry o_mtg d_mtg w1 w2 w3,
    get_set_scryfall fuel card_set w = (Ok o_scry, w1) /\
    deref_dict o_scry w1 = (Ok d_scry, w1) /\
    get_set_mtgjson fuel (mtgjson_code card_set d_scry) w1 = (Ok o_mtg, w2) /\
    deref_dict o_mtg w2 = (Ok d_mtg, w2) /\
    fetch_and_merge fuel card_set path w = (Ok (d_mtg ∪ d_scry), w3) /\
    (fallbacks_named w -> named_or_empty d_scry /\ named_or_empty d_mtg) /\
    (files w3 = files w \/
     files w3 = <[path := Loads (d_mtg ∪ d_scry)]> (files w) /\
     worth_saving d_mtg (d_mtg ∪ d_scry) = true) /\
    (shared w3 = shared w \/
     shared w3 = <[FAIL_SCRYFALL := d_mtg ∪ d_scry]> (shared w)).
Proof.
  intros Hfuel.
  destruct (get_set_scryfall_returns fuel card_set w Hfuel)
    as (o_scry & w1 & Hscry & Hst1 & Ho_scry).
  destruct (deref_dict_returns FAIL_SCRYFALL o_scry w1 Ho_scry) as (d_scry & Hd_scry & Hn_scry).
  destruct (get_set_mtgjson_returns fuel (mtgjson_code card_set d_scry) w1 Hfuel)
    as (o_mtg & w2 & Hmtg & Hst2 & Ho_mtg).
  destruct (deref_dict_returns FAIL_MTGJSON o_mtg w2 Ho_mtg) as (d_mtg & Hd_mtg & Hn_mtg).
  destruct Hst1 as (Hf1 & Hs1 & Hw1). destruct Hst2 as (Hf2 & Hs2 & Hw2).
  assert (Hinv1 : fallbacks_named w -> fallbacks_named w1).
  { unfold fallbacks_named. rewrite Hs1. auto. }
  assert (Hinv2 : fallbacks_named w -> fallbacks_named w2).
  { unfold fallbacks_named. rewrite Hs2, Hs1. auto. }
  exists o_scry, d_scry, o_mtg, d_mtg, w1, w2.
  unfold fetch_and_merge, bind.
  rewrite Hscry, Hd_scry, Hmtg, Hd_mtg.
  unfold dict_update, try_except, dump_data_file, ret, log_exception.
  destruct Ho_scry as [-> | (j & -> & _)];
    destruct (worth_saving d_mtg (d_mtg ∪ d_scry)) eqn:Hsave; simpl;
    try (destruct (writable w2 path) eqn:Hwr; simpl);
    eexists; (split; [reflexivity|]); (split; [reflexivity|]);
    (split; [reflexivity|]); (split; [reflexivity|]); (split; [reflexivity|]);
    (split; [intros Hinv; split; [apply Hn_scry | apply Hn_mtg]; auto|]);
    simpl; rewrite ?Hf2, ?Hf1, ?Hs2, ?Hs1; auto.
Qed.

(** The cache check ends without raising and leaves the store alone; a hit
    is the content of a file that loads and has the [scryfall] key. *)
Lemma cache_lookup_returns path w :
  exists hit w0,
    cache_lookup path w = (Ok hit, w0) /\ same_store w w0 /\
    (forall data, hit = Some data -> w0 = w).
Proof.
  unfold cache_lookup, try_except, bind, load_data_file, log_exception, ret.
  destruct (files w !! path) as [[data|e]|] eqn:E; simpl.
  - destruct (data !! "scryfall"); eexists _, _;
      (split; [reflexivity|]); (split; [apply same_store_refl|]); auto.
  - eexists _, _. split; [reflexivity|]. split.
    + unfold same_store. simpl. tauto.
    + discriminate.
  - eexists _, _. split; [reflexivity|]. split; [apply same_store_refl|]. auto.
Qed.

(** C1 (what the code does). On a cache miss the record [get_set_data]
    returns is Scryfall's record updated with MTGJSON's stripped record:
    every key MTGJSON's record has carries MTGJSON's value, whatever
    Scryfall gave for it, and Scryfall's value stays only under the keys
    MTGJSON's record lacks. *)
Theorem merged_record_prefers_secondary fuel card_set w :
  (2 <= fuel)%nat ->
  fst (cache_lookup (set_path card_set) w) = Ok None ->
  exists o_scry d_scry o_mtg d_mtg w1 w2 w3,
    get_set_scryfall fuel card_set (snd (cache_lookup (set_path card_set) w))
      = (Ok o_scry, w1) /\
    deref_dict o_scry w1 = (Ok d_scry, w1) /\
    get_set_mtgjson fuel (mtgjson_code card_set d_scry) w1 = (Ok o_mtg, w2) /\
    deref_dict o_mtg w2 = (Ok d_mtg, w2) /\
    get_set_data fuel card_set w = (Ok (d_mtg ∪ d_scry), w3) /\
    forall k, (d_mtg ∪ d_scry) !! k
              = match d_mtg !! k with
                | Some v => Some v
                | None => d_scry !! k
                end.
Proof.
  intros Hfuel Hmiss.
  destruct (cache_lookup (set_path card_set) w) as [hit w0] eqn:Hcache.
  simpl in Hmiss. subst hit. simpl.
  destruct (fetch_and_merge_runs fuel card_set (set_path card_set) w0 Hfuel)
    as (o_scry & d_scry & o_mtg & d_mtg & w1 & w2 & w3
        & Hscry & Hd_scry & Hmtg & Hd_mtg & Hrun & _).
  exists o_scry, d_scry, o_mtg, d_mtg, w1, w2, w3.
  repeat (split; [assumption|]). split.
  - unfold get_set_data, bind. rewrite Hcache. exact Hrun.
  - intros k. rewrite lookup_union.
    destruct (d_mtg !! k), (d_scry !! k); reflexivity.
Qed.

Lemma merged_record_prefers_secondary_witness :
  exists o_scry d_scry o_mtg d_mtg w1 w2 w3,
    get_set_scryfall 2 "mh2"
      (snd (cache_lookup (set_path "mh2") (world_at_start net_sets)))
      = (Ok o_scry, w1) /\
    deref_dict o_scry w1 = (Ok d_scry, w1) /\
    get_set_mtgjson 2 (mtgjson_code "mh2" d_scry) w1 = (Ok o_mtg, w2) /\
    deref_dict o_mtg w2 = (Ok d_mtg, w2) /\
    get_set_data 2 "mh2" (world_at_start net_sets) = (Ok (d_mtg ∪ d_scry), w3) /\
    forall k, (d_mtg ∪ d_scry) !! k
              = match d_mtg !! k with
                | Some v => Some v
                | None => d_scry !! k
                end.
Proof.
  apply (merged_record_prefers_secondary 2 "mh2" (world_at_start net_sets)).
  - lia.
  - reflexivity.
Defined.

(** One call keeps the fallback dicts usable and writes nothing but a named
    record at the path of the set. *)
Lemma get_set_data_keeps_names fuel card_set w :
  (2 <= fuel)%nat ->
  fallbacks_named w ->
  fallbacks_named (snd (get_set_data fuel card_set w)) /\
  (files (snd (get_set_data fuel card_set w)) = files w \/
   exists data,
     files (snd (get_set_data fuel card_set w))
       = <[set_path card_set := Loads data]> (files w) /\
     has_name data = true).
Proof.
  intros Hfuel Hinv.
  unfold get_set_data, bind.
  destruct (cache_lookup_returns (set_path card_set) w)
    as (hit & w0 & -> & (Hf0 & Hs0 & Hw0) & Hhit).
  destruct hit as [data|].
  - rewrite (Hhit data eq_refl). simpl. auto.
  - assert (Hinv0 : fallbacks_named w0).
    { unfold fallbacks_named. rewrite Hs0. exact Hinv. }
    destruct (fetch_and_merge_runs fuel card_set (set_path card_set) w0 Hfuel)
      as (o_scry & d_scry & o_mtg & d_mtg & w1 & w2 & w3
          & _ & _ & _ & _ & -> & Hnamed & Hfiles & Hshared).
    simpl. destruct (Hnamed Hinv0) as [Hn_scry Hn_mtg].
    pose proof (named_or_empty_union d_mtg d_scry Hn_mtg Hn_scry) as Hmerged.
    split.
    + unfold fallbacks_named. destruct Hshared as [-> | ->].
      * exact Hinv0.
      * intros name d. rewrite lookup_insert. case_decide.
        -- intros [= <-]. exact Hmerged.
        -- apply Hinv0.
    + destruct Hfiles as [-> | [-> Hsave]].
      * left. exact Hf0.
      * right. exists (d_mtg ∪ d_scry). rewrite Hf0. split; [reflexivity|].
        exact (worth_saving_named d_mtg _ Hmerged Hsave).
Qed.

(** C8. Whatever the two providers answer, [get_set_data] changes the data
    directory in one way only: by writing, at the path of the set, a record
    whose [name] is present and truthy.  This holds as long as the shared
    fallback dicts are empty or named, which every call preserves. *)
Theorem persisted_set_records_have_a_name fuel card_set w :
  (2 <= fuel)%nat ->
  fallbacks_named w ->
  fallbacks_named (snd (get_set_data fuel card_set w)) /\
  (files (snd (get_set_data fuel card_set w)) = files w \/
   exists data,
     files (snd (get_set_data fuel card_set w))
       = <[set_path card_set := Loads data]> (files w) /\
     has_name data = true).
Proof. apply get_set_data_keeps_names. Qed.

Lemma persisted_set_records_have_a_name_witness :
  fallbacks_named (snd (get_set_data 2 "mh2" (world_at_start net_sets))) /\
  (files (snd (get_set_data 2 "mh2" (world_at_start net_sets)))
     = files (world_at_start net_sets) \/
   exists data,
     files (snd (get_set_data 2 "mh2" (world_at_start net_sets)))
       = <[set_path "mh2" := Loads data]> (files (world_at_start net_sets)) /\
     has_name data = true).
Proof.
  apply (persisted_set_records_have_a_name 2 "mh2" (world_at_start net_sets)).
  - lia.
  - intros name d Hd. simpl in Hd. rewrite lookup_empty in Hd. discriminate.
Defined.

(** Over any run of calls that starts with the fallback dicts as created,
    a file of the data directory is as it was or holds a named record. *)
Lemma resolve_all_keeps_names fuel codes : forall w,
  (2 <= fuel)%nat ->
  fallbacks_named w ->
  forall path,
    files (resolve_all fuel codes w) !! path = files w !! path \/
    exists data,
      files (resolve_all fuel codes w) !! path = Some (Loads data) /\
      has_name data = true.
Proof.
  induction codes as [|code rest IH]; intros w Hfuel Hinv path; simpl.
  - left. reflexivity.
  - destruct (get_set_data_keeps_names fuel code w Hfuel Hinv) as [Hinv' Hfiles].
    destruct (IH (snd (get_set_data fuel code w)) Hfuel Hinv' path)
      as [Hsame | Hnamed]; [|right; exact Hnamed].
    rewrite Hsame.
    destruct Hfiles as [-> | (data & -> & Hname)]; [left; reflexivity|].
    rewrite lookup_insert. case_decide; [right; eauto | left; reflexivity].
Qed.

Lemma fallbacks_named_at_start net : fallbacks_named (world_at_start net).
Proof.
  intros name d Hd. simpl in Hd. rewrite lookup_empty in Hd. discriminate.
Qed.

(** The fallback of [get_set_scryfall] is one dict for all calls, and
    [data_scry.update] writes into it: with Scryfall unreachable and MTGJSON
    answering, the fallback is no longer empty after the call. *)
Example fallback_dict_is_written :
  let w' := snd (get_set_data 2 "mh2" (world_at_start net_mtgjson_only)) in
  shared (world_at_start net_mtgjson_only) !! FAIL_SCRYFALL = None /\
  shared w' !! FAIL_SCRYFALL = Some mtgjson_mh2_stripped.
Proof. cbv zeta. split; reflexivity. Qed.

(** ** Layout classification *)

Section ClassificationProperties.
Context `{Imports}.

Lemma last_nonempty_default {A} (x : A) l d d' :
  List.last (x :: l) d = List.last (x :: l) d'.
Proof.
  revert x. induction l as [|y l IH]; intros x; [reflexivity|].
  change (List.last (y :: l) d = List.last (y :: l) d'). apply IH.
Qed.

Lemma split_parts_filter parts : forall front back,
  Forall is_dict parts ->
  split_parts parts front back
  = inr ((front ++ List.filter (has_component "meld_part") parts)%list,
         List.last (List.filter (has_component "meld_result") parts) back).
Proof.
  induction parts as [|part rest IH]; intros front back Hd.
  - simpl. rewrite app_nil_r. reflexivity.
  - inversion Hd as [|? ? [p ->] Hrest]; subst.
    cbn [split_parts component_is ebind List.filter has_component].
    rewrite IH by assumption.
    destruct (eq_str (default VNone (p !! "component")) "meld_part");
      destruct (eq_str (default VNone (p !! "component")) "meld_result"); simpl;
      rewrite <- ?app_assoc; simpl; try reflexivity.
    all: destruct (List.filter (has_component "meld_result") rest);
      [reflexivity | f_equal; f_equal; apply last_nonempty_default].
Qed.

Lemma meld_faces_chosen (data : dict) parts f0 f1 back queried fname bname :
  data !! "all_parts" = Some (VList parts) ->
  Forall is_dict parts ->
  List.filter (has_component "meld_part") parts = [f0; f1] ->
  List.filter (has_component "meld_result") parts = [back] ->
  data !! "name_normalized" = Some queried ->
  subscript f0 "name" = inr (VStr fname) ->
  subscript back "name" = inr (VStr bname) ->
  meld_faces data
  = inr (if eq_str queried (normalize_str bname true)
            || eq_str queried (normalize_str fname true)
         then [f0; back] else [f1; back]).
Proof.
  intros Hparts Hdicts Hfront Hback Hq Hf0 Hb.
  unfold meld_faces. rewrite Hparts. simpl.
  rewrite split_parts_filter by assumption.
  rewrite Hfront, Hback. simpl.
  unfold meld_name_matches, get_item. rewrite Hq. simpl.
  rewrite Hb. simpl.
  destruct (eq_str queried (normalize_str bname true)); simpl; [reflexivity|].
  rewrite Hf0. simpl.
  destruct (eq_str queried (normalize_str fname true)); reflexivity.
Qed.

Lemma add_meld_icon_layout (data data' : dict) :
  add_meld_icon data = inr data' ->
  forall k, k <> "frame_effects" -> data' !! k = data !! k.
Proof.
  unfold add_meld_icon. intros Hadd k Hk.
  destruct (iter_list _) as [e|effects]; simpl in Hadd; [discriminate|].
  destruct (negb _); inversion Hadd; subst; [|reflexivity].
  rewrite lookup_insert_ne by congruence. reflexivity.
Qed.

(** C3. For a meld record with two [meld_part] entries and one
    [meld_result] entry among its parts, [faces] starts with the first part
    when the queried normalized name is that of the result or of the first
    part, and with the second part otherwise; once the faces are fetched the
    meld block ends with [layout] set to ['transform']. *)
Theorem meld_block_sets_transform (data : dict) parts f0 f1 back queried fname bname
    effects card_faces w w' :
  data !! "all_parts" = Some (VList parts) ->
  Forall is_dict parts ->
  List.filter (has_component "meld_part") parts = [f0; f1] ->
  List.filter (has_component "meld_result") parts = [back] ->
  data !! "name_normalized" = Some queried ->
  subscript f0 "name" = inr (VStr fname) ->
  subscript back "name" = inr (VStr bname) ->
  iter_list (default (VList []) (data !! "frame_effects")) = inr effects ->
  fetch_faces (if eq_str queried (normalize_str bname true)
                  || eq_str queried (normalize_str fname true)
               then [f0; back] else [f1; back]) w = (Ok card_faces, w') ->
  meld_faces data
  = inr (if eq_str queried (normalize_str bname true)
            || eq_str queried (normalize_str fname true)
         then [f0; back] else [f1; back]) /\
  exists data',
    meld_block data w = (Ok data', w') /\
    data' !! "card_faces" = Some (VList card_faces) /\
    data' !! "layout" = Some (VStr "transform").
Proof.
  intros Hparts Hdicts Hfront Hback Hq Hf0 Hb Heff Hfetch.
  pose proof (meld_faces_chosen data parts f0 f1 back queried fname bname
                Hparts Hdicts Hfront Hback Hq Hf0 Hb) as Hfaces.
  split; [exact Hfaces|].
  unfold meld_block, bind. rewrite Hfaces. simpl. rewrite Hfetch.
  destruct (add_meld_icon (<["card_faces" := VList card_faces]> data)) as [e|data2] eqn:Hadd.
  - exfalso. unfold add_meld_icon in Hadd.
    rewrite lookup_insert_ne in Hadd by discriminate.
    rewrite Heff in Hadd. simpl in Hadd. destruct (negb _); discriminate.
  - simpl. eexists. split; [reflexivity|]. split.
    + rewrite lookup_insert_ne by discriminate.
      rewrite (add_meld_icon_layout _ _ Hadd) by discriminate.
      apply lookup_insert_eq.
    + apply lookup_insert_eq.
Qed.
Lemma eq_str_true v s : eq_str v s = true -> v = VStr s.
Proof.
  destruct v; simpl; try discriminate.
  intros E. apply String.eqb_eq in E. congruence.
Qed.

(** The [card_faces] branch changes the [layout] key at most, and then to
    one of four values. *)
Lemma faces_block_result (data : dict) cf d :
  faces_block data cf = inr d ->
  d = data \/
  exists l, In l two_face_layouts /\ d = <["layout" := VStr l]> data.
Proof.
  unfold faces_block, two_face_layouts.
  destruct (select_face data cf) as [e|card]; simpl; [discriminate|].
  destruct (subscript card "type_line") as [e|tl]; simpl; [discriminate|].
  destruct (py_in "Planeswalker" tl) as [e|is_pw]; simpl; [discriminate|].
  destruct (py_in "Saga" tl) as [e|is_saga]; simpl;
    [destruct is_pw; [destruct (get_item data "layout")|]; simpl; discriminate|].
  destruct (py_in "Battle" tl) as [e|is_battle]; simpl;
    [destruct is_pw; [destruct (get_item data "layout")|]; simpl; discriminate|].
  destruct is_pw; [destruct (get_item data "layout") as [e|lay]|]; simpl;
    try discriminate;
    destruct is_saga, is_battle; try destruct (eq_str lay "transform");
    intros [= <-]; rewrite ?insert_insert_eq;
    first [ left; reflexivity | right; eexists; split; [|reflexivity]; simpl; tauto ].
Qed.

Lemma select_face_same_name (data data2 : dict) cf :
  data2 !! "name_normalized" = data !! "name_normalized" ->
  select_face data2 cf = select_face data cf.
Proof.
  intros E. unfold select_face, get_item. rewrite E. reflexivity.
Qed.

(** The branch succeeds on a record again when it has succeeded on one with
    the same queried name and the same faces. *)
Lemma faces_block_again (data data2 : dict) cf d :
  faces_block data cf = inr d ->
  data2 !! "name_normalized" = data !! "name_normalized" ->
  is_Some (data2 !! "layout") ->
  exists d2, faces_block data2 cf = inr d2.
Proof.
  intros Hrun Hname [lay2 Hlay2]. unfold faces_block in *.
  rewrite (select_face_same_name data data2 cf Hname).
  destruct (select_face data cf) as [e|card]; simpl in *; [discriminate|].
  destruct (subscript card "type_line") as [e|tl]; simpl in *; [discriminate|].
  destruct (py_in "Planeswalker" tl) as [e|is_pw]; simpl in *; [discriminate|].
  unfold get_item at 1. rewrite Hlay2.
  destruct (py_in "Saga" tl) as [e|is_saga]; simpl in *;
    [destruct is_pw; [destruct (get_item data "layout")|]; simpl in *; discriminate|].
  destruct (py_in "Battle" tl) as [e|is_battle]; simpl in *;
    [destruct is_pw; [destruct (get_item data "layout")|]; simpl in *; discriminate|].
  destruct is_pw; simpl; eexists; reflexivity.
Qed.

Lemma no_icon_no_meld effects :
  In TransformIcons_MELD TransformIcons ->
  existsb is_transform_icon effects = false ->
  List.filter (fun v => eq_str v TransformIcons_MELD) effects = [].
Proof.
  intros Hin. induction effects as [|v rest IH]; [reflexivity|].
  simpl. intros Hnone. apply orb_false_elim in Hnone as [Hv Hrest].
  destruct (eq_str v TransformIcons_MELD) eqn:E; [|auto].
  apply eq_str_true in E. subst v. simpl in Hv.
  exfalso. apply Bool.not_true_iff_false in Hv. apply Hv.
  apply existsb_exists. exists TransformIcons_MELD. split; [exact Hin|].
  apply String.eqb_refl.
Qed.

Lemma count_meld_appended effects :
  In TransformIcons_MELD TransformIcons ->
  existsb is_transform_icon effects = false ->
  count_meld (effects ++ [VStr TransformIcons_MELD]) = 1%nat.
Proof.
  intros Hin Hnone. unfold count_meld.
  rewrite List.filter_app, (no_icon_no_meld effects Hin Hnone). simpl.
  rewrite String.eqb_refl. reflexivity.
Qed.

Lemma meld_block_effects (data dm : dict) w w1 :
  meld_block data w = (Ok dm, w1) ->
  exists effects cfs,
    iter_list (default (VList []) (data !! "frame_effects")) = inr effects /\
    dm !! "frame_effects"
      = Some (VList (if existsb is_transform_icon effects then effects
                     else effects ++ [VStr TransformIcons_MELD])%list) /\
    dm !! "card_faces" = Some (VList cfs) /\
    dm !! "layout" = Some (VStr "transform") /\
    dm !! "name_normalized" = data !! "name_normalized".
Proof.
  unfold meld_block, bind. intros Hrun.
  destruct (lift (meld_faces data) w) as [[faces| |] w0]; try discriminate.
  destruct (fetch_faces faces w0) as [[cfs| |] w2]; try discriminate.
  unfold add_meld_icon in Hrun.
  rewrite lookup_insert_ne in Hrun by discriminate.
  destruct (iter_list (default (VList []) (data !! "frame_effects")))
    as [e|effects] eqn:Heff; simpl in Hrun; [discriminate|].
  exists effects, cfs. split; [reflexivity|].
  destruct (existsb is_transform_icon effects) eqn:Hicon; simpl in Hrun;
    inversion Hrun; subst; clear Hrun.
  - repeat split.
    + rewrite !lookup_insert_ne by discriminate.
      destruct (data !! "frame_effects") as [v|] eqn:Hfe; simpl in Heff.
      * destruct v; try discriminate. simpl in Heff. congruence.
      * inversion Heff; subst. discriminate.
    + rewrite lookup_insert_ne by discriminate. apply lookup_insert_eq.
    + apply lookup_insert_eq.
    + rewrite !lookup_insert_ne by discriminate. reflexivity.
  - repeat split.
    + rewrite lookup_insert_ne by discriminate. apply lookup_insert_eq.
    + rewrite !lookup_insert_ne by discriminate. apply lookup_insert_eq.
    + apply lookup_insert_eq.
    + rewrite !lookup_insert_ne by discriminate. reflexivity.
Qed.

(** C7. Processing a meld record appends the meld marker to
    [frame_effects] only when none of the entries is a transform icon, so a
    list without icons ends with the marker exactly once and a list with an
    icon is left as it is; processing the result again succeeds and leaves
    [frame_effects] untouched. *)
Theorem meld_icon_added_once (data d1 : dict) w w1 :
  In TransformIcons_MELD TransformIcons ->
  data !! "layout" = Some (VStr "meld") ->
  process_scryfall_data data w = (Ok d1, w1) ->
  exists effects,
    iter_list (default (VList []) (data !! "frame_effects")) = inr effects /\
    d1 !! "frame_effects"
      = Some (VList (if existsb is_transform_icon effects then effects
                     else effects ++ [VStr TransformIcons_MELD])%list) /\
    (existsb is_transform_icon effects = false ->
     count_meld (effects ++ [VStr TransformIcons_MELD]) = 1%nat) /\
    forall w2, exists d2,
      process_scryfall_data d1 w2 = (Ok d2, w2) /\
      d2 !! "frame_effects" = d1 !! "frame_effects".
Proof.
  intros Hin Hlayout Hrun.
  unfold process_scryfall_data, bind, get_item in Hrun.
  rewrite Hlayout in Hrun. simpl in Hrun.
  destruct (meld_block data w) as [[dm| |] w0] eqn:Hmeld; try discriminate.
  destruct (meld_block_effects data dm w w0 Hmeld)
    as (effects & cfs & Heff & Hfe & Hcf & Hlay & Hname).
  unfold classify in Hrun. rewrite Hcf in Hrun.
  destruct (faces_block dm (VList cfs)) as [e|d] eqn:Hfaces;
    simpl in Hrun; inversion Hrun; subst; clear Hrun.
  assert (Hkeep : forall k, k <> "layout" -> d1 !! k = dm !! k).
  { intros k Hk. destruct (faces_block_result dm _ d1 Hfaces) as [-> | (l & _ & ->)].
    - reflexivity.
    - apply lookup_insert_ne. congruence. }
  assert (Hlay1 : exists l, d1 !! "layout" = Some (VStr l) /\ eq_str (VStr l) "meld" = false).
  { destruct (faces_block_result dm _ d1 Hfaces) as [-> | (l & Hl & ->)].
    - exists "transform". split; [exact Hlay | reflexivity].
    - exists l. split; [apply lookup_insert_eq|].
      simpl in Hl. destruct Hl as [<-|[<-|[<-|[<-|[]]]]]; reflexivity. }
  exists effects. split; [exact Heff|]. split.
  { rewrite Hkeep by discriminate. exact Hfe. }
  split; [apply count_meld_appended; assumption|].
  intros w2. destruct Hlay1 as (l & Hl1 & Hnot).
  destruct (faces_block_again dm d1 (VList cfs) d1 Hfaces) as [d2 Hd2].
  { rewrite Hkeep by discriminate. reflexivity. }
  { rewrite Hl1. eauto. }
  exists d2. split.
  - unfold process_scryfall_data, bind, get_item. rewrite Hl1. simpl.
    simpl in Hnot. rewrite Hnot. unfold ret, classify.
    rewrite Hkeep by discriminate. rewrite Hcf, Hd2. reflexivity.
  - destruct (faces_block_result d1 _ d2 Hd2) as [-> | (l2 & _ & ->)].
    + reflexivity.
    + apply lookup_insert_ne. discriminate.
Qed.


(** A record whose layout is not ['meld'] goes straight to the cascade. *)
Lemma process_without_meld (data : dict) lay w :
  data !! "layout" = Some lay ->
  eq_str lay "meld" = false ->
  process_scryfall_data data w = lift (classify data) w.
Proof.
  intros Hlay Hnot. unfold process_scryfall_data, bind, get_item.
  rewrite Hlay. simpl. rewrite Hnot. reflexivity.
Qed.

(** C4 (what the code does). For a record with [card_faces] the final
    layout is decided by the type line of the selected face alone, the last
    matching test winning: ['battle'] if it contains "Battle", else ['saga']
    if it contains "Saga", else ['planeswalker_tf'] (layout ['transform']) or
    ['planeswalker_mdfc'] (any other layout) if it contains "Planeswalker",
    else the layout is kept.  [keywords] and the record's own [type_line]
    play no part: the Mutate and single-face checks are not reached. *)
Theorem two_face_layout_by_selected_face (data : dict) lay face0 face1 rest
    name0 queried type_line is_pw is_saga is_battle w :
  data !! "layout" = Some lay ->
  eq_str lay "meld" = false ->
  data !! "card_faces" = Some (VList (face0 :: face1 :: rest)) ->
  subscript face0 "name" = inr (VStr name0) ->
  data !! "name_normalized" = Some queried ->
  subscript (if eq_str queried (normalize_str name0 true) then face0 else face1)
            "type_line" = inr type_line ->
  py_in "Planeswalker" type_line = inr is_pw ->
  py_in "Saga" type_line = inr is_saga ->
  py_in "Battle" type_line = inr is_battle ->
  process_scryfall_data data w
  = (Ok (if is_battle then <["layout" := VStr "battle"]> data
         else if is_saga then <["layout" := VStr "saga"]> data
         else if is_pw
              then <["layout" := VStr (if eq_str lay "transform"
                                       then "planeswalker_tf"
                                       else "planeswalker_mdfc")]> data
              else data), w).
Proof.
  intros Hlay Hnot Hcf Hname0 Hq Htl Hpw Hsaga Hbattle.
  rewrite (process_without_meld data lay w Hlay Hnot).
  unfold classify. rewrite Hcf.
  assert (Hsel : select_face data (VList (face0 :: face1 :: rest))
                 = inr (if eq_str queried (normalize_str name0 true)
                        then face0 else face1)).
  { unfold select_face, get_item. simpl. rewrite Hname0. simpl. rewrite Hq. simpl.
    destruct (eq_str queried (normalize_str name0 true)); reflexivity. }
  unfold faces_block. rewrite Hsel. simpl. rewrite Htl. simpl.
  rewrite Hpw, Hsaga, Hbattle. unfold get_item. rewrite Hlay.
  destruct is_pw, is_saga, is_battle; simpl; rewrite ?insert_insert_eq; reflexivity.
Qed.

End ClassificationProperties.

Lemma meld_block_sets_transform_witness :
  @meld_faces sample_imports bruna_record = inr [bruna_part; brisela_part] /\
  exists data',
    @meld_block sample_imports bruna_record (world_at_start net_meld)
      = (Ok data', world_after_bruna) /\
    data' !! "card_faces" = Some (VList bruna_faces) /\
    data' !! "layout" = Some (VStr "transform").
Proof.
  apply (@meld_block_sets_transform sample_imports bruna_record
           [bruna_part; gisela_part; brisela_part]
           bruna_part gisela_part brisela_part
           (VStr "BRUNA, THE FADING LIGHT")
           "Bruna, the Fading Light" "Brisela, Voice of Nightmares"
           [] bruna_faces (world_at_start net_meld) world_after_bruna).
  - reflexivity.
  - repeat constructor; eexists; reflexivity.
  - reflexivity.
  - reflexivity.
  - reflexivity.
  - reflexivity.
  - reflexivity.
  - reflexivity.
  - reflexivity.
Defined.

Lemma meld_icon_added_once_witness :
  exists effects,
    iter_list (default (VList []) (bruna_record !! "frame_effects")) = inr effects /\
    bruna_processed !! "frame_effects"
      = Some (VList (if existsb (@is_transform_icon sample_imports) effects
                     then effects
                     else effects ++ [VStr (@TransformIcons_MELD sample_imports)])%list) /\
    (existsb (@is_transform_icon sample_imports) effects = false ->
     @count_meld sample_imports
        (effects ++ [VStr (@TransformIcons_MELD sample_imports)]) = 1%nat) /\
    forall w2, exists d2,
      @process_scryfall_data sample_imports bruna_processed w2 = (Ok d2, w2) /\
      d2 !! "frame_effects" = bruna_processed !! "frame_effects".
Proof.
  apply (@meld_icon_added_once sample_imports bruna_record bruna_processed
           (world_at_start net_meld) world_after_bruna).
  - simpl. tauto.
  - reflexivity.
  - reflexivity.
Defined.

Lemma two_face_layout_by_selected_face_witness :
  @process_scryfall_data sample_imports tibalt_record (world_at_start net_down)
  = (Ok (<["layout" := VStr "planeswalker_mdfc"]> tibalt_record),
     world_at_start net_down).
Proof.
  apply (@two_face_layout_by_selected_face sample_imports tibalt_record
           (VStr "modal_dfc") valki_front tibalt_back []
           "Valki, God of Lies" (VStr "TIBALT, COSMIC IMPOSTOR")
           (VStr "Legendary Planeswalker - Tibalt") true false false
           (world_at_start net_down)); reflexivity.
Defined.

(** C4, as stated, fails: the selected face of this transform record has
    "Planeswalker" in its type line, and the final layout is ['saga'], not
    ['planeswalker_tf']. *)
Lemma planeswalker_face_ends_as_saga :
  let front := VDict (face "The Wanderer's Tale" "Legendary Planeswalker Saga") in
  let back := VDict (face "The Tale's End" "Legendary Creature - Spirit") in
  let r := @process_scryfall_data sample_imports walker_saga_record
             (world_at_start net_down) in
  walker_saga_record !! "card_faces" = Some (VList [front; back]) /\
  @select_face sample_imports walker_saga_record (VList [front; back]) = inr front /\
  subscript front "type_line" = inr (VStr "Legendary Planeswalker Saga") /\
  py_in "Planeswalker" (VStr "Legendary Planeswalker Saga") = inr true /\
  walker_saga_record !! "layout" = Some (VStr "transform") /\
  fst r = Ok (<["layout" := VStr "saga"]> walker_saga_record) /\
  (<["layout" := VStr "saga"]> walker_saga_record) !! "layout"
    <> Some (VStr "planeswalker_tf").
Proof.
  cbv zeta. repeat split; try reflexivity.
  discriminate.
Qed.

(** ** The render job *)

Section RenderProperties.
Context `{RenderEnv}.

Lemma basic_land_test (name : string) :
  In name basic_land_names ->
  existsb (fun n => (n =? name)%string) basic_land_names = true.
Proof.
  intros Hin. apply existsb_exists. exists name. split; [exact Hin|].
  apply String.eqb_refl.
Qed.

(** C10. When the name parsed from the file is a basic land and the file
    name has no [[...]] tag, [render] ends with the [AttributeError] of
    [None.upper()], which nothing catches, and so does not render: the
    basic-land path completes only for a file name with a set tag. *)
Theorem basic_land_without_set_raises (file : string) (template : value) :
  In (card_name (retrieve_card_info (basename file))) basic_land_names ->
  card_set (retrieve_card_info (basename file)) = None ->
  render file template = Uncaught AttributeError /\
  forall layout, render file template <> Rendered layout.
Proof.
  intros Hland Hset.
  assert (Hraise : render file template = Uncaught AttributeError).
  { unfold render, build_layout.
    rewrite (basic_land_test _ Hland).
    unfold basic_land_layout. rewrite Hset. reflexivity. }
  split; [exact Hraise|].
  intros layout. rewrite Hraise. discriminate.
Qed.

End RenderProperties.

Lemma basic_land_without_set_raises_witness :
  @render sample_env "Forest (John Avon).png" (VStr "Normal")
    = Uncaught AttributeError /\
  forall layout,
    @render sample_env "Forest (John Avon).png" (VStr "Normal") <> Rendered layout.
Proof.
  apply (@basic_land_without_set_raises sample_env
           "Forest (John Avon).png" (VStr "Normal")).
  - do 4 right. left. reflexivity.
  - reflexivity.
Defined.

(** The two runs side by side: without a set tag the job dies, with one it
    renders. *)
Example forest_without_set :
  @render sample_env "Forest (John Avon).png" (VStr "Normal") = Uncaught AttributeError.
Proof. reflexivity. Qed.

Example forest_with_set :
  @render sample_env "Forest (John Avon) [unh].png" (VStr "Normal")
  = Rendered (mkLayout (VStr "Forest") (VStr "John Avon") (VStr "UNH")
                "BasicLand" VNone VNone VNone).
Proof. reflexivity. Qed.

(** ** The filename parsers *)

Lemma append_cons c (a b : string) : String c a ++ b = String c (a ++ b).
Proof. reflexivity. Qed.

Lemma append_nil_l (b : string) : EmptyString ++ b = b.
Proof. reflexivity. Qed.

Ltac sapp := rewrite ?append_cons, ?append_nil_l in *; simpl.

Lemma append_assoc (a b c : string) : (a ++ b) ++ c = a ++ (b ++ c).
Proof. induction a as [|x a IH]; sapp; [reflexivity | rewrite IH; reflexivity]. Qed.

Lemma append_nil_r (a : string) : a ++ EmptyString = a.
Proof. induction a as [|x a IH]; sapp; [reflexivity | rewrite IH; reflexivity]. Qed.

Lemma length_append (a b : string) :
  String.length (a ++ b) = (String.length a + String.length b)%nat.
Proof. induction a as [|x a IH]; sapp; [reflexivity | rewrite IH; reflexivity]. Qed.

Lemma all_chars_append P a b :
  all_chars P (a ++ b) = all_chars P a && all_chars P b.
Proof.
  induction a as [|x a IH]; sapp; [reflexivity|].
  rewrite IH, andb_assoc. reflexivity.
Qed.

Lemma all_chars_weaken (P Q : ascii -> bool) s :
  (forall c, P c = true -> Q c = true) ->
  all_chars P s = true -> all_chars Q s = true.
Proof.
  intros HPQ. induction s as [|c s IH]; simpl; [reflexivity|].
  intros Hs. apply andb_prop in Hs as [Hc Hr].
  rewrite (HPQ c Hc), (IH Hr). reflexivity.
Qed.

(** *** [findall] *)

Lemma match_here_other open close c r :
  (c =? open)%char = false -> match_here open close (String c r) = None.
Proof. intros Hc. unfold match_here. simpl. rewrite Hc. reflexivity. Qed.

(** Text without the opening bracket holds no match. *)
Lemma findall_skip_plain open close s rest :
  all_chars (fun c => negb (c =? open)%char) s = true ->
  findall_from open close 0 (s ++ rest) = findall_from open close 0 rest.
Proof.
  induction s as [|c s IH]; sapp; [reflexivity|].
  intros Hs. apply andb_prop in Hs as [Hc Hs].
  apply negb_true_iff in Hc.
  rewrite (match_here_other open close c _ Hc). apply IH. exact Hs.
Qed.

(** The characters of a match are passed over. *)
Lemma findall_skip_matched open close s rest :
  findall_from open close (String.length s) (s ++ rest)
  = findall_from open close 0 rest.
Proof.
  induction s as [|c s IH]; sapp.
  - destruct rest; reflexivity.
  - exact IH.
Qed.

Lemma lazy_until_content close content rest :
  all_chars (fun c => negb (c =? close)%char && negb (c =? newline)%char) content = true ->
  lazy_until close (content ++ String close rest)
  = Some (content, S (String.length content)).
Proof.
  induction content as [|c s IH]; sapp.
  - intros _. rewrite Ascii.eqb_refl. reflexivity.
  - intros Hs. apply andb_prop in Hs as [Hc Hs].
    apply andb_prop in Hc as [Hc1 Hc2].
    apply negb_true_iff in Hc1, Hc2. rewrite Hc1, Hc2, (IH Hs). reflexivity.
Qed.

Lemma skip_opens_none open s :
  match s with
  | EmptyString => True
  | String c _ => (c =? open)%char = false
  end ->
  skip_opens open s = (s, 0%nat).
Proof. destruct s as [|c r]; simpl; [reflexivity|]. intros ->. reflexivity. Qed.

(** One tag, matched at its opening bracket. *)
Lemma match_here_tag open close content rest :
  (close =? open)%char = false ->
  all_chars (fun c => negb (c =? open)%char) content = true ->
  all_chars (fun c => negb (c =? close)%char && negb (c =? newline)%char) content = true ->
  match_here open close (String open (content ++ String close rest))
  = Some (content, S (S (String.length content))).
Proof.
  intros Hne Hopen Hclose. unfold match_here. simpl.
  rewrite Ascii.eqb_refl.
  rewrite skip_opens_none.
  - rewrite (lazy_until_content close content rest Hclose). reflexivity.
  - destruct content as [|c s]; sapp.
    + exact Hne.
    + apply andb_prop in Hopen as [Hc _]. apply negb_true_iff in Hc. exact Hc.
Qed.

Lemma findall_tag open close content rest :
  (close =? open)%char = false ->
  ((" " =? open)%char = false) ->
  all_chars (fun c => negb (c =? open)%char) content = true ->
  all_chars (fun c => negb (c =? close)%char && negb (c =? newline)%char) content = true ->
  findall_from open close 0
    (String " " (String open (content ++ String close rest)))
  = content :: findall_from open close 0 rest.
Proof.
  intros Hne Hsp Hopen Hclose.
  change (findall_from open close 0
            (String " " (String open (content ++ String close rest))))
    with (match match_here open close
                  (String " " (String open (content ++ String close rest))) with
          | Some (g, n) =>
              g :: findall_from open close (n - 1)
                     (String open (content ++ String close rest))
          | None =>
              findall_from open close 0 (String open (content ++ String close rest))
          end).
  rewrite (match_here_other open close " " _ Hsp).
  change (findall_from open close 0 (String open (content ++ String close rest)))
    with (match match_here open close (String open (content ++ String close rest)) with
          | Some (g, n) =>
              g :: findall_from open close (n - 1) (content ++ String close rest)
          | None => findall_from open close 0 (content ++ String close rest)
          end).
  rewrite (match_here_tag open close content rest Hne Hopen Hclose).
  f_equal.
  replace (S (S (String.length content)) - 1)%nat
    with (String.length (content ++ String close EmptyString)).
  - rewrite <- (findall_skip_matched open close (content ++ String close EmptyString) rest).
    rewrite append_assoc. reflexivity.
  - rewrite length_append. simpl. lia.
Qed.

Lemma not_bracket_opener k c :
  negb (is_bracket c) = true -> negb (c =? opener k)%char = true.
Proof.
  unfold is_bracket. intros Hc. apply negb_true_iff in Hc.
  repeat (apply orb_false_elim in Hc as [Hc ?]).
  destruct k; simpl; apply negb_true_iff; assumption.
Qed.

Lemma not_bracket_closer k c :
  negb (is_bracket c) = true -> negb (c =? closer k)%char = true.
Proof.
  unfold is_bracket. intros Hc. apply negb_true_iff in Hc.
  repeat (apply orb_false_elim in Hc as [Hc ?]).
  destruct k; simpl; apply negb_true_iff; assumption.
Qed.

Lemma plain_no_opener k s :
  plain s -> all_chars (fun c => negb (c =? opener k)%char) s = true.
Proof. apply all_chars_weaken. intros c. apply not_bracket_opener. Qed.

Lemma clean_plain s : clean s -> plain s.
Proof.
  apply all_chars_weaken. intros c Hc. apply andb_prop in Hc as [Hc _]. exact Hc.
Qed.

Lemma clean_no_closer k s :
  clean s ->
  all_chars (fun c => negb (c =? closer k)%char && negb (c =? newline)%char) s = true.
Proof.
  apply all_chars_weaken. intros c Hc. apply andb_prop in Hc as [Hb Hn].
  rewrite (not_bracket_closer k c Hb), Hn. reflexivity.
Qed.

Lemma bracket_eqb_eq k k' : bracket_eqb k k' = true -> k = k'.
Proof. destruct k, k'; simpl; congruence. Qed.

(** A tag of another kind has no opening bracket of kind [k]. *)
Lemma tag_text_no_opener k t :
  bracket_eqb k (fst t) = false -> clean (snd t) ->
  all_chars (fun c => negb (c =? opener k)%char) (tag_text t) = true.
Proof.
  destruct t as [k' content]. simpl. intros Hk Hclean.
  unfold tag_text. simpl.
  rewrite all_chars_append, (plain_no_opener k content (clean_plain _ Hclean)). simpl.
  destruct k, k'; simpl in *; try discriminate; reflexivity.
Qed.

(** [findall] over a run of tags returns the contents of the tags of its
    kind, in order. *)
Lemma findall_tags k tags ext :
  Forall (fun t => clean (snd t)) tags ->
  plain ext ->
  findall_from (opener k) (closer k) 0 (tags_text tags ++ ext) = contents_of k tags.
Proof.
  intros Htags Hext.
  induction Htags as [|t rest Ht Hrest IH]; cbn [tags_text contents_of].
  - rewrite append_nil_l, <- (append_nil_r ext).
    rewrite (findall_skip_plain _ _ ext EmptyString (plain_no_opener k ext Hext)).
    reflexivity.
  - rewrite append_assoc.
    destruct (bracket_eqb k (fst t)) eqn:Hk.
    + apply bracket_eqb_eq in Hk. subst k.
      unfold tag_text. rewrite !append_cons, append_assoc, append_cons, append_nil_l.
      rewrite findall_tag.
      * rewrite IH. reflexivity.
      * destruct (fst t); reflexivity.
      * destruct (fst t); reflexivity.
      * apply plain_no_opener, clean_plain, Ht.
      * apply clean_no_closer, Ht.
    + rewrite (findall_skip_plain _ _ _ _ (tag_text_no_opener k t Hk Ht)).
      exact IH.
Qed.

Lemma findall_filename k name tags ext :
  plain name ->
  Forall (fun t => clean (snd t)) tags ->
  plain ext ->
  findall (opener k) (closer k) (name ++ tags_text tags ++ ext) = contents_of k tags.
Proof.
  intros Hname Htags Hext. unfold findall.
  rewrite (findall_skip_plain _ _ name _ (plain_no_opener k name Hname)).
  apply findall_tags; assumption.
Qed.

(** *** [re.split] and the name *)

Lemma starts_with_sep_false (b c c' : ascii) r :
  (c' =? b)%char = false ->
  starts_with (String " " (String b EmptyString)) (String c (String c' r)) = false.
Proof.
  intros Hb. cbn [starts_with].
  rewrite (Ascii.eqb_sym b c'), Hb, andb_false_r. reflexivity.
Qed.

Lemma at_separator_plain_next c r :
  match r with
  | EmptyString => True
  | String c' _ => is_bracket c' = false
  end ->
  at_separator (String c r) = false.
Proof.
  unfold at_separator. destruct r as [|c' r']; intros Hc'.
  - cbn [starts_with]. rewrite !andb_false_r. reflexivity.
  - unfold is_bracket in Hc'.
    repeat (apply orb_false_elim in Hc' as [Hc' ?]).
    rewrite !starts_with_sep_false by assumption. reflexivity.
Qed.

Lemma at_separator_space c r : at_separator (String c r) = true -> c = " "%char.
Proof.
  unfold at_separator. cbn [starts_with].
  destruct (Ascii.eqb_spec " " c) as [<-|]; [reflexivity|].
  rewrite !andb_false_l. discriminate.
Qed.

Lemma hd_split_from piece name rest :
  plain name ->
  rest = EmptyString \/ at_separator rest = true ->
  hd EmptyString (split_from 0 piece (name ++ rest)) = piece ++ name.
Proof.
  intros Hname Hrest. revert piece.
  induction name as [|c name IH]; intros piece.
  - rewrite append_nil_l, append_nil_r.
    destruct Hrest as [-> | Hsep]; [reflexivity|].
    destruct rest as [|c r]; [reflexivity|].
    simpl. rewrite Hsep. reflexivity.
  - unfold plain in Hname. simpl in Hname.
    apply andb_prop in Hname as [Hc Hname].
    rewrite append_cons.
    change (split_from 0 piece (String c (name ++ rest)))
      with (if at_separator (String c (name ++ rest))
            then piece :: split_from 1 EmptyString (name ++ rest)
            else split_from 0 (piece ++ String c EmptyString) (name ++ rest)).
    rewrite at_separator_plain_next.
    + rewrite (IH Hname). rewrite append_assoc. reflexivity.
    + destruct name as [|c' name'].
      * rewrite append_nil_l.
        destruct Hrest as [-> | Hsep]; [exact I|].
        destruct rest as [|c' r]; [exact I|].
        rewrite (at_separator_space c' r Hsep). reflexivity.
      * rewrite append_cons. simpl in Hname.
        apply andb_prop in Hname as [Hc' _]. apply negb_true_iff in Hc'. exact Hc'.
Qed.

Lemma tags_text_separator tags :
  tags_text tags = EmptyString \/ at_separator (tags_text tags) = true.
Proof.
  destruct tags as [|[k content] rest]; [left; reflexivity|right].
  simpl. unfold tag_text. simpl. destruct k; reflexivity.
Qed.

Lemma substring_prefix (s e : string) :
  String.substring 0 (String.length s) (s ++ e) = s.
Proof.
  induction s as [|c s IH].
  - rewrite append_nil_l. destruct e; reflexivity.
  - rewrite append_cons. simpl. rewrite IH. reflexivity.
Qed.

Lemma drop_last4_ext (s ext : string) :
  String.length ext = 4%nat -> drop_last4 (s ++ ext) = s.
Proof.
  intros Hext. unfold drop_last4. rewrite length_append, Hext.
  replace (String.length s + 4 - 4)%nat with (String.length s) by lia.
  apply substring_prefix.
Qed.

Lemma contents_of_perm k (tags tags' : list (bracket * string)) :
  tags ≡ₚ tags' -> contents_of k tags ≡ₚ contents_of k tags'.
Proof.
  induction 1 as [|t l l' _ IH|t t' l|l l' l'' _ IH1 _ IH2]; simpl.
  - reflexivity.
  - destruct (bracket_eqb k (fst t)); [constructor|]; exact IH.
  - destruct (bracket_eqb k (fst t)), (bracket_eqb k (fst t'));
      try reflexivity. apply perm_swap.
  - etransitivity; eassumption.
Qed.

Lemma contents_of_three k creator artist settag tags :
  tags ≡ₚ [(Curly, creator); (Round, artist); (Square, settag)] ->
  contents_of k tags
  = [match k with Curly => creator | Round => artist | Square => settag end].
Proof.
  intros Hperm. apply Permutation_singleton_r.
  rewrite (contents_of_perm k _ _ Hperm). destruct k; reflexivity.
Qed.

Lemma retrieve_card_info_tags name creator artist settag ext tags :
  plain name -> clean creator -> clean artist -> clean settag ->
  plain ext -> String.length ext = 4%nat ->
  tags ≡ₚ [(Curly, creator); (Round, artist); (Square, settag)] ->
  retrieve_card_info (name ++ tags_text tags ++ ext)
  = mk_card_info name (Some artist) (Some settag) (Some creator).
Proof.
  intros Hname Hcreator Hartist Hset Hext Hlen Hperm.
  assert (Htags : Forall (fun t => clean (snd t)) tags).
  { apply Forall_forall. intros t Ht.
    rewrite Hperm in Ht. apply list_elem_of_In in Ht. simpl in Ht.
    destruct Ht as [<-|[<-|[<-|[]]]]; assumption. }
  unfold retrieve_card_info.
  rewrite <- append_assoc, (drop_last4_ext _ ext Hlen), append_assoc.
  unfold re_split_sep.
  rewrite (hd_split_from EmptyString name (tags_text tags) Hname (tags_text_separator tags)).
  rewrite append_nil_l.
  pose proof (findall_filename Curly name tags ext Hname Htags Hext) as Hcurly.
  pose proof (findall_filename Round name tags ext Hname Htags Hext) as Hround.
  pose proof (findall_filename Square name tags ext Hname Htags Hext) as Hsquare.
  cbn [opener closer] in Hcurly, Hround, Hsquare.
  rewrite Hcurly, Hround, Hsquare.
  rewrite !(contents_of_three _ creator artist settag tags Hperm).
  reflexivity.
Qed.

Lemma str_in_dollar s : no_dollar s -> str_in "$" s = false.
Proof.
  unfold no_dollar. induction s as [|c s IH]; [reflexivity|].
  cbn [all_chars str_in starts_with]. intros Hs.
  apply andb_prop in Hs as [Hc Hs]. apply negb_true_iff in Hc.
  rewrite (Ascii.eqb_sym "$" c), Hc, (IH Hs). reflexivity.
Qed.

Lemma all_chars_substring P n s :
  all_chars P s = true -> all_chars P (String.substring 0 n s) = true.
Proof.
  revert n. induction s as [|c s IH]; intros n Hs.
  - destruct n; reflexivity.
  - destruct n as [|n]; [reflexivity|].
    cbn [all_chars String.substring] in *.
    apply andb_prop in Hs as [Hc Hs]. rewrite Hc, (IH n Hs). reflexivity.
Qed.

Lemma no_dollar_stem s : no_dollar s -> no_dollar (stem s).
Proof.
  unfold no_dollar, stem. intros Hs.
  destruct (rfind "." s) as [i|]; [|exact Hs].
  destruct ((0 <? i)%nat && (i <? String.length s - 1)%nat); [|exact Hs].
  apply all_chars_substring. exact Hs.
Qed.


(** Without a dollar sign in the file name [parse_card_info] finds no
    creator, whatever the patterns of [Reg] are. *)
Lemma parse_card_info_no_creator `{Imports} file :
  no_dollar file -> cd_creator (parse_card_info file) = EmptyString.
Proof.
  intros Hfile. unfold parse_card_info. simpl.
  rewrite (str_in_dollar _ (no_dollar_stem file Hfile)). reflexivity.
Qed.

(** C9 (what the code does). Take a file name made of a name, the tags
    [" {Creator}"], [" (Artist)"] and [" [SETTAG]"] in any order, and a
    four-character extension, where name and extension have no bracket
    characters and the tag contents have neither bracket characters nor
    line breaks.  [retrieve_card_info] returns the name, the creator, the
    artist, and as set the whole content of the square brackets; it has no
    number.  [parse_card_info] returns an empty creator when the file name
    has no dollar sign, whatever the patterns of [Reg] are. *)
Theorem filename_tags_as_parsed `{Imports} name creator artist settag ext tags :
  plain name -> clean creator -> clean artist -> clean settag ->
  plain ext -> String.length ext = 4%nat ->
  tags ≡ₚ [(Curly, creator); (Round, artist); (Square, settag)] ->
  no_dollar (name ++ tags_text tags ++ ext) ->
  retrieve_card_info (name ++ tags_text tags ++ ext)
    = mk_card_info name (Some artist) (Some settag) (Some creator) /\
  cd_creator (parse_card_info (name ++ tags_text tags ++ ext)) = EmptyString.
Proof.
  intros Hname Hcreator Hartist Hset Hext Hlen Hperm Hdollar. split.
  - apply retrieve_card_info_tags; assumption.
  - apply parse_card_info_no_creator. exact Hdollar.
Qed.

Lemma filename_tags_as_parsed_witness :
  retrieve_card_info "Name (Artist) [SET123] {Creator}.ext"
    = mk_card_info "Name" (Some "Artist") (Some "SET123") (Some "Creator") /\
  cd_creator (@parse_card_info sample_imports "Name (Artist) [SET123] {Creator}.ext")
    = EmptyString.
Proof.
  apply (@filename_tags_as_parsed sample_imports "Name" "Creator" "Artist" "SET123"
           ".ext" [(Round, "Artist"); (Square, "SET123"); (Curly, "Creator")]).
  - reflexivity.
  - reflexivity.
  - reflexivity.
  - reflexivity.
  - reflexivity.
  - reflexivity.
  - symmetry.
    apply (Permutation_cons_append [(Round, "Artist"); (Square, "SET123")]
             (Curly, "Creator")).
  - reflexivity.
Defined.

(** C9, as stated, fails: [retrieve_card_info] returns the whole tag
    ["SET123"] as the set and has no number to return, and
    [parse_card_info] returns no creator for this file, whatever the
    patterns of [Reg] are. *)
Lemma set_tag_is_not_split :
  retrieve_card_info "Name {Creator} (Artist) [SET123].ext"
    = mk_card_info "Name" (Some "Artist") (Some "SET123") (Some "Creator") /\
  card_set (retrieve_card_info "Name {Creator} (Artist) [SET123].ext") <> Some "SET" /\
  (forall I : Imports,
     cd_creator (@parse_card_info I "Name {Creator} (Artist) [SET123].ext")
     = EmptyString) /\
  (forall I : Imports,
     cd_creator (@parse_card_info I "Name {Creator} (Artist) [SET123].ext")
     <> "Creator").
Proof.
  repeat split; try reflexivity; intros; discriminate.
Qed.

(** ** More on the set resolver *)

Lemma get_set_scryfall_eval fuel card_set w :
  (2 <= fuel)%nat ->
  exists w',
    get_set_scryfall fuel card_set w
    = (match http w (length (sent w)) (scryfall_set_url card_set) with
       | inr (Some (VDict j)) =>
           Ok (Fresh (VDict (if has_name (with_marker j) then with_marker j else ∅)))
       | _ => Ok (Shared FAIL_SCRYFALL)
       end, w') /\
    after_request (scryfall_set_url card_set)
      (match http w (length (sent w)) (scryfall_set_url card_set) with
       | inr (Some (VDict j)) => []
       | inr (Some _) => [AttributeError]
       | inr None => [ValueError]
       | inl e => [e]
       end) w w'.
Proof.
  intros Hfuel. unfold get_set_scryfall.
  destruct (handle_request_failure_once fuel (Shared FAIL_SCRYFALL)
              (get_set_scryfall_raw card_set) w Hfuel) as (w1 & Hsame & ->).
  destruct Hsame as (Hj & Hh & Hs & Hf & Hwr & Hl & Hsh & Hc).
  unfold handle_final_exception, try_except, enter, get_set_scryfall_raw,
    requests_get, bind, scryfall_set_url. simpl.
  rewrite Hh, Hs.
  destruct (http w (length (sent w)) _) as [e|[resp|]]; simpl.
  - eexists. split; [reflexivity|]. unfold after_request. simpl.
    rewrite ?Hs, ?Hl, ?Hh, ?Hf, ?Hsh, ?Hwr. tauto.
  - destruct resp; simpl; eexists; (split; [reflexivity|]);
      unfold after_request; simpl; rewrite ?Hs, ?Hl, ?Hh, ?Hf, ?Hsh, ?Hwr, ?app_nil_r; tauto.
  - eexists. split; [reflexivity|]. unfold after_request. simpl.
    rewrite ?Hs, ?Hl, ?Hh, ?Hf, ?Hsh, ?Hwr. tauto.
Qed.

#[local] Arguments pop_all : simpl never.

Lemma get_set_mtgjson_eval fuel code w :
  (2 <= fuel)%nat ->
  exists w',
    get_set_mtgjson fuel (VStr code) w
    = (match mtgjson_outcome (http w (length (sent w)) (mtgjson_set_url code)) with
       | inr d => Ok (Fresh (VDict d))
       | inl _ => Ok (Shared FAIL_MTGJSON)
       end, w') /\
    after_request (mtgjson_set_url code)
      (match mtgjson_outcome (http w (length (sent w)) (mtgjson_set_url code)) with
       | inr _ => []
       | inl e => [e]
       end) w w'.
Proof.
  intros Hfuel. unfold get_set_mtgjson.
  destruct (handle_request_failure_once fuel (Shared FAIL_MTGJSON)
              (get_set_mtgjson_raw (VStr code)) w Hfuel) as (w1 & Hsame & ->).
  destruct Hsame as (Hj & Hh & Hs & Hf & Hwr & Hl & Hsh & Hc).
  unfold handle_final_exception, try_except, enter, get_set_mtgjson_raw,
    requests_get, bind, mtgjson_set_url, mtgjson_outcome. simpl.
  rewrite Hh, Hs.
  destruct (http w (length (sent w)) _) as [e|[resp|]]; simpl;
    [| destruct resp; simpl; try destruct (default (VDict ∅) (_ !! "data")); simpl;
       try destruct (py_len _); simpl; try destruct (pop_all _ _); simpl |];
    eexists; (split; [reflexivity|]); unfold after_request; simpl;
    rewrite ?Hs, ?Hl, ?Hh, ?Hf, ?Hsh, ?Hwr, ?app_nil_r; tauto.
Qed.

Lemma pop_all_extra (j : dict) :
  pop_all MTGJSON_SET_DATA_EXTRA j
  = match j !! "sealedProduct", j !! "booster", j !! "cards" with
    | Some _, Some _, Some _ =>
        inr (delete "cards" (delete "booster" (delete "sealedProduct" j)))
    | None, _, _ => inl (KeyError "sealedProduct")
    | Some _, None, _ => inl (KeyError "booster")
    | Some _, Some _, None => inl (KeyError "cards")
    end.
Proof.
  unfold MTGJSON_SET_DATA_EXTRA, pop_all.
  destruct (j !! "sealedProduct"); [|reflexivity].
  rewrite lookup_delete_ne by discriminate.
  destruct (j !! "booster"); [|reflexivity].
  rewrite !lookup_delete_ne by discriminate.
  destruct (j !! "cards"); reflexivity.
Qed.

(** X1. An MTGJSON record that lacks one of the listings [sealedProduct],
    [booster], [cards] is not stripped but dropped: [dict.pop] raises, the
    final catch answers with the fallback dict, whatever the record's name
    is.  One request has been sent. *)
Theorem mtgjson_record_without_listing_is_dropped fuel code (r j : dict) key w :
  (2 <= fuel)%nat ->
  http w (length (sent w)) (mtgjson_set_url code) = inr (Some (VDict r)) ->
  r !! "data" = Some (VDict j) ->
  In key MTGJSON_SET_DATA_EXTRA ->
  j !! key = None ->
  fst (get_set_mtgjson fuel (VStr code) w) = Ok (Shared FAIL_MTGJSON) /\
  sent (snd (get_set_mtgjson fuel (VStr code) w))
    = (sent w ++ [mtgjson_set_url code])%list.
Proof.
  intros Hfuel Hanswer Hdata Hkey Hmissing.
  destruct (get_set_mtgjson_eval fuel code w Hfuel) as (w' & -> & Hafter).
  simpl. split; [|apply Hafter].
  rewrite Hanswer. unfold mtgjson_outcome. rewrite Hdata. simpl.
  destruct (py_len _) as [e|n]; simpl; [reflexivity|].
  rewrite pop_all_extra.
  rewrite !lookup_insert_ne by discriminate.
  rewrite !lookup_delete_ne by discriminate.
  simpl in Hkey. destruct Hkey as [<-|[<-|[<-|[]]]]; rewrite Hmissing.
  - reflexivity.
  - destruct (j !! "sealedProduct"); reflexivity.
  - destruct (j !! "sealedProduct"), (j !! "booster"); reflexivity.
Qed.

(** X2. From an MTGJSON record that has the three listings and a truthy
    name, [get_set_mtgjson] returns a record without the listings and
    without [tokens], with [tokenCount] set to the length of [tokens] (0
    when there are none), and with every other field as it was. *)
Theorem mtgjson_record_is_stripped fuel code (r j : dict) n w :
  (2 <= fuel)%nat ->
  http w (length (sent w)) (mtgjson_set_url code) = inr (Some (VDict r)) ->
  r !! "data" = Some (VDict j) ->
  (forall key, In key MTGJSON_SET_DATA_EXTRA -> is_Some (j !! key)) ->
  py_len (default (VList []) (j !! "tokens")) = inr n ->
  has_name j = true ->
  exists d,
    fst (get_set_mtgjson fuel (VStr code) w) = Ok (Fresh (VDict d)) /\
    d !! "tokenCount" = Some (VInt n) /\
    d !! "tokens" = None /\
    (forall key, In key MTGJSON_SET_DATA_EXTRA -> d !! key = None) /\
    (forall key, key <> "tokenCount" -> key <> "tokens" ->
                 ~ In key MTGJSON_SET_DATA_EXTRA -> d !! key = j !! key).
Proof.
  intros Hfuel Hanswer Hdata Hkeys Hlen Hname.
  destruct (get_set_mtgjson_eval fuel code w Hfuel) as (w' & -> & _).
  simpl. rewrite Hanswer. unfold mtgjson_outcome. rewrite Hdata. simpl.
  rewrite Hlen. simpl.
  rewrite pop_all_extra.
  rewrite !lookup_insert_ne by discriminate.
  rewrite !lookup_delete_ne by discriminate.
  destruct (Hkeys "sealedProduct") as [v1 ->]; [simpl; tauto|].
  destruct (Hkeys "booster") as [v2 ->]; [simpl; tauto|].
  destruct (Hkeys "cards") as [v3 ->]; [simpl; tauto|].
  simpl.
  assert (Hn : has_name (stripped j n) = true).
  { unfold has_name, stripped in *.
    rewrite !lookup_delete_ne by discriminate.
    rewrite lookup_insert_ne by discriminate.
    rewrite lookup_delete_ne by discriminate. exact Hname. }
  fold (stripped j n). rewrite Hn.
  exists (stripped j n). split; [reflexivity|]. unfold stripped.
  split; [|split; [|split]].
  - rewrite !lookup_delete_ne by discriminate. apply lookup_insert_eq.
  - rewrite !lookup_delete_ne by discriminate.
    rewrite lookup_insert_ne by discriminate. apply lookup_delete_eq.
  - intros key Hkey. simpl in Hkey. destruct Hkey as [<-|[<-|[<-|[]]]].
    + rewrite !lookup_delete_ne by discriminate. apply lookup_delete_eq.
    + rewrite lookup_delete_ne by discriminate. apply lookup_delete_eq.
    + apply lookup_delete_eq.
  - intros key H1 H2 H3. simpl in H3.
    rewrite !lookup_delete_ne by (intros <-; tauto).
    rewrite lookup_insert_ne by congruence.
    rewrite lookup_delete_ne by congruence. reflexivity.
Qed.

Lemma get_set_scryfall_result fuel card_set w :
  (2 <= fuel)%nat ->
  exists w',
    get_set_scryfall fuel card_set w
    = (Ok (returned (scryfall_outcome
                       (http w (length (sent w)) (scryfall_set_url card_set)))
                    FAIL_SCRYFALL), w') /\
    after_request (scryfall_set_url card_set)
      (logged_by (scryfall_outcome
                    (http w (length (sent w)) (scryfall_set_url card_set)))) w w'.
Proof.
  intros Hfuel.
  destruct (get_set_scryfall_eval fuel card_set w Hfuel) as (w' & Heval & Hafter).
  exists w'. rewrite Heval. unfold scryfall_outcome, returned, logged_by.
  destruct (http w (length (sent w)) (scryfall_set_url card_set)) as [e|[resp|]];
    [| destruct resp |]; split; solve [reflexivity | exact Hafter].
Qed.

Lemma get_set_mtgjson_result fuel code w :
  (2 <= fuel)%nat ->
  exists w',
    get_set_mtgjson fuel (VStr code) w
    = (Ok (returned (mtgjson_outcome
                       (http w (length (sent w)) (mtgjson_set_url code)))
                    FAIL_MTGJSON), w') /\
    after_request (mtgjson_set_url code)
      (logged_by (mtgjson_outcome
                    (http w (length (sent w)) (mtgjson_set_url code)))) w w'.
Proof.
  intros Hfuel.
  destruct (get_set_mtgjson_eval fuel code w Hfuel) as (w' & Heval & Hafter).
  exists w'. rewrite Heval. unfold returned, logged_by.
  destruct (mtgjson_outcome _); split; solve [reflexivity | exact Hafter].
Qed.

Lemma deref_returned outcome fallback w :
  deref_dict (returned outcome fallback) w = (Ok (handed_on outcome fallback w), w).
Proof. destruct outcome; reflexivity. Qed.

(** [get_set_data] on a set that is not cached, step by step: the two
    requests, the merge into the object of [data_scry], the save. *)
Lemma get_set_data_miss fuel card_set parent w :
  (2 <= fuel)%nat ->
  files w !! set_path card_set = None ->
  let o_scry := scryfall_outcome
                  (http w (length (sent w)) (scryfall_set_url card_set)) in
  let d_scry := handed_on o_scry FAIL_SCRYFALL w in
  mtgjson_code card_set d_scry = VStr parent ->
  let o_mtg := mtgjson_outcome
                 (http w (S (length (sent w))) (mtgjson_set_url parent)) in
  let d_mtg := handed_on o_mtg FAIL_MTGJSON w in
  let merged := d_mtg ∪ d_scry in
  let saving := worth_saving d_mtg merged in
  exists w',
    get_set_data fuel card_set w = (Ok merged, w') /\
    sent w' = (sent w ++ [scryfall_set_url card_set; mtgjson_set_url parent])%list /\
    files w' = (if saving && writable w (set_path card_set)
                then <[set_path card_set := Loads merged]> (files w)
                else files w) /\
    shared w' = (match o_scry with
                 | inl _ => <[FAIL_SCRYFALL := merged]> (shared w)
                 | inr _ => shared w
                 end) /\
    console_log w'
    = (console_log w ++ logged_by o_scry ++ logged_by o_mtg
       ++ (if saving && negb (writable w (set_path card_set))
           then [OSError] else []))%list /\
    http w' = http w /\ writable w' = writable w.
Proof.
  intros Hfuel Hmiss o_scry d_scry Hcode o_mtg d_mtg merged saving.
  unfold get_set_data, bind, cache_lookup. rewrite Hmiss.
  unfold fetch_and_merge, bind.
  destruct (get_set_scryfall_result fuel card_set w Hfuel)
    as (w1 & -> & Hs1 & Hl1 & Hh1 & Hf1 & Hsh1 & Hw1).
  rewrite deref_returned.
  assert (Hd1 : handed_on o_scry FAIL_SCRYFALL w1 = d_scry).
  { unfold d_scry, handed_on. rewrite Hsh1. reflexivity. }
  fold o_scry. rewrite Hd1, Hcode.
  destruct (get_set_mtgjson_result fuel parent w1 Hfuel)
    as (w2 & -> & Hs2 & Hl2 & Hh2 & Hf2 & Hsh2 & Hw2).
  rewrite deref_returned.
  assert (Ho2 : mtgjson_outcome (http w1 (length (sent w1)) (mtgjson_set_url parent))
                = o_mtg).
  { unfold o_mtg. rewrite Hh1, Hs1, length_app. simpl.
    replace (length (sent w) + 1)%nat with (S (length (sent w))) by lia.
    reflexivity. }
  rewrite Ho2 in *.
  assert (Hd2 : handed_on o_mtg FAIL_MTGJSON w2 = d_mtg).
  { unfold d_mtg, handed_on. rewrite Hsh2, Hsh1. reflexivity. }
  rewrite Hd2.
  unfold dict_update, try_except, dump_data_file, ret, log_exception.
  fold merged.
  assert (Hsent : sent w2
                  = (sent w ++ [scryfall_set_url card_set; mtgjson_set_url parent])%list).
  { rewrite Hs2, Hs1, <- app_assoc. reflexivity. }
  assert (Hlog : console_log w2
                 = (console_log w ++ logged_by o_scry ++ logged_by o_mtg)%list).
  { rewrite Hl2, Hl1, <- app_assoc. reflexivity. }
  clearbody merged d_mtg d_scry o_mtg.
  destruct o_scry as [e1|d1] eqn:Eo; cbn [returned];
    fold saving; destruct saving; simpl;
    rewrite ?Hw2, ?Hw1; try destruct (writable w (set_path card_set));
    simpl;
    eexists; (split; [reflexivity|]); simpl;
    rewrite ?Hsent, ?Hlog, ?Hf2, ?Hf1, ?Hsh2, ?Hsh1, ?Hh2, ?Hh1, ?Hw2, ?Hw1,
      ?app_nil_r, <- ?app_assoc;
    repeat split; reflexivity.
Qed.

Lemma has_name_with_marker (j : dict) : has_name (with_marker j) = has_name j.
Proof.
  unfold has_name, with_marker. destruct (j !! "scryfall"); [reflexivity|].
  rewrite lookup_insert_ne by discriminate. reflexivity.
Qed.

Lemma with_marker_other (j : dict) key :
  key <> "scryfall" -> with_marker j !! key = j !! key.
Proof.
  intros Hk. unfold with_marker. destruct (j !! "scryfall"); [reflexivity|].
  rewrite lookup_insert_ne by congruence. reflexivity.
Qed.

Lemma with_marker_marked (j : dict) : is_Some (with_marker j !! "scryfall").
Proof.
  unfold with_marker. destruct (j !! "scryfall") as [v|] eqn:E.
  - rewrite E. eauto.
  - rewrite lookup_insert_eq. eauto.
Qed.

Lemma scryfall_outcome_named (j : dict) :
  has_name j = true ->
  scryfall_outcome (inr (Some (VDict j))) = inr (with_marker j).
Proof.
  intros Hn. unfold scryfall_outcome. rewrite has_name_with_marker, Hn. reflexivity.
Qed.

Lemma union_is_Some_r (a b : dict) key :
  is_Some (b !! key) -> is_Some ((a ∪ b) !! key).
Proof.
  intros [v Hv]. rewrite lookup_union. rewrite Hv.
  destruct (a !! key); simpl; eauto.
Qed.

(** X3. [get_set_data] ends with a record in every world: no exception of
    the cache, of the network or of the disk leaves it. *)
Theorem get_set_data_always_returns fuel card_set w :
  (2 <= fuel)%nat ->
  exists data w', get_set_data fuel card_set w = (Ok data, w').
Proof.
  intros Hfuel. unfold get_set_data, bind.
  destruct (cache_lookup_returns (set_path card_set) w) as (hit & w0 & -> & _ & _).
  destruct hit as [data|].
  - eexists _, _. reflexivity.
  - destruct (fetch_and_merge_runs fuel card_set (set_path card_set) w0 Hfuel)
      as (o_scry & d_scry & o_mtg & d_mtg & w1 & w2 & w3 & _ & _ & _ & _ & -> & _).
    eexists _, _. reflexivity.
Qed.

(** X4. A set that is not cached, for which Scryfall answers a named record
    with a [printed_size], and whose cache file can be written, is saved by
    the first call; the second call returns the same record from the cache
    and leaves the world as it is, so it sends nothing. *)
Theorem resolved_set_is_cached fuel card_set parent (j : dict) w :
  (2 <= fuel)%nat ->
  files w !! set_path card_set = None ->
  writable w (set_path card_set) = true ->
  http w (length (sent w)) (scryfall_set_url card_set) = inr (Some (VDict j)) ->
  has_name j = true ->
  is_Some (j !! "printed_size") ->
  mtgjson_code card_set (with_marker j) = VStr parent ->
  exists merged w',
    get_set_data fuel card_set w = (Ok merged, w') /\
    files w' !! set_path card_set = Some (Loads merged) /\
    get_set_data fuel card_set w' = (Ok merged, w').
Proof.
  intros Hfuel Hmiss Hwr Hanswer Hname Hsize Hcode.
  pose proof (get_set_data_miss fuel card_set parent w Hfuel Hmiss) as Hrun.
  cbv zeta in Hrun. rewrite Hanswer, (scryfall_outcome_named j Hname) in Hrun.
  cbn [handed_on] in Hrun. specialize (Hrun Hcode).
  destruct Hrun as (w' & Hcall & _ & Hfiles & _).
  set (d_mtg := handed_on _ FAIL_MTGJSON w) in *.
  assert (Hsave : worth_saving d_mtg (d_mtg ∪ with_marker j) = true).
  { unfold worth_saving.
    destruct (union_is_Some_r d_mtg (with_marker j) "printed_size") as [v ->].
    - rewrite with_marker_other by discriminate. exact Hsize.
    - apply orb_true_r. }
  rewrite Hsave, Hwr in Hfiles. cbn [andb] in Hfiles.
  exists (d_mtg ∪ with_marker j), w'. split; [exact Hcall|].
  assert (Hfile : files w' !! set_path card_set = Some (Loads (d_mtg ∪ with_marker j))).
  { rewrite Hfiles. apply lookup_insert_eq. }
  split; [exact Hfile|].
  unfold get_set_data, bind.
  rewrite (cache_lookup_hit _ _ w' Hfile
             (union_is_Some_r d_mtg _ "scryfall" (with_marker_marked j))).
  reflexivity.
Qed.

(** X5. For a set whose Scryfall record has [set_type] ['token'] and a
    [parent_set_code], the MTGJSON request goes to the parent's code, while
    no file but the one of the queried code is touched. *)
Theorem token_set_uses_parent_code fuel card_set parent (j : dict) w :
  (2 <= fuel)%nat ->
  files w !! set_path card_set = None ->
  http w (length (sent w)) (scryfall_set_url card_set) = inr (Some (VDict j)) ->
  has_name j = true ->
  j !! "set_type" = Some (VStr "token") ->
  j !! "parent_set_code" = Some (VStr parent) ->
  sent (snd (get_set_data fuel card_set w))
    = (sent w ++ [scryfall_set_url card_set; mtgjson_set_url parent])%list /\
  forall path, path <> set_path card_set ->
    files (snd (get_set_data fuel card_set w)) !! path = files w !! path.
Proof.
  intros Hfuel Hmiss Hanswer Hname Htype Hparent.
  pose proof (get_set_data_miss fuel card_set parent w Hfuel Hmiss) as Hrun.
  cbv zeta in Hrun. rewrite Hanswer, (scryfall_outcome_named j Hname) in Hrun.
  cbn [handed_on] in Hrun.
  destruct Hrun as (w' & -> & Hsent & Hfiles & _).
  { unfold mtgjson_code. rewrite !with_marker_other by discriminate.
    rewrite Htype, Hparent. reflexivity. }
  cbn [snd]. split; [exact Hsent|].
  intros path Hpath. rewrite Hfiles.
  destruct (_ && _); [|reflexivity].
  apply lookup_insert_ne. congruence.
Qed.

(** X6. When the cache file cannot be written, [get_set_data] logs the
    [OSError] and still returns the merged record, with every key of
    Scryfall's record; the data directory stays as it was. *)
Theorem unwritable_cache_is_not_fatal fuel card_set parent (j : dict) w :
  (2 <= fuel)%nat ->
  files w !! set_path card_set = None ->
  writable w (set_path card_set) = false ->
  http w (length (sent w)) (scryfall_set_url card_set) = inr (Some (VDict j)) ->
  has_name j = true ->
  is_Some (j !! "printed_size") ->
  mtgjson_code card_set (with_marker j) = VStr parent ->
  exists merged w' log,
    get_set_data fuel card_set w = (Ok merged, w') /\
    (forall key, is_Some (j !! key) -> is_Some (merged !! key)) /\
    files w' = files w /\
    console_log w' = (log ++ [OSError])%list.
Proof.
  intros Hfuel Hmiss Hwr Hanswer Hname Hsize Hcode.
  pose proof (get_set_data_miss fuel card_set parent w Hfuel Hmiss) as Hrun.
  cbv zeta in Hrun. rewrite Hanswer, (scryfall_outcome_named j Hname) in Hrun.
  cbn [handed_on] in Hrun. specialize (Hrun Hcode).
  destruct Hrun as (w' & Hcall & _ & Hfiles & _ & Hlog & _).
  set (d_mtg := handed_on _ FAIL_MTGJSON w) in *.
  assert (Hsave : worth_saving d_mtg (d_mtg ∪ with_marker j) = true).
  { unfold worth_saving.
    destruct (union_is_Some_r d_mtg (with_marker j) "printed_size") as [v ->].
    - rewrite with_marker_other by discriminate. exact Hsize.
    - apply orb_true_r. }
  rewrite Hsave, Hwr in Hfiles, Hlog. cbn [andb negb] in Hfiles, Hlog.
  eexists _, w', _. split; [exact Hcall|]. split; [|split; [exact Hfiles|]].
  - intros key Hkey. apply union_is_Some_r.
    unfold with_marker. destruct (j !! "scryfall"); [exact Hkey|].
    destruct Hkey as [v Hv]. destruct (decide (key = "scryfall")) as [->|Hne].
    + rewrite lookup_insert_eq. eauto.
    + rewrite lookup_insert_ne by congruence. eauto.
  - rewrite Hlog, !app_assoc. reflexivity.
Qed.

Lemma mtgjson_code_plain card_set (d : dict) :
  d !! "set_type" = None -> mtgjson_code card_set d = VStr card_set.
Proof. intros Hd. unfold mtgjson_code. rewrite Hd. reflexivity. Qed.

(** X7. With no cache file, both providers out of reach and the fallback
    dicts still as created, [get_set_data] returns the empty record after
    its two requests and saves nothing. *)
Theorem unreachable_providers_give_empty_record fuel card_set w :
  (2 <= fuel)%nat ->
  files w !! set_path card_set = None ->
  shared w !! FAIL_SCRYFALL = None ->
  shared w !! FAIL_MTGJSON = None ->
  (forall n url, exists e, http w n url = inl e) ->
  exists w',
    get_set_data fuel card_set w = (Ok ∅, w') /\
    files w' = files w /\
    sent w' = (sent w ++ [scryfall_set_url card_set; mtgjson_set_url card_set])%list.
Proof.
  intros Hfuel Hmiss Hfs Hfm Hdown.
  pose proof (get_set_data_miss fuel card_set card_set w Hfuel Hmiss) as Hrun.
  cbv zeta in Hrun.
  destruct (Hdown (length (sent w)) (scryfall_set_url card_set)) as [e1 He1].
  destruct (Hdown (S (length (sent w))) (mtgjson_set_url card_set)) as [e2 He2].
  rewrite He1, He2 in Hrun. cbn [scryfall_outcome mtgjson_outcome handed_on] in Hrun.
  rewrite Hfs, Hfm in Hrun. cbn [default] in Hrun.
  destruct Hrun as (w' & Hcall & Hsent & Hfiles & _).
  { apply mtgjson_code_plain. apply lookup_empty. }
  exists w'. rewrite (left_id_L ∅ (∪)) in Hcall, Hfiles.
  split; [exact Hcall|]. split; [|exact Hsent].
  rewrite Hfiles. unfold worth_saving, truthy_dict.
  rewrite map_to_list_empty, lookup_empty. reflexivity.
Qed.

(** X8. The fallback dict of [get_set_scryfall] is shared by all calls and
    written by [data_scry.update]: when Scryfall fails for one set and
    MTGJSON answers, and afterwards both fail for another set, the second
    call returns the record of the first set. *)
Theorem failed_lookup_returns_earlier_set fuel set_a set_b (r j : dict) n w :
  (2 <= fuel)%nat ->
  files w !! set_path set_a = None ->
  files w !! set_path set_b = None ->
  set_path set_b <> set_path set_a ->
  shared w !! FAIL_SCRYFALL = None ->
  shared w !! FAIL_MTGJSON = None ->
  (forall k url, (k <> S (length (sent w)))%nat -> exists e, http w k url = inl e) ->
  http w (S (length (sent w))) (mtgjson_set_url set_a) = inr (Some (VDict r)) ->
  r !! "data" = Some (VDict j) ->
  (forall key, In key MTGJSON_SET_DATA_EXTRA -> is_Some (j !! key)) ->
  py_len (default (VList []) (j !! "tokens")) = inr n ->
  has_name j = true ->
  j !! "set_type" = None ->
  fst (get_set_data fuel set_a w) = Ok (stripped j n) /\
  fst (get_set_data fuel set_b (snd (get_set_data fuel set_a w))) = Ok (stripped j n).
Proof.
  intros Hfuel Hmiss_a Hmiss_b Hpaths Hfs Hfm Hdown Hanswer Hdata Hkeys Hlen Hname Htype.
  assert (Hout : mtgjson_outcome (inr (Some (VDict r))) = inr (stripped j n)).
  { unfold mtgjson_outcome. rewrite Hdata. simpl. rewrite Hlen. simpl.
    rewrite pop_all_extra.
    rewrite !lookup_insert_ne by discriminate.
    rewrite !lookup_delete_ne by discriminate.
    destruct (Hkeys "sealedProduct") as [v1 ->]; [simpl; tauto|].
    destruct (Hkeys "booster") as [v2 ->]; [simpl; tauto|].
    destruct (Hkeys "cards") as [v3 ->]; [simpl; tauto|].
    simpl. fold (stripped j n).
    assert (Hn : has_name (stripped j n) = true).
    { unfold has_name, stripped in *.
      rewrite !lookup_delete_ne by discriminate.
      rewrite lookup_insert_ne by discriminate.
      rewrite lookup_delete_ne by discriminate. exact Hname. }
    rewrite Hn. reflexivity. }
  assert (Hstype : stripped j n !! "set_type" = None).
  { unfold stripped. rewrite !lookup_delete_ne by discriminate.
    rewrite lookup_insert_ne by discriminate.
    rewrite lookup_delete_ne by discriminate. exact Htype. }
  (* the first call *)
  pose proof (get_set_data_miss fuel set_a set_a w Hfuel Hmiss_a) as Hrun.
  cbv zeta in Hrun.
  destruct (Hdown (length (sent w)) (scryfall_set_url set_a)) as [e1 He1]; [lia|].
  rewrite He1, Hanswer, Hout in Hrun. cbn [scryfall_outcome handed_on] in Hrun.
  rewrite Hfs in Hrun. cbn [default] in Hrun.
  destruct Hrun as (w1 & Hcall1 & Hsent1 & Hfiles1 & Hshared1 & _ & Hhttp1 & _).
  { apply mtgjson_code_plain. apply lookup_empty. }
  rewrite (right_id_L ∅ (∪)) in Hcall1, Hfiles1, Hshared1.
  rewrite Hcall1. cbn [fst snd]. split; [reflexivity|].
  (* the second call *)
  assert (Hmiss_b1 : files w1 !! set_path set_b = None).
  { rewrite Hfiles1. destruct (_ && _); [|exact Hmiss_b].
    rewrite lookup_insert_ne by congruence. exact Hmiss_b. }
  pose proof (get_set_data_miss fuel set_b set_b w1 Hfuel Hmiss_b1) as Hrun.
  cbv zeta in Hrun. rewrite Hhttp1, Hsent1, length_app in Hrun. cbn [length] in Hrun.
  destruct (Hdown (length (sent w) + 2)%nat (scryfall_set_url set_b)) as [e2 He2]; [lia|].
  destruct (Hdown (S (length (sent w) + 2))%nat (mtgjson_set_url set_b)) as [e3 He3]; [lia|].
  rewrite He2, He3 in Hrun. cbn [scryfall_outcome mtgjson_outcome handed_on] in Hrun.
  rewrite Hshared1, lookup_insert_eq, lookup_insert_ne, Hfm in Hrun by discriminate.
  cbn [default] in Hrun.
  destruct Hrun as (w2 & Hcall2 & _).
  { apply mtgjson_code_plain. exact Hstype. }
  rewrite (left_id_L ∅ (∪)) in Hcall2. rewrite Hcall2. reflexivity.
Qed.

Lemma mtgjson_record_without_listing_is_dropped_witness :
  fst (get_set_mtgjson 2 (VStr "mh2") (world_at_start net_no_sealed))
    = Ok (Shared FAIL_MTGJSON) /\
  sent (snd (get_set_mtgjson 2 (VStr "mh2") (world_at_start net_no_sealed)))
    = ([] ++ [mtgjson_set_url "mh2"])%list.
Proof.
  apply (mtgjson_record_without_listing_is_dropped 2 "mh2"
           (<["data" := VDict mtgjson_no_sealed]> ∅) mtgjson_no_sealed
           "sealedProduct" (world_at_start net_no_sealed)).
  - lia.
  - reflexivity.
  - reflexivity.
  - left. reflexivity.
  - reflexivity.
Defined.

Lemma mtgjson_record_is_stripped_witness :
  exists d,
    fst (get_set_mtgjson 2 (VStr "mh2") (world_at_start net_sets))
      = Ok (Fresh (VDict d)) /\
    d !! "tokenCount" = Some (VInt 2) /\
    d !! "tokens" = None /\
    (forall key, In key MTGJSON_SET_DATA_EXTRA -> d !! key = None) /\
    (forall key, key <> "tokenCount" -> key <> "tokens" ->
                 ~ In key MTGJSON_SET_DATA_EXTRA -> d !! key = mtgjson_mh2 !! key).
Proof.
  apply (mtgjson_record_is_stripped 2 "mh2"
           (<["data" := VDict mtgjson_mh2]> ∅) mtgjson_mh2 2
           (world_at_start net_sets)).
  - lia.
  - reflexivity.
  - reflexivity.
  - intros key [<-|[<-|[<-|[]]]]; eexists; reflexivity.
  - reflexivity.
  - reflexivity.
Defined.

Lemma get_set_data_always_returns_witness :
  exists data w', get_set_data 2 "mh2" (world_at_start net_down) = (Ok data, w').
Proof. apply (get_set_data_always_returns 2 "mh2" (world_at_start net_down)). lia. Defined.

Lemma resolved_set_is_cached_witness :
  exists merged w',
    get_set_data 2 "mh2" (world_at_start net_sets) = (Ok merged, w') /\
    files w' !! set_path "mh2" = Some (Loads merged) /\
    get_set_data 2 "mh2" w' = (Ok merged, w').
Proof.
  apply (resolved_set_is_cached 2 "mh2" "mh2" scryfall_mh2 (world_at_start net_sets)).
  - lia.
  - reflexivity.
  - reflexivity.
  - reflexivity.
  - reflexivity.
  - eexists. reflexivity.
  - reflexivity.
Defined.

Lemma token_set_uses_parent_code_witness :
  sent (snd (get_set_data 2 "tmh2" (world_at_start net_tokens)))
    = ([] ++ [scryfall_set_url "tmh2"; mtgjson_set_url "mh2"])%list /\
  forall path, path <> set_path "tmh2" ->
    files (snd (get_set_data 2 "tmh2" (world_at_start net_tokens))) !! path
    = (∅ : gmap string file) !! path.
Proof.
  apply (token_set_uses_parent_code 2 "tmh2" "mh2" scryfall_tmh2
           (world_at_start net_tokens)); first [lia | reflexivity].
Defined.

Lemma unwritable_cache_is_not_fatal_witness :
  exists merged w' log,
    get_set_data 2 "mh2" (world_read_only net_sets) = (Ok merged, w') /\
    (forall key, is_Some (scryfall_mh2 !! key) -> is_Some (merged !! key)) /\
    files w' = files (world_read_only net_sets) /\
    console_log w' = (log ++ [OSError])%list.
Proof.
  apply (unwritable_cache_is_not_fatal 2 "mh2" "mh2" scryfall_mh2
           (world_read_only net_sets)).
  - lia.
  - reflexivity.
  - reflexivity.
  - reflexivity.
  - reflexivity.
  - eexists. reflexivity.
  - reflexivity.
Defined.

Lemma unreachable_providers_give_empty_record_witness :
  exists w',
    get_set_data 2 "mh2" (world_at_start net_down) = (Ok ∅, w') /\
    files w' = files (world_at_start net_down) /\
    sent w' = ([] ++ [scryfall_set_url "mh2"; mtgjson_set_url "mh2"])%list.
Proof.
  apply (unreachable_providers_give_empty_record 2 "mh2" (world_at_start net_down)).
  - lia.
  - reflexivity.
  - reflexivity.
  - reflexivity.
  - intros n url. exists RequestException. reflexivity.
Defined.

Lemma failed_lookup_returns_earlier_set_witness :
  fst (get_set_data 2 "mh2" (world_at_start net_second_only))
    = Ok (stripped mtgjson_mh2 2) /\
  fst (get_set_data 2 "znr"
         (snd (get_set_data 2 "mh2" (world_at_start net_second_only))))
    = Ok (stripped mtgjson_mh2 2).
Proof.
  apply (failed_lookup_returns_earlier_set 2 "mh2" "znr"
           (<["data" := VDict mtgjson_mh2]> ∅) mtgjson_mh2 2
           (world_at_start net_second_only)).
  - lia.
  - reflexivity.
  - reflexivity.
  - discriminate.
  - reflexivity.
  - reflexivity.
  - intros k url Hk. exists RequestException.
    destruct k as [|[|k]]; try reflexivity. simpl in Hk. lia.
  - reflexivity.
  - reflexivity.
  - intros key [<-|[<-|[<-|[]]]]; eexists; reflexivity.
  - reflexivity.
  - reflexivity.
  - reflexivity.
Defined.

(** ** More on the request client *)

(** X9. The rate limiter lets a call start only as one of the first twenty
    of a window that has not run out, and makes it wait for that at most
    one period; it changes nothing else and runs the call once. *)
Theorem rate_limit_admits_within_quota {A} (func : M A) fuel w :
  (2 <= fuel)%nat ->
  no_rate_limit_exception func ->
  (0 <= rl_num_calls w)%Z ->
  (rl_last_reset w <= clock w)%Z ->
  exists w1,
    sleep_and_retry fuel (scryfall_rate_limit func) w = func w1 /\
    same_but_time w w1 /\
    (1 <= rl_num_calls w1 <= RATE_CALLS)%Z /\
    (0 <= clock w1 - rl_last_reset w1 < RATE_PERIOD)%Z /\
    (clock w <= clock w1 <= clock w + RATE_PERIOD)%Z.
Proof.
  intros Hfuel Hno Hcalls Hreset.
  destruct fuel as [|[|fuel]]; try lia. clear Hfuel.
  unfold RATE_CALLS, RATE_PERIOD in *.
  destruct (Z.leb_spec (1000 - (clock w - rl_last_reset w)) 0) as [Hle|Hgt].
  - exists (set_limiter (clock w) 1 w). split; [|split].
    + rewrite sleep_and_retry_through.
      * apply rate_limit_fresh_window. exact Hle.
      * intros rem. rewrite rate_limit_fresh_window by exact Hle. apply Hno.
    + apply same_but_time_set_limiter.
    + simpl. lia.
  - destruct (Z.ltb_spec 20 (rl_num_calls w + 1)) as [Hover|Hunder].
    + set (rem := (1000 - (clock w - rl_last_reset w))%Z) in *.
      set (w2 := set_limiter (rl_last_reset w) (rl_num_calls w + 1) w).
      set (w3 := set_clock (clock w2 + rem) w2).
      assert (Hlim : scryfall_rate_limit func w = (Raise (RateLimitException rem), w2)).
      { unfold scryfall_rate_limit, RATE_PERIOD, RATE_CALLS. fold rem.
        destruct (Z.leb_spec rem 0); [lia|]. simpl.
        destruct (Z.ltb_spec 20 (rl_num_calls w + 1)); [reflexivity|lia]. }
      assert (Hsleep : sleep rem w2 = (Ok tt, w3)).
      { unfold sleep. destruct (Z.ltb_spec rem 0); [lia|reflexivity]. }
      assert (Hwin : (RATE_PERIOD - (clock w3 - rl_last_reset w3) <= 0)%Z).
      { unfold RATE_PERIOD. subst w3 w2 rem. simpl. lia. }
      exists (set_limiter (clock w3) 1 w3). split; [|split].
      * change (sleep_and_retry (S (S fuel)) (scryfall_rate_limit func) w)
          with (match scryfall_rate_limit func w with
                | (Raise (RateLimitException period_remaining), w') =>
                    (sleep period_remaining ;;
                     sleep_and_retry (S fuel) (scryfall_rate_limit func)) w'
                | r => r
                end).
        rewrite Hlim. unfold bind. rewrite Hsleep.
        rewrite sleep_and_retry_through.
        -- apply rate_limit_fresh_window. exact Hwin.
        -- intros r. rewrite rate_limit_fresh_window by exact Hwin. apply Hno.
      * eapply same_but_time_trans; [apply same_but_time_set_limiter|].
        eapply same_but_time_trans; [apply same_but_time_set_clock|].
        apply same_but_time_set_limiter.
      * subst w3 w2 rem. simpl. lia.
    + exists (set_limiter (rl_last_reset w) (rl_num_calls w + 1) w).
      assert (Hlim : scryfall_rate_limit func w
                     = func (set_limiter (rl_last_reset w) (rl_num_calls w + 1) w)).
      { unfold scryfall_rate_limit, RATE_PERIOD, RATE_CALLS.
        destruct (Z.leb_spec (1000 - (clock w - rl_last_reset w)) 0); [lia|].
        simpl.
        destruct (Z.ltb_spec 20 (rl_num_calls w + 1)); [lia|reflexivity]. }
      split; [|split].
      * rewrite sleep_and_retry_through; [exact Hlim|].
        intros r. rewrite Hlim. apply Hno.
      * apply same_but_time_set_limiter.
      * simpl. lia.
Qed.

(** X10. A decorated function whose body returns is run once: the result
    and the effects of the wrapped call are those of one run of the body,
    started in a world that differs from the caller's in the clock, the
    limiter and the entry count only. *)
Theorem wrapped_success_passes_through fuel fail_response (func : M obj) w :
  (2 <= fuel)%nat ->
  (forall w0, exists v w0', func w0 = (Ok v, w0')) ->
  exists w1 v w',
    same_but_time w w1 /\
    func (set_calls (S (calls w1)) w1) = (Ok v, w') /\
    handle_request_failure fuel fail_response func w = (Ok v, w').
Proof.
  intros Hfuel Hok.
  destruct (handle_request_failure_once fuel fail_response func w Hfuel)
    as (w1 & Hsame & ->).
  unfold handle_final_exception, try_except, enter.
  destruct (Hok (set_calls (S (calls w1)) w1)) as (v & w' & Hv).
  exists w1, v, w'. rewrite Hv. auto.
Qed.

Lemma rate_limit_admits_within_quota_witness :
  exists w1,
    sleep_and_retry 2 (scryfall_rate_limit (ret tt))
      (set_limiter 0 20 (world_at_start net_down))
    = ret tt w1 /\
    same_but_time (set_limiter 0 20 (world_at_start net_down)) w1 /\
    (1 <= rl_num_calls w1 <= RATE_CALLS)%Z /\
    (0 <= clock w1 - rl_last_reset w1 < RATE_PERIOD)%Z /\
    (clock (set_limiter 0 20 (world_at_start net_down)) <= clock w1
     <= clock (set_limiter 0 20 (world_at_start net_down)) + RATE_PERIOD)%Z.
Proof.
  apply (rate_limit_admits_within_quota (ret tt) 2
           (set_limiter 0 20 (world_at_start net_down))).
  - lia.
  - intros w rem. discriminate.
  - simpl. lia.
  - simpl. lia.
Defined.

Lemma wrapped_success_passes_through_witness :
  exists w1 v w',
    same_but_time (world_at_start net_down) w1 /\
    ret (Fresh (VList [])) (set_calls (S (calls w1)) w1) = (Ok v, w') /\
    handle_request_failure 2 (Fresh (VStr "error")) (ret (Fresh (VList [])))
      (world_at_start net_down) = (Ok v, w').
Proof.
  apply (wrapped_success_passes_through 2 (Fresh (VStr "error"))
           (ret (Fresh (VList []))) (world_at_start net_down)).
  - lia.
  - intros w0. eexists _, _. reflexivity.
Defined.

(** ** More on the classification *)

Section MoreClassification.
Context `{Imports}.

Lemma single_face_checks_result (data d : dict) :
  single_face_checks data = inr d ->
  d = data \/ exists l, d = <["layout" := VStr l]> data.
Proof.
  unfold single_face_checks.
  destruct (py_in "Mutate" _) as [e|[]]; simpl; try discriminate.
  - intros [= <-]. right. eauto.
  - destruct (py_in "Planeswalker" _) as [e|[]]; simpl; try discriminate;
      intros [= <-]; [right|left]; eauto.
Qed.

Lemma classify_frame (data d : dict) key :
  classify data = inr d -> key <> "layout" -> d !! key = data !! key.
Proof.
  unfold classify. intros Hrun Hkey.
  destruct (data !! "card_faces") as [cf|].
  - destruct (faces_block_result data cf d Hrun) as [-> | (l & _ & ->)];
      [reflexivity | apply lookup_insert_ne; congruence].
  - destruct (single_face_checks_result data d Hrun) as [-> | (l & ->)];
      [reflexivity | apply lookup_insert_ne; congruence].
Qed.

Lemma meld_block_frame (data d : dict) w w' key :
  meld_block data w = (Ok d, w') ->
  ~ In key classification_keys -> d !! key = data !! key.
Proof.
  unfold meld_block, bind. intros Hrun Hkey.
  simpl in Hkey.
  destruct (lift (meld_faces data) w) as [[faces| |] w0]; try discriminate.
  destruct (fetch_faces faces w0) as [[cfs| |] w2]; try discriminate.
  destruct (add_meld_icon (<["card_faces" := VList cfs]> data)) as [e|d2] eqn:Hadd;
    simpl in Hrun; [discriminate|].
  inversion Hrun; subst; clear Hrun.
  rewrite lookup_insert_ne by (intros <-; tauto).
  rewrite (add_meld_icon_layout _ _ Hadd) by (intros ->; tauto).
  apply lookup_insert_ne. intros <-; tauto.
Qed.

(** X11. Processing writes no key of a record but [layout], [card_faces]
    and [frame_effects]; in particular the queried [name_normalized] and the
    card's own fields come out as they went in. *)
Theorem processing_keeps_other_keys (data d : dict) w w' key :
  process_scryfall_data data w = (Ok d, w') ->
  ~ In key classification_keys ->
  d !! key = data !! key.
Proof.
  unfold process_scryfall_data, bind. intros Hrun Hkey.
  destruct (lift (get_item data "layout") w) as [[lay| |] w0]; try discriminate.
  assert (Hlayout : key <> "layout") by (intros ->; apply Hkey; simpl; tauto).
  destruct (eq_str lay "meld").
  - destruct (meld_block data w0) as [[dm| |] w1] eqn:Hmeld; try discriminate.
    destruct (classify dm) as [e|d'] eqn:Hc; simpl in Hrun; inversion Hrun; subst.
    rewrite (classify_frame dm d key Hc Hlayout).
    exact (meld_block_frame data dm w0 w' key Hmeld Hkey).
  - unfold ret in Hrun.
    destruct (classify data) as [e|d'] eqn:Hc; simpl in Hrun; inversion Hrun; subst.
    exact (classify_frame data d key Hc Hlayout).
Qed.

(** X12. A record that is not a meld card is classified without a request:
    the world is left as it was, whatever the outcome. *)
Theorem only_meld_cards_are_fetched (data : dict) lay w :
  data !! "layout" = Some lay ->
  eq_str lay "meld" = false ->
  snd (process_scryfall_data data w) = w.
Proof.
  intros Hlay Hnot. rewrite (process_without_meld data lay w Hlay Hnot).
  destruct (classify data); reflexivity.
Qed.

(** X13. The request for a face of a meld card is not guarded: when it
    fails in transport, the exception leaves [process_scryfall_data]. *)
Theorem failed_face_request_escapes (data : dict) n rest url e w :
  data !! "layout" = Some (VStr "meld") ->
  meld_faces data = inr (n :: rest) ->
  subscript n "uri" = inr (VStr url) ->
  http w (length (sent w)) url = inl e ->
  process_scryfall_data data w = (Raise e, set_sent (sent w ++ [url]) w).
Proof.
  intros Hlay Hfaces Huri Hnet.
  unfold process_scryfall_data, bind, get_item. rewrite Hlay. simpl.
  unfold meld_block, bind. rewrite Hfaces.
  cbn [lift ret fetch_faces]. unfold bind, fetch_face. rewrite Huri.
  cbn [lift ret]. unfold bind, requests_get, ret. cbv beta iota.
  rewrite Hnet. reflexivity.
Qed.

(** X14. A meld record without a [meld_result] among its parts ends in a
    [TypeError] ([None] is subscripted) before anything is requested. *)
Theorem meld_without_result_raises (data : dict) parts queried w :
  data !! "layout" = Some (VStr "meld") ->
  data !! "all_parts" = Some (VList parts) ->
  Forall is_dict parts ->
  List.filter (has_component "meld_result") parts = [] ->
  data !! "name_normalized" = Some queried ->
  process_scryfall_data data w = (Raise TypeError, w).
Proof.
  intros Hlay Hparts Hdicts Hnone Hq.
  unfold process_scryfall_data, bind, get_item. rewrite Hlay. simpl.
  unfold meld_block, bind, meld_faces. rewrite Hparts. simpl.
  rewrite split_parts_filter by assumption. rewrite Hnone. simpl.
  unfold meld_name_matches, get_item. rewrite Hq. reflexivity.
Qed.

(** X15. A single-faced record gets layout ['mutate'] when its keywords hold
    "Mutate", else ['planeswalker'] when its type line contains
    "Planeswalker", else keeps its layout; processing the result again
    changes nothing. *)
Theorem single_face_layout_is_stable (data : dict) lay is_mutate is_pw w :
  data !! "layout" = Some lay ->
  eq_str lay "meld" = false ->
  data !! "card_faces" = None ->
  py_in "Mutate" (default (VList []) (data !! "keywords")) = inr is_mutate ->
  py_in "Planeswalker" (default (VStr "") (data !! "type_line")) = inr is_pw ->
  let d := if is_mutate then <["layout" := VStr "mutate"]> data
           else if is_pw then <["layout" := VStr "planeswalker"]> data
           else data in
  process_scryfall_data data w = (Ok d, w) /\
  process_scryfall_data d w = (Ok d, w).
Proof.
  intros Hlay Hnot Hcf Hmut Hpw d.
  assert (Hstep : forall (x : dict) l,
            x !! "layout" = Some l -> eq_str l "meld" = false ->
            x !! "card_faces" = None ->
            x !! "keywords" = data !! "keywords" ->
            x !! "type_line" = data !! "type_line" ->
            process_scryfall_data x w
            = (Ok (if is_mutate then <["layout" := VStr "mutate"]> x
                   else if is_pw then <["layout" := VStr "planeswalker"]> x
                   else x), w)).
  { intros x l Hl Hn Hc Hk Ht.
    rewrite (process_without_meld x l w Hl Hn).
    unfold classify, single_face_checks. rewrite Hc, Hk, Ht, Hmut. simpl.
    destruct is_mutate; [reflexivity|].
    rewrite Hpw. simpl. destruct is_pw; reflexivity. }
  split.
  - exact (Hstep data lay Hlay Hnot Hcf eq_refl eq_refl).
  - subst d. destruct is_mutate; [|destruct is_pw].
    + rewrite (Hstep _ (VStr "mutate")); rewrite ?insert_insert_eq;
        try reflexivity; try (apply lookup_insert_eq);
        rewrite lookup_insert_ne by discriminate; auto.
    + rewrite (Hstep _ (VStr "planeswalker")); rewrite ?insert_insert_eq;
        try reflexivity; try (apply lookup_insert_eq);
        rewrite lookup_insert_ne by discriminate; auto.
    + exact (Hstep data lay Hlay Hnot Hcf eq_refl eq_refl).
Qed.

Lemma classify_two_faces (data : dict) lay face0 face1 rest
    name0 queried type_line is_pw is_saga is_battle w :
  data !! "layout" = Some lay ->
  eq_str lay "meld" = false ->
  data !! "card_faces" = Some (VList (face0 :: face1 :: rest)) ->
  subscript face0 "name" = inr (VStr name0) ->
  data !! "name_normalized" = Some queried ->
  subscript (if eq_str queried (normalize_str name0 true) then face0 else face1)
            "type_line" = inr type_line ->
  py_in "Planeswalker" type_line = inr is_pw ->
  py_in "Saga" type_line = inr is_saga ->
  py_in "Battle" type_line = inr is_battle ->
  process_scryfall_data data w
  = (Ok (if is_battle then <["layout" := VStr "battle"]> data
         else if is_saga then <["layout" := VStr "saga"]> data
         else if is_pw
              then <["layout" := VStr (if eq_str lay "transform"
                                       then "planeswalker_tf"
                                       else "planeswalker_mdfc")]> data
              else data), w).
Proof.
  intros Hlay Hnot Hcf Hname0 Hq Htl Hpw Hsaga Hbattle.
  rewrite (process_without_meld data lay w Hlay Hnot).
  unfold classify. rewrite Hcf.
  assert (Hsel : select_face data (VList (face0 :: face1 :: rest))
                 = inr (if eq_str queried (normalize_str name0 true)
                        then face0 else face1)).
  { unfold select_face, get_item. simpl. rewrite Hname0. simpl. rewrite Hq. simpl.
    destruct (eq_str queried (normalize_str name0 true)); reflexivity. }
  unfold faces_block. rewrite Hsel. simpl. rewrite Htl. simpl.
  rewrite Hpw, Hsaga, Hbattle. unfold get_item. rewrite Hlay.
  destruct is_pw, is_saga, is_battle; simpl; rewrite ?insert_insert_eq; reflexivity.
Qed.

(** X16. Processing is not idempotent on a transform card whose selected
    face is a planeswalker: the first pass makes it ['planeswalker_tf'], a
    second pass over the same record makes it ['planeswalker_mdfc']. *)
Theorem reprocessing_turns_tf_into_mdfc (data : dict) face0 face1 rest
    name0 queried type_line w :
  data !! "layout" = Some (VStr "transform") ->
  data !! "card_faces" = Some (VList (face0 :: face1 :: rest)) ->
  subscript face0 "name" = inr (VStr name0) ->
  data !! "name_normalized" = Some queried ->
  subscript (if eq_str queried (normalize_str name0 true) then face0 else face1)
            "type_line" = inr type_line ->
  py_in "Planeswalker" type_line = inr true ->
  py_in "Saga" type_line = inr false ->
  py_in "Battle" type_line = inr false ->
  process_scryfall_data data w
    = (Ok (<["layout" := VStr "planeswalker_tf"]> data), w) /\
  process_scryfall_data (<["layout" := VStr "planeswalker_tf"]> data) w
    = (Ok (<["layout" := VStr "planeswalker_mdfc"]> data), w).
Proof.
  intros Hlay Hcf Hname0 Hq Htl Hpw Hsaga Hbattle. split.
  - rewrite (classify_two_faces data (VStr "transform") face0 face1 rest name0
               queried type_line true false false w); auto.
  - rewrite (classify_two_faces (<["layout" := VStr "planeswalker_tf"]> data)
               (VStr "planeswalker_tf") face0 face1 rest name0
               queried type_line true false false w);
      rewrite ?insert_insert_eq; try reflexivity; try assumption;
      try (apply lookup_insert_eq);
      rewrite lookup_insert_ne by discriminate; assumption.
Qed.

End MoreClassification.

Lemma processing_keeps_other_keys_witness :
  bruna_processed !! "name_normalized" = bruna_record !! "name_normalized".
Proof.
  apply (@processing_keeps_other_keys sample_imports bruna_record bruna_processed
           (world_at_start net_meld) world_after_bruna "name_normalized").
  - reflexivity.
  - simpl. intros [H|[H|[H|[]]]]; discriminate.
Defined.

Lemma only_meld_cards_are_fetched_witness :
  snd (@process_scryfall_data sample_imports tibalt_record (world_at_start net_down))
  = world_at_start net_down.
Proof.
  apply (@only_meld_cards_are_fetched sample_imports tibalt_record
           (VStr "modal_dfc") (world_at_start net_down)); reflexivity.
Defined.

Lemma failed_face_request_escapes_witness :
  @process_scryfall_data sample_imports bruna_record (world_at_start net_down)
  = (Raise RequestException,
     set_sent ([] ++ ["cards/emn/15"]) (world_at_start net_down)).
Proof.
  apply (@failed_face_request_escapes sample_imports bruna_record
           bruna_part [brisela_part] "cards/emn/15" RequestException
           (world_at_start net_down)); reflexivity.
Defined.

Lemma meld_without_result_raises_witness :
  @process_scryfall_data sample_imports orphan_meld_record (world_at_start net_meld)
  = (Raise TypeError, world_at_start net_meld).
Proof.
  apply (@meld_without_result_raises sample_imports orphan_meld_record
           [bruna_part; gisela_part] (VStr "BRUNA, THE FADING LIGHT")
           (world_at_start net_meld)).
  - reflexivity.
  - reflexivity.
  - repeat constructor; eexists; reflexivity.
  - reflexivity.
  - reflexivity.
Defined.

Lemma single_face_layout_is_stable_witness :
  @process_scryfall_data sample_imports brokkos_record (world_at_start net_down)
    = (Ok (<["layout" := VStr "mutate"]> brokkos_record), world_at_start net_down) /\
  @process_scryfall_data sample_imports (<["layout" := VStr "mutate"]> brokkos_record)
     (world_at_start net_down)
    = (Ok (<["layout" := VStr "mutate"]> brokkos_record), world_at_start net_down).
Proof.
  apply (@single_face_layout_is_stable sample_imports brokkos_record
           (VStr "normal") true false (world_at_start net_down)); reflexivity.
Defined.

Lemma reprocessing_turns_tf_into_mdfc_witness :
  @process_scryfall_data sample_imports bolas_record (world_at_start net_down)
    = (Ok (<["layout" := VStr "planeswalker_tf"]> bolas_record),
       world_at_start net_down) /\
  @process_scryfall_data sample_imports
     (<["layout" := VStr "planeswalker_tf"]> bolas_record) (world_at_start net_down)
    = (Ok (<["layout" := VStr "planeswalker_mdfc"]> bolas_record),
       world_at_start net_down).
Proof.
  apply (@reprocessing_turns_tf_into_mdfc sample_imports bolas_record
           bolas_front bolas_back [] "Nicol Bolas, the Ravager"
           (VStr "NICOL BOLAS, THE ARISEN") (VStr "Legendary Planeswalker - Bolas")
           (world_at_start net_down)); reflexivity.
Defined.

(** ** More on the filename parser *)

(** X17. For a file name made of a name, any run of tags and four closing
    characters (name and closing characters without brackets, tag contents
    without brackets and line breaks), [retrieve_card_info] returns the
    name and, for each kind of bracket, the content of the first tag of that
    kind, or [None] when there is none: without tags all three are [None],
    and a second tag of a kind is ignored.  The four closing characters are
    cut whatever they are. *)
Theorem retrieve_card_info_first_tags name tags ext :
  plain name ->
  Forall (fun t => clean (snd t)) tags ->
  plain ext ->
  String.length ext = 4%nat ->
  retrieve_card_info (name ++ tags_text tags ++ ext)
  = mk_card_info name
      (first_or_None (contents_of Round tags))
      (first_or_None (contents_of Square tags))
      (first_or_None (contents_of Curly tags)).
Proof.
  intros Hname Htags Hext Hlen.
  unfold retrieve_card_info.
  rewrite <- append_assoc, (drop_last4_ext _ ext Hlen), append_assoc.
  unfold re_split_sep.
  rewrite (hd_split_from EmptyString name (tags_text tags) Hname (tags_text_separator tags)).
  rewrite append_nil_l.
  pose proof (findall_filename Curly name tags ext Hname Htags Hext) as Hcurly.
  pose proof (findall_filename Round name tags ext Hname Htags Hext) as Hround.
  pose proof (findall_filename Square name tags ext Hname Htags Hext) as Hsquare.
  cbn [opener closer] in Hcurly, Hround, Hsquare.
  rewrite Hcurly, Hround, Hsquare. reflexivity.
Qed.

Lemma retrieve_card_info_first_tags_witness :
  retrieve_card_info
    ("Island" ++ tags_text [(Round, "Rob Alexander"); (Round, "Mark Poole")] ++ ".png")
  = mk_card_info "Island" (Some "Rob Alexander") None None.
Proof.
  apply (retrieve_card_info_first_tags "Island"
           [(Round, "Rob Alexander"); (Round, "Mark Poole")] ".png").
  - reflexivity.
  - repeat constructor.
  - reflexivity.
  - reflexivity.
Defined.

Lemma substring_short (s : string) n :
  (String.length s <= n)%nat -> String.substring 0 (String.length s - n) s = EmptyString.
Proof.
  intros Hn. replace (String.length s - n)%nat with 0%nat by lia.
  destruct s; reflexivity.
Qed.

(** X18. A file name of four characters or fewer has nothing left once the
    extension is cut: the name is empty. *)
Theorem short_filename_has_empty_name filename :
  (String.length filename <= 4)%nat ->
  card_name (retrieve_card_info filename) = EmptyString.
Proof.
  intros Hlen. unfold retrieve_card_info, drop_last4. cbn [card_name].
  rewrite (substring_short filename 4 Hlen). reflexivity.
Qed.

Lemma short_filename_has_empty_name_witness :
  card_name (retrieve_card_info "a.pn") = EmptyString.
Proof. apply (short_filename_has_empty_name "a.pn"). simpl. lia. Defined.

(** ** The card requests *)

#[local] Arguments search_url : simpl never.
#[local] Arguments unique_url : simpl never.
#[local] Arguments with_params : simpl never.

(** A decorated call, evaluated: one run of the body beneath the final
    catch. *)
Lemma wrapped_eval fuel fail_response (func : M obj) w :
  (2 <= fuel)%nat ->
  exists w1, same_but_time w w1 /\
    handle_request_failure fuel fail_response func w
    = match func (set_calls (S (calls w1)) w1) with
      | (Raise e, w') =>
          (Ok (fallback_value fail_response),
           set_console_log (console_log w' ++ [e]) w')
      | r => r
      end.
Proof.
  intros Hfuel.
  destruct (handle_request_failure_once fuel fail_response func w Hfuel)
    as (w1 & Hsame & ->).
  exists w1. split; [assumption|].
  unfold handle_final_exception, try_except, enter, bind, log_exception, ret.
  destruct (func _) as [[o|e|] w']; reflexivity.
Qed.

Lemma check_playable_dict v : check_playable_card v = inr true -> is_dict v.
Proof.
  destruct v; simpl; try discriminate. intros _. eexists. reflexivity.
Qed.

Lemma check_playable_total (d : dict) :
  exists b, check_playable_card (VDict d) = inr b.
Proof.
  unfold check_playable_card, dict_get, dict_get_default, ebind.
  destruct (eq_str _ "minigame"); [eauto|].
  destruct (_ || _); eauto.
Qed.

Lemma first_playable_found cards : forall c,
  first_playable cards = inr (Some c) ->
  check_playable_card c = inr true /\ In c cards.
Proof.
  induction cards as [|x cards IH]; intros c; simpl; [discriminate|].
  destruct (check_playable_card x) as [e|[]] eqn:E; simpl; try discriminate.
  - intros [= <-]. auto.
  - intros Hf. destruct (IH c Hf). auto.
Qed.

Lemma first_playable_skips skipped c rest :
  Forall (fun s => check_playable_card s = inr false) skipped ->
  check_playable_card c = inr true ->
  first_playable (skipped ++ c :: rest) = inr (Some c).
Proof.
  intros Hsk Hc. induction Hsk as [|x l Hx _ IH]; simpl.
  - rewrite Hc. reflexivity.
  - rewrite Hx. simpl. exact IH.
Qed.

Lemma truthy_dict_lookup (r : dict) key v : r !! key = Some v -> truthy_dict r = true.
Proof.
  unfold truthy_dict. intros Hk.
  destruct (map_to_list r) eqn:E; [|reflexivity].
  apply map_to_list_empty_iff in E. subst. rewrite lookup_empty in Hk. discriminate.
Qed.

(** The bodies of the two card requests end, and what they return is an
    error value or a playable record. *)
Lemma get_card_unique_raw_ends card_set number lang :
  ends_with (fun o => exists v, o = Fresh v /\ playable_or_error v)
    (get_card_unique_raw card_set number lang).
Proof.
  intros w. unfold get_card_unique_raw.
  destruct card_set as [code|]; [|apply same_store_refl].
  unfold bind, requests_get.
  destruct (http w _ _) as [e|[card|]]; simpl; try apply same_store_set_sent.
  unfold accepts.
  destruct (dict_get card "object") as [e|object] eqn:Hobj; simpl;
    [apply same_store_set_sent|].
  destruct (negb (eq_str object "error")).
  - destruct (check_playable_card card) as [e|[]] eqn:Hp; simpl;
      try apply same_store_set_sent; (split; [apply same_store_set_sent|]).
    + exists card. split; [reflexivity|]. right.
      destruct (check_playable_dict card Hp) as [d ->]. eauto.
    + eexists. split; [reflexivity|]. left. eauto.
  - simpl. split; [apply same_store_set_sent|].
    eexists. split; [reflexivity|]. left. eauto.
Qed.

Lemma get_card_search_raw_ends cfg name card_set lang extras :
  ends_with (fun o => exists v, o = Fresh v /\ playable_or_error v)
    (get_card_search_raw cfg name card_set lang extras).
Proof.
  intros w. unfold get_card_search_raw, bind, requests_get.
  destruct (http w _ _) as [e|[answer|]]; simpl; try apply same_store_set_sent.
  destruct (search_cards answer) as [e|[c|]] eqn:Hs; simpl;
    try apply same_store_set_sent; (split; [apply same_store_set_sent|]).
  - exists c. split; [reflexivity|]. right.
    unfold search_cards in Hs.
    destruct (dict_get_default _ "data" _) as [e|data]; simpl in Hs; [discriminate|].
    destruct (py_iter data) as [e|cards]; simpl in Hs; [discriminate|].
    destruct (first_playable_found cards c Hs) as [Hp _].
    destruct (check_playable_dict c Hp) as [d ->]. eauto.
  - eexists. split; [reflexivity|]. left. eauto.
Qed.

Lemma raise_ends (P : obj -> Prop) e : ends_with P (raise e).
Proof. intros w. apply same_store_refl. Qed.

Lemma action_returns fuel cfg unique name card_set number lang extras w :
  (2 <= fuel)%nat ->
  exists v w',
    action fuel cfg unique name card_set number lang extras w = (Ok (Fresh v), w') /\
    same_store w w' /\ playable_or_error v.
Proof.
  intros Hfuel.
  set (P := fun o => exists v, o = Fresh v /\ playable_or_error v).
  assert (Hwrapped : forall func, ends_with P func ->
            exists v w',
              handle_request_failure fuel (Fresh (VStr "error")) func w
              = (Ok (Fresh v), w') /\ same_store w w' /\ playable_or_error v).
  { intros func Hends.
    destruct (wrapped_call_returns P fuel (Fresh (VStr "error")) func w Hfuel Hends)
      as (o & w' & Hrun & Hst & Ho).
    destruct Ho as [-> | (v & -> & Hv)].
    - eexists _, w'. split; [exact Hrun|]. split; [exact Hst|]. left. eauto.
    - exists v, w'. auto. }
  unfold action, get_card_unique_extras, get_card_unique, get_card_search.
  destruct unique; [destruct extras|]; apply Hwrapped.
  - apply raise_ends.
  - apply get_card_unique_raw_ends.
  - apply get_card_search_raw_ends.
Qed.

(** X19. What a card request returns is never an unplayable record: with
    two iterations at hand every call of [get_card_unique] or
    [get_card_search] returns, and its result is an error value or a dict
    that passes [check_playable_card]. *)
Theorem card_request_is_playable_or_error fuel cfg unique name card_set number
    lang extras w :
  (2 <= fuel)%nat ->
  exists v w',
    action fuel cfg unique name card_set number lang extras w = (Ok (Fresh v), w') /\
    same_store w w' /\ playable_or_error v.
Proof. apply action_returns. Qed.

(** X20. A search returns the first entry of [data] that is playable:
    art-series, reversible and minigame entries before it are passed
    over. *)
Theorem search_returns_first_playable fuel cfg name card_set lang extras
    (r c : dict) skipped rest w :
  (2 <= fuel)%nat ->
  http w (length (sent w)) (search_url cfg name card_set lang extras)
    = inr (Some (VDict r)) ->
  r !! "data" = Some (VList (skipped ++ VDict c :: rest)) ->
  Forall (fun s => check_playable_card s = inr false) skipped ->
  check_playable_card (VDict c) = inr true ->
  exists w',
    get_card_search fuel cfg name card_set lang extras w = (Ok (Fresh (VDict c)), w') /\
    after_request (search_url cfg name card_set lang extras) [] w w'.
Proof.
  intros Hfuel Hanswer Hdata Hskipped Hc. unfold get_card_search.
  destruct (wrapped_eval fuel (Fresh (VStr "error"))
              (get_card_search_raw cfg name card_set lang extras) w Hfuel)
    as (w1 & Hsame & ->).
  destruct Hsame as (Hj & Hh & Hs & Hf & Hwr & Hl & Hsh & Hcalls).
  unfold get_card_search_raw, bind, requests_get. simpl.
  rewrite Hh, Hs, Hanswer. simpl.
  assert (Hfound : search_cards (VDict r) = inr (Some (VDict c))).
  { unfold search_cards. simpl. rewrite (truthy_dict_lookup r _ _ Hdata).
    simpl. rewrite Hdata. simpl.
    apply first_playable_skips; assumption. }
  rewrite Hfound. simpl.
  eexists. split; [reflexivity|].
  unfold after_request. simpl. rewrite ?Hs, ?Hl, ?Hh, ?Hf, ?Hsh, ?Hwr, ?app_nil_r.
  tauto.
Qed.

Lemma card_request_is_playable_or_error_witness :
  exists v w',
    action 2 english false "Damnation" (Some "2x2") "" "en" false
      (world_at_start net_search) = (Ok (Fresh v), w') /\
    same_store (world_at_start net_search) w' /\ playable_or_error v.
Proof.
  apply (card_request_is_playable_or_error 2 english false "Damnation"
           (Some "2x2") "" "en" false (world_at_start net_search)).
  lia.
Defined.

Lemma search_returns_first_playable_witness :
  exists w',
    get_card_search 2 english "Damnation" (Some "2x2") "en" false
      (world_at_start net_search) = (Ok (Fresh (VDict damnation)), w') /\
    after_request (search_url english "Damnation" (Some "2x2") "en" false) []
      (world_at_start net_search) w'.
Proof.
  apply (search_returns_first_playable 2 english "Damnation" (Some "2x2") "en" false
           (<["data" := VList [VDict damnation_art; VDict damnation]]> ∅)
           damnation [VDict damnation_art] []).
  - lia.
  - reflexivity.
  - reflexivity.
  - repeat constructor.
  - reflexivity.
Defined.

#[local] Arguments search_url : simpl never.
#[local] Arguments unique_url : simpl never.
#[local] Arguments with_params : simpl never.

Section CardData.
Context `{Imports}.










Lemma get_card_unique_extras_eval fuel w :
  (2 <= fuel)%nat ->
  exists w',
    get_card_unique_extras fuel w = (Ok (Fresh (VError ScryfallError_default)), w') /\
    sent w' = sent w /\
    console_log w' = (console_log w ++ [TypeError])%list.
Proof.
  intros Hfuel. unfold get_card_unique_extras.
  destruct (wrapped_eval fuel (Fresh (VStr "error")) (raise TypeError) w Hfuel)
    as (w1 & Hsame & ->).
  destruct Hsame as (Hj & Hh & Hs & Hf & Hwr & Hl & Hsh & Hcalls).
  simpl. eexists. split; [reflexivity|]. simpl. rewrite ?Hs, ?Hl. auto.
Qed.

Lemma get_card_unique_failed fuel code number lang w :
  (2 <= fuel)%nat ->
  (forall card,
     http w (length (sent w)) (unique_url code number lang) = inr (Some card) ->
     accepts card <> inr true) ->
  exists e l w',
    get_card_unique fuel (Some code) number lang w = (Ok (Fresh (VError e)), w') /\
    sent w' = (sent w ++ [unique_url code number lang])%list /\
    console_log w' = (console_log w ++ l)%list.
Proof.
  intros Hfuel Hno. unfold get_card_unique.
  destruct (wrapped_eval fuel (Fresh (VStr "error"))
              (get_card_unique_raw (Some code) number lang) w Hfuel)
    as (w1 & Hsame & ->).
  destruct Hsame as (Hj & Hh & Hs & Hf & Hwr & Hl & Hsh & Hcalls).
  unfold get_card_unique_raw, bind, requests_get. simpl. rewrite Hh, Hs.
  destruct (http w _ _) as [e|[card|]] eqn:Hanswer; simpl.
  - eexists _, [e], _. split; [reflexivity|]. simpl. rewrite ?Hs, ?Hl. auto.
  - specialize (Hno card eq_refl).
    destruct (accepts card) as [e|[]]; simpl.
    + eexists _, [e], _. split; [reflexivity|]. simpl. rewrite ?Hs, ?Hl. auto.
    + contradiction.
    + eexists _, [], _. split; [reflexivity|]. simpl.
      rewrite ?Hs, ?Hl, ?app_nil_r. auto.
  - eexists _, [RequestException], _. split; [reflexivity|]. simpl.
    rewrite ?Hs, ?Hl. auto.
Qed.

(** X22. A lookup by set and collector number that finds no card loses its
    diagnosis: with [scry_extras] off, [get_card_data] calls
    [get_card_unique] again with an argument it does not take, and returns
    the blank [ScryfallError()] of that failed call in place of the error
    that names the url, the set and the number.  One request is sent. *)
Theorem failed_number_lookup_is_blank fuel cfg name code number w :
  (2 <= fuel)%nat ->
  cfg_lang cfg = "en" ->
  cfg_scry_extras cfg = false ->
  number <> EmptyString ->
  (forall card,
     http w (length (sent w)) (unique_url code (lstrip_chars "0 " number) "en")
     = inr (Some card) ->
     accepts card <> inr true) ->
  exists l w',
    get_card_data fuel cfg name (Some code) (Some number) w
    = (Ok ([], VError ScryfallError_default), w') /\
    sent w' = (sent w ++ [unique_url code (lstrip_chars "0 " number) "en"])%list /\
    console_log w' = (console_log w ++ l ++ [TypeError])%list.
Proof.
  intros Hfuel Hlang Hextras Hnumber Hno.
  unfold get_card_data. rewrite Hlang, Hextras.
  assert (Htruthy : truthy_opt (Some number) = true).
  { destruct number; [contradiction|reflexivity]. }
  rewrite Htruthy.
  change (default EmptyString (Some number)) with number.
  change ("en" =? "en")%string with true. cbv iota.
  unfold bind at 1. unfold ret at 1.
  unfold bind at 1. unfold bind at 1. unfold action at 1.
  destruct (get_card_unique_failed fuel code (lstrip_chars "0 " number) "en" w
              Hfuel Hno) as (e & l & w1 & -> & Hs1 & Hl1).
  unfold obj_value at 1. unfold bind at 1. unfold bind at 1. unfold action at 1.
  destruct (get_card_unique_extras_eval fuel w1 Hfuel) as (w2 & -> & Hs2 & Hl2).
  unfold obj_value, ret. 
  exists l, w2. split; [reflexivity|].
  rewrite Hs2, Hl2, Hs1, Hl1, <- app_assoc. auto.
Qed.

(** X23. Leading zeros and blanks of a collector number do not reach the
    request: two numbers that differ in them only are looked up alike. *)
Theorem leading_zeros_are_dropped fuel cfg name card_set number number' :
  number <> EmptyString ->
  number' <> EmptyString ->
  lstrip_chars "0 " number = lstrip_chars "0 " number' ->
  get_card_data fuel cfg name card_set (Some number)
  = get_card_data fuel cfg name card_set (Some number').
Proof.
  intros Hnumber Hnumber' Hsame. unfold get_card_data.
  assert (Htruthy : forall n, n <> EmptyString -> truthy_opt (Some n) = true).
  { intros n Hn. destruct n; [contradiction|reflexivity]. }
  rewrite (Htruthy number Hnumber), (Htruthy number' Hnumber').
  change (default EmptyString (Some number)) with number.
  change (default EmptyString (Some number')) with number'.
  rewrite Hsame. reflexivity.
Qed.

End CardData.


Lemma failed_number_lookup_is_blank_witness :
  exists l w',
    @get_card_data sample_imports 2 english "Damnation" (Some "2x2") (Some "076")
      (world_at_start net_not_found)
    = (Ok ([], VError ScryfallError_default), w') /\
    sent w' = (sent (world_at_start net_not_found)
               ++ [unique_url "2x2" (lstrip_chars "0 " "076") "en"])%list /\
    console_log w' = (console_log (world_at_start net_not_found) ++ l ++ [TypeError])%list.
Proof.
  apply (@failed_number_lookup_is_blank sample_imports 2 english "Damnation"
           "2x2" "076" (world_at_start net_not_found)).
  - lia.
  - reflexivity.
  - reflexivity.
  - discriminate.
  - intros card [= <-]. vm_compute. discriminate.
Defined.

Lemma leading_zeros_are_dropped_witness :
  @get_card_data sample_imports 2 english "Damnation" (Some "2x2") (Some "076")
  = @get_card_data sample_imports 2 english "Damnation" (Some "2x2") (Some " 76").
Proof.
  apply (@leading_zeros_are_dropped sample_imports 2 english "Damnation" (Some "2x2")
           "076" " 76").
  - discriminate.
  - discriminate.
  - reflexivity.
Defined.

#[local] Arguments with_params : simpl never.

(** The collected pages of [get_cards_paged], evaluated. *)
Lemma get_cards_paged_eval fuel url all_pages kwargs w :
  (2 <= fuel)%nat ->
  exists w',
    get_cards_paged fuel url all_pages kwargs w
    = (match http w (length (sent w)) (with_params url kwargs) with
       | inr (Some res) =>
           match paged_cards all_pages res with
           | inr cards => Ok (Fresh cards)
           | inl _ => Ok (Shared FAIL_CARDS_PAGED)
           end
       | _ => Ok (Shared FAIL_CARDS_PAGED)
       end, w') /\
    after_request (with_params url kwargs)
      (match http w (length (sent w)) (with_params url kwargs) with
       | inr (Some res) =>
           match paged_cards all_pages res with
           | inr _ => []
           | inl e => [e]
           end
       | inr None => [RequestException]
       | inl e => [e]
       end) w w'.
Proof.
  intros Hfuel. unfold get_cards_paged.
  destruct (wrapped_eval fuel (Shared FAIL_CARDS_PAGED)
              (get_cards_paged_raw url all_pages kwargs) w Hfuel)
    as (w1 & Hsame & ->).
  destruct Hsame as (Hj & Hh & Hs & Hf & Hwr & Hl & Hsh & Hcalls).
  unfold get_cards_paged_raw, bind, requests_get. simpl. rewrite Hh, Hs.
  destruct (http w _ _) as [e|[res|]]; simpl.
  - eexists. split; [reflexivity|]. unfold after_request. simpl.
    rewrite ?Hs, ?Hl, ?Hh, ?Hf, ?Hsh, ?Hwr. tauto.
  - destruct (paged_cards all_pages res) as [e|cards]; simpl;
      eexists; (split; [reflexivity|]); unfold after_request; simpl;
      rewrite ?Hs, ?Hl, ?Hh, ?Hf, ?Hsh, ?Hwr, ?app_nil_r; tauto.
  - eexists. split; [reflexivity|]. unfold after_request. simpl.
    rewrite ?Hs, ?Hl, ?Hh, ?Hf, ?Hsh, ?Hwr. tauto.
Qed.

(** X24. [get_cards_paged] never fetches a second page: when the answer
    announces one and all pages are asked for, building the next call
    raises, the cards of the first page are dropped, and the call returns
    its fallback list after one request. *)
Theorem further_pages_give_fallback fuel url kwargs (res : dict) has_more next_page w :
  (2 <= fuel)%nat ->
  http w (length (sent w)) (with_params url kwargs) = inr (Some (VDict res)) ->
  res !! "has_more" = Some has_more -> truthy has_more = true ->
  res !! "next_page" = Some next_page -> truthy next_page = true ->
  exists w',
    get_cards_paged fuel url true kwargs w = (Ok (Shared FAIL_CARDS_PAGED), w') /\
    after_request (with_params url kwargs)
      [match default (VList []) (res !! "data") with
       | VList _ => TypeError
       | _ => AttributeError
       end] w w'.
Proof.
  intros Hfuel Hanswer Hmore Hmore_true Hnext Hnext_true.
  destruct (get_cards_paged_eval fuel url true kwargs w Hfuel) as (w' & Hrun & Hafter).
  rewrite Hanswer in Hrun, Hafter.
  assert (Hcards : paged_cards true (VDict res)
                   = inl (match default (VList []) (res !! "data") with
                          | VList _ => TypeError
                          | _ => AttributeError
                          end)).
  { unfold paged_cards, dict_get, dict_get_default. simpl.
    rewrite Hmore. simpl. rewrite Hmore_true. simpl.
    rewrite Hnext. simpl. rewrite Hnext_true.
    destruct (default (VList []) (res !! "data")); reflexivity. }
  rewrite Hcards in Hrun, Hafter.
  exists w'. split; assumption.
Qed.

(** X25. Without a further page to fetch, [get_cards_paged] returns the
    [data] of the answer, or a new empty list when there is none. *)
Theorem single_page_is_returned fuel url all_pages kwargs (res : dict) w :
  (2 <= fuel)%nat ->
  http w (length (sent w)) (with_params url kwargs) = inr (Some (VDict res)) ->
  all_pages = false \/
  truthy (default VNone (res !! "has_more")) = false \/
  truthy (default VNone (res !! "next_page")) = false ->
  exists w',
    get_cards_paged fuel url all_pages kwargs w
    = (Ok (Fresh (default (VList []) (res !! "data"))), w') /\
    after_request (with_params url kwargs) [] w w'.
Proof.
  intros Hfuel Hanswer Hlast.
  destruct (get_cards_paged_eval fuel url all_pages kwargs w Hfuel)
    as (w' & Hrun & Hafter).
  rewrite Hanswer in Hrun, Hafter.
  assert (Hcards : paged_cards all_pages (VDict res)
                   = inr (default (VList []) (res !! "data"))).
  { unfold paged_cards, dict_get, dict_get_default. simpl.
    destruct all_pages; simpl; [|reflexivity].
    destruct Hlast as [Hall | [Hmore | Hnext]]; [discriminate| |].
    - rewrite Hmore. reflexivity.
    - destruct (truthy (default VNone (res !! "has_more"))); simpl; [|reflexivity].
      rewrite Hnext. reflexivity. }
  rewrite Hcards in Hrun, Hafter.
  exists w'. split; assumption.
Qed.

Lemma kw_get_set k k' v kwargs :
  kw_get k kwargs = None -> k' <> k -> kw_get k (kw_set k' v kwargs) = None.
Proof.
  intros Hk Hne. induction kwargs as [|[k0 v0] rest IH]; simpl in *.
  - destruct (String.eqb_spec k' k); [contradiction|reflexivity].
  - destruct (String.eqb_spec k0 k); [discriminate|].
    destruct (String.eqb_spec k0 k'); simpl.
    + destruct (String.eqb_spec k' k); [contradiction|exact Hk].
    + destruct (String.eqb_spec k0 k); [contradiction|]. exact (IH Hk).
Qed.

Lemma kw_get_merge k extra : forall base,
  kw_get k base = None -> kw_get k extra = None ->
  kw_get k (kw_merge base extra) = None.
Proof.
  unfold kw_merge.
  induction extra as [|[k0 v0] rest IH]; intros base Hbase Hextra; simpl in *.
  - exact Hbase.
  - destruct (String.eqb_spec k0 k); [discriminate|].
    apply IH; [|exact Hextra]. apply kw_get_set; assumption.
Qed.

Lemma kw_get_remove k k' kwargs :
  kw_get k kwargs = None -> kw_get k (kw_remove k' kwargs) = None.
Proof.
  intros Hk. induction kwargs as [|[k0 v0] rest IH]; simpl in *; [reflexivity|].
  destruct (String.eqb_spec k0 k); [discriminate|].
  destruct (String.eqb_spec k0 k'); simpl.
  - exact (IH Hk).
  - destruct (String.eqb_spec k0 k); [contradiction|]. exact (IH Hk).
Qed.

Lemma oracle_params_no_url oracle_id kwargs :
  kw_get "url" kwargs = None ->
  kw_get "url" (oracle_params oracle_id kwargs) = None.
Proof.
  intros Hk. unfold oracle_params.
  apply kw_get_merge; [reflexivity|].
  repeat apply kw_get_remove. exact Hk.
Qed.

(** Within the window and the quota the limiter counts the call and runs
    it. *)
Lemma rate_limit_under_quota {A} (func : M A) w :
  (0 < RATE_PERIOD - (clock w - rl_last_reset w))%Z ->
  (rl_num_calls w + 1 <= RATE_CALLS)%Z ->
  scryfall_rate_limit func w
  = func (set_limiter (rl_last_reset w) (rl_num_calls w + 1) w).
Proof.
  intros Hwin Hquota. unfold scryfall_rate_limit.
  destruct (Z.leb_spec (RATE_PERIOD - (clock w - rl_last_reset w)) 0); [lia|].
  simpl. destruct (Z.ltb_spec RATE_CALLS (rl_num_calls w + 1)); [lia|reflexivity].
Qed.

Lemma wrapped_under_quota fuel fail_response (func : M obj) w :
  (1 <= fuel)%nat ->
  (0 < RATE_PERIOD - (clock w - rl_last_reset w))%Z ->
  (rl_num_calls w + 1 <= RATE_CALLS)%Z ->
  handle_request_failure fuel fail_response func w
  = handle_final_exception fail_response (enter func)
      (set_limiter (rl_last_reset w) (rl_num_calls w + 1) w).
Proof.
  intros Hfuel Hwin Hquota. destruct fuel as [|fuel]; [lia|].
  unfold handle_request_failure.
  assert (Hrun : scryfall_rate_limit
                   (on_exception 3 1000
                      (handle_final_exception fail_response (enter func))) w
                 = handle_final_exception fail_response (enter func)
                     (set_limiter (rl_last_reset w) (rl_num_calls w + 1) w)).
  { rewrite rate_limit_under_quota by assumption.
    apply on_exception_transparent.
    intros e He. exfalso.
    exact (handle_final_exception_never_raises _ _ _ _ He). }
  rewrite sleep_and_retry_through; [exact Hrun|].
  intros rem. rewrite Hrun. apply handle_final_exception_never_raises.
Qed.

(** X26. A lookup by oracle id passes the rate limiter twice, once for
    [get_cards_oracle] and once for [get_cards_paged], and sends one
    request: it takes two of the twenty calls of a window. *)
Theorem oracle_lookup_takes_two_slots fuel oracle_id all_pages kwargs w :
  (1 <= fuel)%nat ->
  kw_get "url" kwargs = None ->
  (0 < RATE_PERIOD - (clock w - rl_last_reset w))%Z ->
  (rl_num_calls w + 2 <= RATE_CALLS)%Z ->
  exists o w',
    get_cards_oracle fuel oracle_id all_pages kwargs w = (Ok o, w') /\
    rl_num_calls w' = (rl_num_calls w + 2)%Z /\
    calls w' = S (S (calls w)) /\
    clock w' = clock w /\
    sent w' = (sent w ++ [with_params SCRY_API_CARDS_SEARCH
                            (oracle_params oracle_id kwargs)])%list.
Proof.
  intros Hfuel Hurl Hwin Hquota. unfold get_cards_oracle.
  rewrite wrapped_under_quota by (assumption || lia).
  rewrite (oracle_params_no_url oracle_id kwargs Hurl).
  unfold handle_final_exception at 1, try_except, enter at 1, get_cards_paged.
  rewrite wrapped_under_quota by (simpl; assumption || lia).
  unfold handle_final_exception, try_except, enter, get_cards_paged_raw,
    bind, requests_get.
  simpl.
  destruct (http w _ _) as [e|[res|]]; simpl.
  - eexists _, _. split; [reflexivity|]. simpl. repeat split; lia.
  - destruct (paged_cards all_pages res) as [e|cards]; simpl;
      eexists _, _; (split; [reflexivity|]); simpl; repeat split; lia.
  - eexists _, _. split; [reflexivity|]. simpl. repeat split; lia.
Qed.

Lemma further_pages_give_fallback_witness :
  exists w',
    get_cards_paged 2 SCRY_API_CARDS_SEARCH true [("q", "damnation")]
      (world_at_start net_more_pages) = (Ok (Shared FAIL_CARDS_PAGED), w') /\
    after_request (with_params SCRY_API_CARDS_SEARCH [("q", "damnation")])
      [TypeError] (world_at_start net_more_pages) w'.
Proof.
  exact (further_pages_give_fallback 2 SCRY_API_CARDS_SEARCH [("q", "damnation")]
           (<["data" := VList [VDict damnation]]>
            (<["has_more" := VBool true]>
            (<["next_page" := VStr "https://api.scryfall.com/cards/search?page=2"]> ∅)))
           (VBool true) (VStr "https://api.scryfall.com/cards/search?page=2")
           (world_at_start net_more_pages)
           (le_n 2) eq_refl eq_refl eq_refl eq_refl eq_refl).
Defined.

Lemma single_page_is_returned_witness :
  exists w',
    get_cards_paged 2 SCRY_API_CARDS_SEARCH false [("q", "damnation")]
      (world_at_start net_more_pages)
    = (Ok (Fresh (VList [VDict damnation])), w') /\
    after_request (with_params SCRY_API_CARDS_SEARCH [("q", "damnation")])
      [] (world_at_start net_more_pages) w'.
Proof.
  exact (single_page_is_returned 2 SCRY_API_CARDS_SEARCH false [("q", "damnation")]
           (<["data" := VList [VDict damnation]]>
            (<["has_more" := VBool true]>
            (<["next_page" := VStr "https://api.scryfall.com/cards/search?page=2"]> ∅)))
           (world_at_start net_more_pages)
           (le_n 2) eq_refl (or_introl eq_refl)).
Defined.

Lemma oracle_lookup_takes_two_slots_witness :
  exists o w',
    get_cards_oracle 1 "abc" false [("order", "name")] (world_at_start net_search)
    = (Ok o, w') /\
    rl_num_calls w' = (rl_num_calls (world_at_start net_search) + 2)%Z /\
    calls w' = S (S (calls (world_at_start net_search))) /\
    clock w' = clock (world_at_start net_search) /\
    sent w' = (sent (world_at_start net_search)
               ++ [with_params SCRY_API_CARDS_SEARCH
                     (oracle_params "abc" [("order", "name")])])%list.
Proof.
  apply (oracle_lookup_takes_two_slots 1 "abc" false [("order", "name")]
           (world_at_start net_search)).
  - lia.
  - reflexivity.
  - vm_compute. reflexivity.
  - vm_compute. discriminate.
Defined.

(** ** More on the render job *)

Section MoreRender.
Context `{RenderEnv}.

Lemma not_basic_land_test (name : string) :
  ~ In name basic_land_names ->
  existsb (fun n => (n =? name)%string) basic_land_names = false.
Proof.
  intros Hnot. apply not_true_is_false. intros Hex.
  apply existsb_exists in Hex. destruct Hex as (n & Hin & Heq).
  apply String.eqb_eq in Heq. subst. contradiction.
Qed.

Lemma run_template_rendered file card template layout scryfall l :
  run_template file card template layout scryfall = Rendered l ->
  l = with_creator (if truthy_opt (card_creator card)
                    then opt_value (card_creator card) else VNone)
        (with_collector_number
           (match scryfall with
            | Some data => match subscript data "collector_number" with
                           | inr v => v
                           | inl _ => VNone
                           end
            | None => VNone
            end) layout).
Proof.
  unfold run_template.
  destruct (select_template template layout) as [e|[t|]]; try discriminate.
  destruct (execute t _ file); [discriminate|].
  intros [= <-]. reflexivity.
Qed.

(** X27. What a template is executed on: the creator is the first
    [{...}] tag of the file name or [None]; a basic land has no collector
    number; any other card carries the artist of the file name when there is
    one, in place of the artist from Scryfall. *)
Theorem rendered_layout_fields (file : string) (template : value) (l : Layout) :
  render file template = Rendered l ->
  let card := retrieve_card_info (basename file) in
  creator l = (if truthy_opt (card_creator card)
               then opt_value (card_creator card) else VNone) /\
  (In (card_name card) basic_land_names -> collector_number l = VNone) /\
  (~ In (card_name card) basic_land_names ->
   truthy_opt (card_artist card) = true ->
   layout_artist l = opt_value (card_artist card)).
Proof.
  intros Hrun card. unfold render in Hrun. fold card in Hrun.
  destruct (build_layout card) as [stopped|[layout scryfall]] eqn:Hbuild.
  - unfold build_layout in Hbuild.
    exfalso.
    destruct (existsb _ basic_land_names).
    + destruct (basic_land_layout card); inversion Hbuild; subst; discriminate.
    + destruct (scry_card_info _ _) as [e|sc]; [inversion Hbuild; subst; discriminate|].
      destruct (mapped_layout sc _) as [e|lay].
      * destruct (subscript sc "layout"); inversion Hbuild; subst; discriminate.
      * destruct (scry_set_info _); inversion Hbuild; subst; discriminate.
  - apply run_template_rendered in Hrun. subst l.
    split; [reflexivity|]. split.
    + intros Hland. unfold build_layout in Hbuild.
      rewrite (basic_land_test _ Hland) in Hbuild.
      destruct (basic_land_layout card); inversion Hbuild; subst. reflexivity.
    + intros Hnot Hartist. unfold build_layout in Hbuild.
      rewrite (not_basic_land_test _ Hnot) in Hbuild.
      destruct (scry_card_info _ _) as [e|sc]; [discriminate|].
      destruct (mapped_layout sc _) as [e|lay].
      * destruct (subscript sc "layout"); discriminate.
      * rewrite Hartist in Hbuild.
        destruct (scry_set_info _); inversion Hbuild; subst. reflexivity.
Qed.

(** X28. Whatever goes wrong while the layout object is built, an unknown
    layout name or an exception of the layout class, the job ends at the
    prompt that names the layout of the record: no template is looked up
    and nothing is rendered. *)
Theorem failed_layout_exits (file : string) (template : value) scryfall v e :
  let card := retrieve_card_info (basename file) in
  ~ In (card_name card) basic_land_names ->
  scry_card_info (card_name card) (card_set card) = inr scryfall ->
  subscript scryfall "layout" = inr v ->
  mapped_layout scryfall (card_name card) = inl e ->
  render file template = Exited (UnsupportedLayout v).
Proof.
  intros card Hnot Hinfo Hlayout Hfail.
  unfold render, build_layout. fold card.
  rewrite (not_basic_land_test _ Hnot), Hinfo, Hfail, Hlayout. reflexivity.
Qed.

End MoreRender.

Lemma rendered_layout_fields_witness :
  let l := mkLayout (VDict damnation) (VStr "Seb McKinnon") (VStr "2x2") "normal"
             (VInt 331) (VStr "76") (VStr "proxy") in
  let card := retrieve_card_info
                (@basename sample_env_online "Damnation (Seb McKinnon) {proxy}.png") in
  creator l = (if truthy_opt (card_creator card)
               then opt_value (card_creator card) else VNone) /\
  (In (card_name card) (@basic_land_names sample_env_online) ->
   collector_number l = VNone) /\
  (~ In (card_name card) (@basic_land_names sample_env_online) ->
   truthy_opt (card_artist card) = true ->
   layout_artist l = opt_value (card_artist card)).
Proof.
  apply (@rendered_layout_fields sample_env_online
           "Damnation (Seb McKinnon) {proxy}.png" (VStr "Normal")).
  reflexivity.
Defined.

Lemma failed_layout_exits_witness :
  @render sample_env_online "Doom Blade [2x2].png" (VStr "Normal")
  = Exited (UnsupportedLayout (VStr "art_series")).
Proof.
  apply (@failed_layout_exits sample_env_online "Doom Blade [2x2].png" (VStr "Normal")
           (VDict damnation_art) (VStr "art_series") (KeyError "art_series")).
  - simpl. intros [E|[E|[E|[E|[E|[]]]]]]; discriminate.
  - reflexivity.
  - reflexivity.
  - reflexivity.
Defined.
